(** * Session and context management of the Ray client
    ([python/ray/util/client/__init__.py])

    A shallow embedding of the module: the per-session [_ClientContext]
    objects, the module-level registry [_all_contexts], the thread-local
    active context of [RayAPIStub], and the [ManagedContext] guard.

    Python objects are mutable and shared by reference, so contexts, transport
    workers and guards live in object stores indexed by their address, and the
    functions of the module are computations in a state-and-exception monad
    over the whole process state.

    Threads appear through their thread id, which selects the slot of the
    [threading.local]; a run interleaves whole calls of the threads, every
    access to the registry being made under the module's lock.  The
    transport, the embedded server, the serializer add-ons and the client-mode
    hook are collaborators outside the module: the calls of the handshake
    ([Worker(...)], [_server_init], [connection_info], the serializer
    registration) may raise, as the code provides for with its [try] block,
    and so may the evaluation of [global_worker.node] on a transport; the
    other calls on them return. *)

From stdpp Require Import gmap strings list fin_maps pretty.

Open Scope string_scope.

(** ** Exceptions *)

(** The exception classes the module raises or lets through.  All of them
    derive from Python's [Exception], so the [except Exception] clause of
    [connect] catches every one. *)
Inductive Exn :=
  | Exception (msg : string)
  | RuntimeError (msg : string)
  | ValueError (msg : string)
  | KeyError (key : string)
  | AttributeError (msg : string)
  | CollaboratorError (msg : string).

Inductive Result (A : Type) :=
  | Ok (a : A)
  | Raise (e : Exn).
Arguments Ok {A} a.
Arguments Raise {A} e.

Definition is_raise {A} (r : Result A) : bool :=
  match r with Ok _ => false | Raise _ => true end.

(** ** Data *)

(** Values found in a connection-info dictionary ([Dict[str, Any]]). *)
Inductive PyVal :=
  | VNone
  | VStr (s : string)
  | VInt (z : Z).

(** [str(v)], as an f-string formats a value. *)
Definition py_str (v : PyVal) : string :=
  match v with
  | VNone => "None"
  | VStr s => s
  | VInt z => pretty z
  end.

(** The part of [JobConfig] the module looks at: the namespace it sets and the
    truthiness of the [pip] and [conda] fields of the runtime env. *)
Record JobConfig := {
  ray_namespace : option string;
  runtime_env_pip : bool;
  runtime_env_conda : bool
}.

(** [JobConfig()] *)
Definition JobConfig_new : JobConfig :=
  {| ray_namespace := None; runtime_env_pip := false; runtime_env_conda := false |}.

Definition set_ray_namespace (ns : string) (jc : JobConfig) : JobConfig :=
  {| ray_namespace := Some ns;
     runtime_env_pip := runtime_env_pip jc;
     runtime_env_conda := runtime_env_conda jc |}.

(** The transport object ([ray.util.client.worker.Worker]), an external
    collaborator.  The record holds what the module reads from it and how it
    answers the calls of the handshake:
    [w_server_init] is the outcome of [_server_init] ([None]: it returns),
    [w_connection_info] the outcome of [connection_info()],
    [w_is_connected] the answer of [is_connected()],
    [w_node] the outcome of evaluating [global_worker.node] on it (the
    exception of the attribute lookup, the class of the client transport
    defining no [global_worker]; or [None]; or a node with the answer of its
    [is_head()]), and [w_closed] records that [close()] ran. *)
Record Worker := {
  w_client_id : string;
  w_server_init : option Exn;
  w_connection_info : Result (gmap string PyVal);
  w_is_connected : bool;
  w_node : Result (option bool);
  w_init_pushed : option (option JobConfig * option (gmap string PyVal));
  w_closed : bool
}.

(** The collaborators of one [connect] attempt: the [Worker] constructor
    (called with the connection string, [secure], [_credentials], [metadata]
    and [connection_retries]), which raises or yields a transport object, and
    [ray.serialization_addons.apply] ([None]: it returns). *)
Record Peer := {
  Worker_new : string -> bool -> option nat -> option (list (string * string)) -> Z
               -> Result Worker;
  serialization_addons_apply : option Exn
}.

(** A [_ClientContext] object.  [api_worker] is [self.api.worker]. *)
Record _ClientContext := {
  api_worker : option nat;
  client_worker : option nat;
  _client_id : option string;
  _conn_info : gmap string PyVal;
  _server : option nat;
  _connected_with_init : bool;
  _inside_client_test : bool
}.

(** A [ManagedContext] object: the snapshot of the connection info and the
    context to restore. *)
Record ManagedContext := {
  dashboard_url : PyVal;
  python_version : PyVal;
  ray_version : PyVal;
  ray_commit : PyVal;
  protocol_version : PyVal;
  _num_clients : PyVal;
  _context_to_restore : option nat
}.

Inductive Level := WARNING | DEBUG.

(** The state of the process.  [heap], [workers] and [guards] are the object
    stores (an object's address is its index); [_all_contexts] is the module
    global of that name, whose keys are whatever [handler.id] evaluates to,
    [None] included; [handler] is [RayAPIStub._cxt], the
    [threading.local] slot, per thread id; [client_mode] is the flag behind
    [_explicitly_enable_client_mode] and [_explicitly_disable_client_mode];
    [stopped_servers] records the calls of [shutdown_with_server]. *)
Record State := {
  heap : list _ClientContext;
  workers : list Worker;
  guards : list ManagedContext;
  _all_contexts : gmap (option string) nat;
  handler : gmap nat nat;
  stub_inside_client_test : bool;
  client_mode : bool;
  stopped_servers : list (nat * bool);
  version_info : nat * nat * nat;
  environ : gset string;
  log : list (Level * string)
}.

(** This version string is incremented to indicate breaking changes in the
    protocol that require upgrading the client version. *)
Definition CURRENT_PROTOCOL_VERSION : string := "2021-09-02".

(** The address of the module global [_default_context], the first object
    the module allocates. *)
Definition _default_context : nat := 0.

(** ** Field updates *)

Definition with_heap (f : list _ClientContext -> list _ClientContext) (s : State) : State :=
  {| heap := f (heap s); workers := workers s; guards := guards s;
     _all_contexts := _all_contexts s; handler := handler s;
     stub_inside_client_test := stub_inside_client_test s;
     client_mode := client_mode s; stopped_servers := stopped_servers s;
     version_info := version_info s; environ := environ s; log := log s |}.

Definition with_workers (f : list Worker -> list Worker) (s : State) : State :=
  {| heap := heap s; workers := f (workers s); guards := guards s;
     _all_contexts := _all_contexts s; handler := handler s;
     stub_inside_client_test := stub_inside_client_test s;
     client_mode := client_mode s; stopped_servers := stopped_servers s;
     version_info := version_info s; environ := environ s; log := log s |}.

Definition with_guards (f : list ManagedContext -> list ManagedContext) (s : State) : State :=
  {| heap := heap s; workers := workers s; guards := f (guards s);
     _all_contexts := _all_contexts s; handler := handler s;
     stub_inside_client_test := stub_inside_client_test s;
     client_mode := client_mode s; stopped_servers := stopped_servers s;
     version_info := version_info s; environ := environ s; log := log s |}.

Definition with_all_contexts
    (f : gmap (option string) nat -> gmap (option string) nat) (s : State) : State :=
  {| heap := heap s; workers := workers s; guards := guards s;
     _all_contexts := f (_all_contexts s); handler := handler s;
     stub_inside_client_test := stub_inside_client_test s;
     client_mode := client_mode s; stopped_servers := stopped_servers s;
     version_info := version_info s; environ := environ s; log := log s |}.

Definition with_handler (f : gmap nat nat -> gmap nat nat) (s : State) : State :=
  {| heap := heap s; workers := workers s; guards := guards s;
     _all_contexts := _all_contexts s; handler := f (handler s);
     stub_inside_client_test := stub_inside_client_test s;
     client_mode := client_mode s; stopped_servers := stopped_servers s;
     version_info := version_info s; environ := environ s; log := log s |}.

Definition with_client_mode (b : bool) (s : State) : State :=
  {| heap := heap s; workers := workers s; guards := guards s;
     _all_contexts := _all_contexts s; handler := handler s;
     stub_inside_client_test := stub_inside_client_test s;
     client_mode := b; stopped_servers := stopped_servers s;
     version_info := version_info s; environ := environ s; log := log s |}.

Definition with_stopped_servers
    (f : list (nat * bool) -> list (nat * bool)) (s : State) : State :=
  {| heap := heap s; workers := workers s; guards := guards s;
     _all_contexts := _all_contexts s; handler := handler s;
     stub_inside_client_test := stub_inside_client_test s;
     client_mode := client_mode s; stopped_servers := f (stopped_servers s);
     version_info := version_info s; environ := environ s; log := log s |}.

Definition with_log (f : list (Level * string) -> list (Level * string)) (s : State) : State :=
  {| heap := heap s; workers := workers s; guards := guards s;
     _all_contexts := _all_contexts s; handler := handler s;
     stub_inside_client_test := stub_inside_client_test s;
     client_mode := client_mode s; stopped_servers := stopped_servers s;
     version_info := version_info s; environ := environ s; log := f (log s) |}.

Definition set_api_worker (v : option nat) (c : _ClientContext) : _ClientContext :=
  {| api_worker := v; client_worker := client_worker c; _client_id := _client_id c;
     _conn_info := _conn_info c; _server := _server c;
     _connected_with_init := _connected_with_init c;
     _inside_client_test := _inside_client_test c |}.

Definition set_client_worker (v : option nat) (c : _ClientContext) : _ClientContext :=
  {| api_worker := api_worker c; client_worker := v; _client_id := _client_id c;
     _conn_info := _conn_info c; _server := _server c;
     _connected_with_init := _connected_with_init c;
     _inside_client_test := _inside_client_test c |}.

Definition set_client_id (v : option string) (c : _ClientContext) : _ClientContext :=
  {| api_worker := api_worker c; client_worker := client_worker c; _client_id := v;
     _conn_info := _conn_info c; _server := _server c;
     _connected_with_init := _connected_with_init c;
     _inside_client_test := _inside_client_test c |}.

Definition set_conn_info (v : gmap string PyVal) (c : _ClientContext) : _ClientContext :=
  {| api_worker := api_worker c; client_worker := client_worker c;
     _client_id := _client_id c; _conn_info := v; _server := _server c;
     _connected_with_init := _connected_with_init c;
     _inside_client_test := _inside_client_test c |}.

Definition set_server (v : option nat) (c : _ClientContext) : _ClientContext :=
  {| api_worker := api_worker c; client_worker := client_worker c;
     _client_id := _client_id c; _conn_info := _conn_info c; _server := v;
     _connected_with_init := _connected_with_init c;
     _inside_client_test := _inside_client_test c |}.

Definition set_connected_with_init (v : bool) (c : _ClientContext) : _ClientContext :=
  {| api_worker := api_worker c; client_worker := client_worker c;
     _client_id := _client_id c; _conn_info := _conn_info c; _server := _server c;
     _connected_with_init := v;
     _inside_client_test := _inside_client_test c |}.

Definition set_inside_client_test (v : bool) (c : _ClientContext) : _ClientContext :=
  {| api_worker := api_worker c; client_worker := client_worker c;
     _client_id := _client_id c; _conn_info := _conn_info c; _server := _server c;
     _connected_with_init := _connected_with_init c;
     _inside_client_test := v |}.

Definition set_closed (w : Worker) : Worker :=
  {| w_client_id := w_client_id w; w_server_init := w_server_init w;
     w_connection_info := w_connection_info w; w_is_connected := w_is_connected w;
     w_node := w_node w; w_init_pushed := w_init_pushed w; w_closed := true |}.

Definition set_init_pushed (args : option JobConfig * option (gmap string PyVal))
    (w : Worker) : Worker :=
  {| w_client_id := w_client_id w; w_server_init := w_server_init w;
     w_connection_info := w_connection_info w; w_is_connected := w_is_connected w;
     w_node := w_node w; w_init_pushed := Some args; w_closed := w_closed w |}.

Definition set_context_to_restore (v : option nat) (g : ManagedContext) : ManagedContext :=
  {| dashboard_url := dashboard_url g; python_version := python_version g;
     ray_version := ray_version g; ray_commit := ray_commit g;
     protocol_version := protocol_version g; _num_clients := _num_clients g;
     _context_to_restore := v |}.

(** ** The monad of the module's functions *)

Definition M (A : Type) : Type := State -> Result A * State.

Definition ret {A} (a : A) : M A := fun s => (Ok a, s).

Definition raise {A} (e : Exn) : M A := fun s => (Raise e, s).

Definition bind {A B} (m : M A) (k : A -> M B) : M B :=
  fun s =>
    match m s with
    | (Ok a, s') => k a s'
    | (Raise e, s') => (Raise e, s')
    end.

(** [try: body except Exception: handler] *)
Definition try_except {A} (body : M A) (handler : Exn -> M A) : M A :=
  fun s =>
    match body s with
    | (Ok a, s') => (Ok a, s')
    | (Raise e, s') => handler e s'
    end.

Definition gets {A} (f : State -> A) : M A := fun s => (Ok (f s), s).

Definition modify (f : State -> State) : M unit := fun s => (Ok tt, f s).

Notation "'let!' x ':=' m 'in' k" := (bind m (fun x => k))
  (at level 10, x name, m at level 100, k at level 200).
Notation "m '>>;' k" := (bind m (fun _ => k))
  (at level 100, k at level 200, right associativity).

(** [when b: m] *)
Definition when (b : bool) (m : M unit) : M unit := if b then m else ret tt.

(** ** Access to the object stores *)

(** [_ClientContext()]: the fields as [__init__] sets them. *)
Definition _ClientContext_new : _ClientContext :=
  {| api_worker := None; client_worker := None; _client_id := None;
     _conn_info := ∅; _server := None; _connected_with_init := false;
     _inside_client_test := false |}.

(** The context object at an address. *)
Definition ctx_at (s : State) (r : nat) : _ClientContext :=
  default _ClientContext_new (heap s !! r).

Definition read {A} (r : nat) (field : _ClientContext -> A) : M A :=
  gets (fun s => field (ctx_at s r)).

Definition write (r : nat) (upd : _ClientContext -> _ClientContext) : M unit :=
  modify (with_heap (alter upd r)).

(** Allocation of a new object: its address is the next free index. *)
Definition alloc_context (c : _ClientContext) : M nat :=
  fun s => (Ok (length (heap s)), with_heap (fun h => (h ++ [c])%list) s).

Definition alloc_worker (w : Worker) : M nat :=
  fun s => (Ok (length (workers s)), with_workers (fun l => (l ++ [w])%list) s).

Definition alloc_guard (g : ManagedContext) : M nat :=
  fun s => (Ok (length (guards s)), with_guards (fun l => (l ++ [g])%list) s).

Definition logger_warning (msg : string) : M unit :=
  modify (with_log (fun l => (l ++ [(WARNING, msg)])%list)).

Definition logger_debug (msg : string) : M unit :=
  modify (with_log (fun l => (l ++ [(DEBUG, msg)])%list)).

(** [ray._private.client_mode_hook] *)
Definition _explicitly_enable_client_mode : M unit := modify (with_client_mode true).
Definition _explicitly_disable_client_mode : M unit := modify (with_client_mode false).

(** ** Calls on the collaborators

    [close()] marks the transport closed; [is_connected()] reports the state
    of its link. *)

Definition worker_close (w : nat) : M unit :=
  modify (with_workers (alter set_closed w)).

Definition worker_is_connected (w : nat) : M bool :=
  gets (fun s => from_option w_is_connected false (workers s !! w)).

(** [ray_client_server.shutdown_with_server] *)
Definition shutdown_with_server (h : nat) (exiting : bool) : M unit :=
  modify (with_stopped_servers (fun l => (l ++ [(h, exiting)])%list)).

Definition worker_server_init (w : nat) (jc : option JobConfig)
    (ray_init_kwargs : option (gmap string PyVal)) : M unit :=
  let! o := gets (fun s => workers s !! w) in
  match o with
  | Some wk =>
      match w_server_init wk with
      | Some e => raise e
      | None => modify (with_workers (alter (set_init_pushed (jc, ray_init_kwargs)) w))
      end
  | None => ret tt
  end.

Definition worker_connection_info (w : nat) : M (gmap string PyVal) :=
  let! o := gets (fun s => workers s !! w) in
  match o with
  | Some wk =>
      match w_connection_info wk with
      | Ok info => ret info
      | Raise e => raise e
      end
  | None => ret ∅
  end.

(** [d[key]] on a dictionary: [KeyError] when the key is absent. *)
Definition getitem (d : gmap string PyVal) (key : string) : M PyVal :=
  match d !! key with
  | Some v => ret v
  | None => raise (KeyError key)
  end.

(** [v.startswith(p)]: only strings have the method. *)
Definition startswith (v : PyVal) (p : string) : M bool :=
  match v with
  | VStr s => ret (String.prefix p s)
  | VNone => raise (AttributeError "'NoneType' object has no attribute 'startswith'")
  | VInt _ => raise (AttributeError "'int' object has no attribute 'startswith'")
  end.

(** [a != v] for a string [a] and a dictionary value [v]. *)
Definition str_ne (a : string) (v : PyVal) : bool :=
  match v with
  | VStr s => negb (String.eqb a s)
  | _ => true
  end.

(** The f-strings of [_check_versions]. *)
Definition local_major_minor (vi : nat * nat * nat) : string :=
  pretty vi.1.1 +:+ "." +:+ pretty vi.1.2.

Definition python_mismatch_msg (vi : nat * nat * nat) (pv : PyVal) : string :=
  let version_str := local_major_minor vi +:+ "." +:+ pretty vi.2 in
  "Python minor versions differ between client and server:" +:+
  " client is " +:+ version_str +:+ "," +:+
  " server is " +:+ py_str pv.

Definition protocol_mismatch_msg (pr : PyVal) : string :=
  "Client Ray installation incompatible with server:" +:+
  " client is " +:+ CURRENT_PROTOCOL_VERSION +:+ "," +:+
  " server is " +:+ py_str pr.

(** The arguments of [connect].  The credentials are an opaque handle. *)
Record ConnectArgs := {
  conn_str : string;
  job_config : option JobConfig;
  secure : bool;
  metadata : option (list (string * string));
  connection_retries : Z;
  namespace : option string;
  ignore_version : bool;
  _credentials : option nat;
  ray_init_kwargs : option (gmap string PyVal)
}.

(** [connect(conn_str)] with every other argument at its default. *)
Definition connect_defaults (addr : string) : ConnectArgs :=
  {| conn_str := addr; job_config := None; secure := false; metadata := None;
     connection_retries := 3; namespace := None; ignore_version := false;
     _credentials := None; ray_init_kwargs := None |}.

(** What [__getattr__] hands back: the stored client id, the stored transport
    handle, the lookup [getattr(self.api, key)] on the [ClientAPI] object
    (left unevaluated: its value, or its [AttributeError] for a name the API
    lacks, is the API's own), or the [lambda: False]. *)
Inductive Attr :=
  | AttrId (v : option string)
  | AttrWorker (v : option nat)
  | AttrApi (key : string)
  | AttrLambda (f : unit -> bool).

Module _ClientContext.

Definition disconnect (self : nat) : M unit :=
  let! cw := read self client_worker in
  match cw with
  | Some w => worker_close w
  | None => ret tt
  end >>;
  write self (set_client_worker None).

Definition _register_serializers (peer : Peer) : M unit :=
  match serialization_addons_apply peer with
  | Some e => raise e
  | None => ret tt
  end.

Definition _check_versions (self : nat) (conn_info : gmap string PyVal)
    (ignore_version : bool) : M unit :=
  let! vi := gets version_info in
  let! env := gets environ in
  let! pv := getitem conn_info "python_version" in
  let! ok := startswith pv (local_major_minor vi) in
  (if negb ok then
     let msg := python_mismatch_msg vi pv in
     if ignore_version || bool_decide ("RAY_IGNORE_VERSION_MISMATCH" ∈ env)
     then logger_warning msg
     else raise (RuntimeError msg)
   else ret tt) >>;
  let! pr := getitem conn_info "protocol_version" in
  if str_ne CURRENT_PROTOCOL_VERSION pr then
    let msg := protocol_mismatch_msg pr in
    if ignore_version || bool_decide ("RAY_IGNORE_VERSION_MISMATCH" ∈ env)
    then logger_warning msg
    else raise (RuntimeError msg)
  else ret tt.

(** The body of the [try] block of [connect]. *)
Definition connect_attempt (self : nat) (a : ConnectArgs)
    (job_config : option JobConfig) (peer : Peer)
    : M (option (gmap string PyVal)) :=
  let! w :=
    match Worker_new peer (conn_str a) (secure a) (_credentials a) (metadata a)
         (connection_retries a) with
    | Ok wk => alloc_worker wk
    | Raise e => raise e
    end in
  write self (set_client_worker (Some w)) >>;
  let! wid := gets (fun s => w_client_id <$> workers s !! w) in
  write self (set_client_id wid) >>;
  write self (set_api_worker (Some w)) >>;
  worker_server_init w job_config (ray_init_kwargs a) >>;
  let! info := worker_connection_info w in
  write self (set_conn_info info) >>;
  let! info := read self _conn_info in
  _check_versions self info (ignore_version a) >>;
  _register_serializers peer >>;
  let! info := read self _conn_info in
  ret (Some info).

(** [namespace] folded into [job_config]. *)
Definition effective_job_config (a : ConnectArgs) : option JobConfig :=
  match namespace a with
  | Some ns => Some (set_ray_namespace ns (default JobConfig_new (job_config a)))
  | None => job_config a
  end.

(** The statements of [connect] between the state check and the [try]. *)
Definition connect_prepare (self : nat) (a : ConnectArgs) : M unit :=
  let! in_test := read self _inside_client_test in
  when (negb in_test) _explicitly_enable_client_mode >>;
  match effective_job_config a with
  | Some jc =>
      when (runtime_env_pip jc || runtime_env_conda jc)
        (logger_warning ("The 'pip' or 'conda' field was specified in " +:+
                         "the runtime env, so it may take some time to " +:+
                         "install the environment before Ray connects."))
  | None => ret tt
  end.

Definition connect (self : nat) (a : ConnectArgs) (peer : Peer)
    : M (option (gmap string PyVal)) :=
  let! cw := read self client_worker in
  if cw is Some _ then
    let! via_init := read self _connected_with_init in
    if via_init then ret None
    else raise (Exception "ray.init() called, but ray client is already connected")
  else
    connect_prepare self a >>;
    try_except
      (connect_attempt self a (effective_job_config a) peer)
      (fun e => disconnect self >>; raise e).

Definition is_connected (self : nat) : M bool :=
  let! cw := read self client_worker in
  match cw with
  | None => ret false
  | Some w => worker_is_connected w
  end.

Definition __getattr__ (self : nat) (key : string) : M Attr :=
  if String.eqb key "id" then
    let! v := read self _client_id in ret (AttrId v)
  else if String.eqb key "worker" then
    let! v := read self client_worker in ret (AttrWorker v)
  else
    let! c := is_connected self in
    if c then ret (AttrApi key)
    else if bool_decide (key ∈ ["is_initialized"; "_internal_kv_initialized"]) then
      ret (AttrLambda (fun _ => false))
    else raise (Exception ("Ray Client is not connected. " +:+
                           "Please connect by calling `ray.init`.")).

(** [init]: [serve] is the outcome of [init_and_serve], the handle of the
    embedded server and the address info, or the exception it raises. *)
Definition init (self : nat) (serve : Result (nat * gmap string PyVal))
    (peer : Peer) : M (gmap string PyVal) :=
  let! srv := read self _server in
  if srv is Some _ then
    raise (Exception "Trying to start two instances of ray via client")
  else
    match serve with
    | Raise e => raise e
    | Ok (server_handle, address_info) =>
        write self (set_server (Some server_handle)) >>;
        connect self (connect_defaults "localhost:50051") peer >>;
        write self (set_connected_with_init true) >>;
        ret address_info
    end.

Definition shutdown (self : nat) (_exiting_interpreter : bool) : M unit :=
  disconnect self >>;
  let! srv := read self _server in
  match srv with
  | None => ret tt
  | Some h =>
      shutdown_with_server h _exiting_interpreter >>;
      write self (set_server None)
  end.

(** The attribute [id] of a context, which Python resolves through
    [__getattr__]: the stored [_client_id]. *)
Definition id (self : nat) : M (option string) := read self _client_id.

End _ClientContext.

(** [for x in l: f(x)] *)
Fixpoint for_each {A} (l : list A) (f : A -> M unit) : M unit :=
  match l with
  | [] => ret tt
  | x :: l' => f x >>; for_each l' f
  end.

(** [_all_contexts.values()], listed in the order of the keys where the
    dictionary iterates in the order of insertion.  The [disconnect] calls of
    the loops over it commute, so the state they leave does not depend on
    the order; the [shutdown] calls leave the same contexts and transports in
    any order, and record the calls of [shutdown_with_server] in the order of
    the listing. *)
Definition all_contexts_values : M (list nat) :=
  gets (fun s => (map_to_list (_all_contexts s)).*2).

Definition num_connected_contexts : M nat :=
  gets (fun s => size (_all_contexts s)).

Module RayAPIStub.

Definition get_context (tid : nat) : M nat :=
  let! h := gets (fun s => handler s !! tid) in
  match h with
  | Some c => ret c
  | None =>
      modify (with_handler <[tid := _default_context]>) >>;
      ret _default_context
  end.

Definition set_context (tid : nat) (cxt : option nat) : M nat :=
  let! old_cxt := get_context tid in
  match cxt with
  | None =>
      let! c := alloc_context _ClientContext_new in
      modify (with_handler <[tid := c]>)
  | Some c => modify (with_handler <[tid := c]>)
  end >>;
  ret old_cxt.

(** [==] on two [_ClientContext] objects is identity. *)
Definition is_default (tid : nat) : M bool :=
  let! c := get_context tid in
  ret (bool_decide (c = _default_context)).

(** [_all_contexts[self._cxt.handler.id] = self._cxt.handler] *)
Definition register_handler (tid : nat) : M unit :=
  let! h := get_context tid in
  let! k := _ClientContext.id h in
  modify (with_all_contexts <[k := h]>).

Definition connect (tid : nat) (a : ConnectArgs) (peer : Peer)
    : M (option (gmap string PyVal)) :=
  let! c := get_context tid in
  let! flag := gets stub_inside_client_test in
  write c (set_inside_client_test flag) >>;
  let! c := get_context tid in
  let! conn := _ClientContext.connect c a peer in
  register_handler tid >>;
  ret conn.

Definition disconnect (tid : nat) : M unit :=
  let! c := get_context tid in
  (if bool_decide (_default_context = c) then
     let! l := all_contexts_values in
     for_each l _ClientContext.disconnect >>;
     modify (with_all_contexts (fun _ => ∅))
   else
     let! c := get_context tid in
     _ClientContext.disconnect c) >>;
  let! c := get_context tid in
  let! k := _ClientContext.id c in
  modify (with_all_contexts (delete k)) >>;
  let! n := gets (fun s => size (_all_contexts s)) in
  when (bool_decide (n = 0)) _explicitly_disable_client_mode.

Definition __getattr__ (tid : nat) (name : string) : M Attr :=
  let! c := get_context tid in
  _ClientContext.__getattr__ c name.

Definition is_connected (tid : nat) : M bool :=
  let! c := get_context tid in
  _ClientContext.is_connected c.

Definition init (tid : nat) (serve : Result (nat * gmap string PyVal))
    (peer : Peer) : M (gmap string PyVal) :=
  let! c := get_context tid in
  let! r := _ClientContext.init c serve peer in
  register_handler tid >>;
  ret r.

Definition shutdown (tid : nat) (_exiting_interpreter : bool) : M unit :=
  let! c := get_context tid in
  (if bool_decide (_default_context = c) then
     let! l := all_contexts_values in
     for_each l (fun cxt => _ClientContext.shutdown cxt _exiting_interpreter) >>;
     modify (with_all_contexts (fun _ => ∅))
   else
     let! c := get_context tid in
     _ClientContext.shutdown c _exiting_interpreter) >>;
  let! c := get_context tid in
  let! k := _ClientContext.id c in
  modify (with_all_contexts (delete k)) >>;
  let! n := gets (fun s => size (_all_contexts s)) in
  when (bool_decide (n = 0)) _explicitly_disable_client_mode.

End RayAPIStub.

(** Modelled from the spec: [ray.util.client_connect.disconnect], which is
    not part of this module.  The spec has the guard "perform a true
    transport-level disconnect" at this point, which is the facade's
    [disconnect] on the calling thread. *)
Definition ray_client_connect_disconnect (tid : nat) : M unit :=
  RayAPIStub.disconnect tid.

Module ManagedContext.

Definition guard_at (s : State) (g : nat) : option nat :=
  mjoin (_context_to_restore <$> guards s !! g).

Definition __init__ (info_dict : gmap string PyVal) (context_to_restore : option nat)
    : M nat :=
  let! du := getitem info_dict "dashboard_url" in
  let! pv := getitem info_dict "python_version" in
  let! rv := getitem info_dict "ray_version" in
  let! rc := getitem info_dict "ray_commit" in
  let! pr := getitem info_dict "protocol_version" in
  let! nc := getitem info_dict "num_clients" in
  alloc_guard {| dashboard_url := du; python_version := pv; ray_version := rv;
                 ray_commit := rc; protocol_version := pr; _num_clients := nc;
                 _context_to_restore := context_to_restore |}.

Definition id (self : nat) : M (option string) :=
  let! r := gets (fun s => guard_at s self) in
  match r with
  | None => raise (ValueError ("Client context has not initialized or has " +:+
                               "already disconnected"))
  | Some c => _ClientContext.id c
  end.

Definition _swap_context (self tid : nat) : M unit :=
  let! r := gets (fun s => guard_at s self) in
  match r with
  | Some c =>
      let! old := RayAPIStub.set_context tid (Some c) in
      modify (with_guards (alter (set_context_to_restore (Some old)) self))
  | None => ret tt
  end.

(** In this module the global name [ray] is the [RayAPIStub] instance, so
    [ray.worker] is the stub's [__getattr__("worker")] and [ray.shutdown()]
    the stub's [shutdown]. *)
Definition ray_worker (tid : nat) : M (option nat) :=
  let! a := RayAPIStub.__getattr__ tid "worker" in
  match a with
  | AttrWorker v => ret v
  | _ => ret None
  end.

(** [ray.worker.global_worker.node], for a transport object [w]: the
    attribute lookup on the transport may raise.  The conditions of
    [_disconnect_with_context] evaluate [ray.worker] anew each time, at the
    same state. *)
Definition global_worker_node (w : nat) : M (option bool) :=
  let! o := gets (fun s => workers s !! w) in
  match o with
  | Some wk =>
      match w_node wk with
      | Ok node => ret node
      | Raise e => raise e
      end
  | None => ret None
  end.

Definition _disconnect_with_context (self tid : nat) (force_disconnect : bool)
    : M unit :=
  let! connected := RayAPIStub.is_connected tid in
  if connected then
    let! d := RayAPIStub.is_default tid in
    when (d || force_disconnect) (ray_client_connect_disconnect tid)
  else
    let! w := ray_worker tid in
    match w with
    | None => ret tt
    | Some wk =>
        let! node := global_worker_node wk in
        match node with
        | None => ret tt
        | Some is_head =>
            if is_head then
              logger_debug ("The current Ray Cluster is scoped to this process. " +:+
                            "Disconnecting is not possible as it will shutdown the " +:+
                            "cluster.")
            else RayAPIStub.shutdown tid false
        end
    end.

Definition __enter__ (self tid : nat) : M nat :=
  _swap_context self tid >>;
  ret self.

Definition __exit__ (self tid : nat) : M unit :=
  _disconnect_with_context self tid false >>;
  _swap_context self tid.

Definition disconnect (self tid : nat) : M unit :=
  _swap_context self tid >>;
  _disconnect_with_context self tid true >>;
  _swap_context self tid.

End ManagedContext.

(** [with g: body], on thread [tid].  [__exit__] returns [None], so an
    exception of the body propagates once [__exit__] has run. *)
Definition with_guard {A} (g tid : nat) (body : M A) : M A :=
  ManagedContext.__enter__ g tid >>;
  fun s =>
    match body s with
    | (Ok a, s') => (ManagedContext.__exit__ g tid >>; ret a) s'
    | (Raise e, s') => (ManagedContext.__exit__ g tid >>; raise e) s'
    end.

Definition context_from_client_id (client_id : option string) : M nat :=
  let! ctx := gets (fun s => _all_contexts s !! client_id) in
  match ctx with
  | None =>
      raise (ValueError ("Client " +:+ from_option id "None" client_id +:+
                         " does not exist. " +:+ "It may have been shut down."))
  | Some c =>
      let! info := read c _conn_info in
      ManagedContext.__init__ info (Some c)
  end.

(** The state once the module is imported by thread [main]:
    [_all_contexts = {}], [_default_context = _ClientContext()], and
    [ray = RayAPIStub()], whose [__init__] binds the importing thread's
    handler to the default context. *)
Definition module_init (main : nat) (vi : nat * nat * nat) (env : gset string)
    (mode : bool) : State :=
  {| heap := [_ClientContext_new]; workers := []; guards := [];
     _all_contexts := ∅; handler := {[main := _default_context]};
     stub_inside_client_test := false; client_mode := mode;
     stopped_servers := []; version_info := vi; environ := env; log := [] |}.

(** ** Concrete scenarios *)

Definition sample_info : gmap string PyVal :=
  list_to_map [("dashboard_url", VNone); ("python_version", VStr "3.8.10");
               ("ray_version", VStr "2.0.0.dev0"); ("ray_commit", VStr "3f1c9a");
               ("protocol_version", VStr "2021-09-02"); ("num_clients", VInt 1)].

(** What the attribute lookup [global_worker] raises on an object of the
    client transport class. *)
Definition no_global_worker : Exn :=
  AttributeError "'Worker' object has no attribute 'global_worker'".

(** A transport that answers the whole handshake, reporting [info]. *)
Definition sample_worker (cid : string) (info : gmap string PyVal) : Worker :=
  {| w_client_id := cid; w_server_init := None; w_connection_info := Ok info;
     w_is_connected := true; w_node := Raise no_global_worker;
     w_init_pushed := None; w_closed := false |}.

Definition sample_peer (cid : string) (info : gmap string PyVal) : Peer :=
  {| Worker_new := fun _ _ _ _ _ => Ok (sample_worker cid info);
     serialization_addons_apply := None |}.

(** A peer whose transport cannot be established. *)
Definition unreachable_peer : Peer :=
  {| Worker_new := fun _ _ _ _ _ => Raise (CollaboratorError "ray client connection timeout");
     serialization_addons_apply := None |}.

(** A peer whose transport opens but whose server refuses the
    initialisation. *)
Definition refusing_peer (cid : string) : Peer :=
  {| Worker_new := fun _ _ _ _ _ =>
       Ok {| w_client_id := cid;
             w_server_init := Some (CollaboratorError "initialization failed");
             w_connection_info := Ok sample_info; w_is_connected := true;
             w_node := Raise no_global_worker; w_init_pushed := None;
             w_closed := false |};
     serialization_addons_apply := None |}.

(** The process after import on thread 0, running Python 3.8.5. *)
Definition sample_start : State := module_init 0 (3, 8, 5) ∅ false.

(** The default context connected through the facade. *)
Definition sample_connected : State :=
  (RayAPIStub.connect 0 (connect_defaults "head:10001")
     (sample_peer "session-1" sample_info) sample_start).2.

(** The default context connected through [init]. *)
Definition sample_connected_via_init : State :=
  (RayAPIStub.init 0 (Ok (7, sample_info)) (sample_peer "session-1" sample_info)
     sample_start).2.

(** Thread 1 has switched to a new context and connected it as well. *)
Definition sample_two_sessions : State :=
  (RayAPIStub.connect 1 (connect_defaults "head:10001")
     (sample_peer "session-2" sample_info)
     (RayAPIStub.set_context 1 None sample_connected).2).2.

(** A guard over the first session, obtained by its id. *)
Definition sample_guarded : State :=
  (context_from_client_id (Some "session-1") sample_two_sessions).2.

(** ** Notions used in the statements *)

(** The override of the version checks: the [ignore_version] argument or
    the environment variable. *)
Definition version_override (ignore_version : bool) (s : State) : bool :=
  ignore_version || bool_decide ("RAY_IGNORE_VERSION_MISMATCH" ∈ environ s).

(** What [is_connected()] answers for the context at [self]. *)
Definition connected (s : State) (self : nat) : bool :=
  match client_worker (ctx_at s self) with
  | None => false
  | Some w => from_option w_is_connected false (workers s !! w)
  end.

(** The introspection names [__getattr__] answers on a disconnected context. *)
Definition introspection_allowlist : list string :=
  ["is_initialized"; "_internal_kv_initialized"].

(** The addresses of the contexts that hold a transport handle. *)
Definition connected_contexts (s : State) : list nat :=
  filter (fun r => is_Some (client_worker (ctx_at s r))) (seq 0 (length (heap s))).

(** The context [get_context] returns on thread [tid]: the thread's
    handler, the default context while the thread has none. *)
Definition active (s : State) (tid : nat) : nat :=
  default _default_context (handler s !! tid).

(** The state [get_context] leaves: the thread's handler is bound. *)
Definition bound (tid : nat) (s : State) : State :=
  match handler s !! tid with
  | Some _ => s
  | None => with_handler <[tid := _default_context]> s
  end.

(** The exception the disconnect step of a guard meets on a thread whose
    active context is [c], if any: for a context that holds a transport
    reporting not connected, the evaluation of [ray.worker.global_worker.node]
    on that transport may raise. *)
Definition disconnect_failure (s : State) (c : nat) : option Exn :=
  if connected s c then None
  else
    match client_worker (ctx_at s c) with
    | None => None
    | Some w =>
        match workers s !! w with
        | Some wk => if w_node wk is Raise e then Some e else None
        | None => None
        end
    end.

(** A computation is stable for a relation on states when every run relates
    the state it starts from to the state it leaves. *)
Definition stable {A} (R : State -> State -> Prop) (m : M A) : Prop :=
  forall s, R s (m s).2.

(** What the calls on one context leave alone: the registry, the handlers,
    the guards and the process settings; every other context; and the
    identity of the transports, which are never removed nor reopened. *)
Definition ctx_frame (self : nat) (s s' : State) : Prop :=
  _all_contexts s' = _all_contexts s /\
  handler s' = handler s /\
  guards s' = guards s /\
  stub_inside_client_test s' = stub_inside_client_test s /\
  version_info s' = version_info s /\
  environ s' = environ s /\
  length (heap s') = length (heap s) /\
  (forall c, c <> self -> heap s' !! c = heap s !! c) /\
  (forall w wk, workers s !! w = Some wk ->
     exists wk', workers s' !! w = Some wk' /\
                 w_client_id wk' = w_client_id wk /\
                 (w_closed wk = true -> w_closed wk' = true)).

(** What the facade's calls other than [set_context] leave alone: the
    guards, the active context of every thread, and the handlers already
    bound. *)
Definition session_frame (s s' : State) : Prop :=
  guards s' = guards s /\
  length (heap s') = length (heap s) /\
  (forall t, active s' t = active s t) /\
  (forall t c, handler s !! t = Some c -> handler s' !! t = Some c).

(** The exception of the first failing step of the handshake of [connect],
    if one fails: establishing the transport, pushing the server
    initialisation, pulling the connection info, validating the versions, or
    registering the serializers. *)
Definition handshake_failure (s : State) (self : nat) (a : ConnectArgs) (peer : Peer)
    : option Exn :=
  match Worker_new peer (conn_str a) (secure a) (_credentials a) (metadata a)
         (connection_retries a) with
  | Raise e => Some e
  | Ok wk =>
      match w_server_init wk with
      | Some e => Some e
      | None =>
          match w_connection_info wk with
          | Raise e => Some e
          | Ok info =>
              match (_ClientContext._check_versions self info (ignore_version a) s).1 with
              | Raise e => Some e
              | Ok _ => serialization_addons_apply peer
              end
          end
      end
  end.

(** [RayAPIStub.disconnect] and [RayAPIStub.shutdown] are the same code
    around the call they make on each context. *)
Definition broadcast (f : nat -> M unit) (tid : nat) : M unit :=
  let! c := RayAPIStub.get_context tid in
  (if bool_decide (_default_context = c) then
     let! l := all_contexts_values in
     for_each l f >>;
     modify (with_all_contexts (fun _ => ∅))
   else
     let! c := RayAPIStub.get_context tid in
     f c) >>;
  let! c := RayAPIStub.get_context tid in
  let! k := _ClientContext.id c in
  modify (with_all_contexts (delete k)) >>;
  let! n := gets (fun s => size (_all_contexts s)) in
  when (bool_decide (n = 0)) _explicitly_disable_client_mode.

(** What tearing sessions down leaves alone: the registry, the handlers, the
    guards, the number of objects and the client ids; a context keeps its
    transport handle or loses it, and a closed transport stays closed. *)
Definition teardown (s s' : State) : Prop :=
  _all_contexts s' = _all_contexts s /\
  handler s' = handler s /\
  guards s' = guards s /\
  client_mode s' = client_mode s /\
  length (heap s') = length (heap s) /\
  length (workers s') = length (workers s) /\
  (forall c, _client_id (ctx_at s' c) = _client_id (ctx_at s c)) /\
  (forall c, client_worker (ctx_at s' c) = None \/
             client_worker (ctx_at s' c) = client_worker (ctx_at s c)) /\
  (forall w wk, workers s !! w = Some wk ->
     exists wk', workers s' !! w = Some wk' /\
                 w_client_id wk' = w_client_id wk /\
                 (w_closed wk = true -> w_closed wk' = true)).

(** The outcome of a [disconnect] or [shutdown] of the facade, called on
    thread [tid] in state [s]: it returns; if the thread's active context is
    the default context, every registered context has lost its transport
    handle, the transport it held is closed, and the registry is empty; and
    if the registry is left empty, client mode is off. *)
Definition torn_down (s : State) (tid : nat) (r : Result unit * State) : Prop :=
  r.1 = Ok tt /\
  (active s tid = _default_context ->
     _all_contexts r.2 = ∅ /\
     forall k c, _all_contexts s !! k = Some c ->
       client_worker (ctx_at r.2 c) = None /\
       forall w wk, client_worker (ctx_at s c) = Some w -> workers s !! w = Some wk ->
         exists wk', workers r.2 !! w = Some wk' /\ w_closed wk' = true) /\
  (_all_contexts r.2 = ∅ -> client_mode r.2 = false).

(** The state the last statements of a facade [disconnect] or [shutdown]
    leave: the entry under the id of context [c] is popped, and client mode
    is disabled if the registry is then empty. *)
Definition popped (c : nat) (s : State) : State :=
  let s' := with_all_contexts (delete (_client_id (ctx_at s c))) s in
  if bool_decide (size (_all_contexts s') = 0) then with_client_mode false s' else s'.

(** ** Runs of the facade

    The operations a program performs through the module's public surface,
    on some thread: the methods of the [ray] stub, [context_from_client_id],
    and entering, leaving and disconnecting a guard. *)
Inductive Call :=
  | CallConnect (a : ConnectArgs) (peer : Peer)
  | CallDisconnect
  | CallInit (serve : Result (nat * gmap string PyVal)) (peer : Peer)
  | CallShutdown (_exiting_interpreter : bool)
  | CallGetContext
  | CallSetContext (cxt : option nat)
  | CallIsDefault
  | CallIsConnected
  | CallGetattr (name : string)
  | CallNumConnectedContexts
  | CallContextFromClientId (client_id : option string)
  | CallEnter (g : nat)
  | CallExit (g : nat)
  | CallGuardDisconnect (g : nat)
  | CallGuardId (g : nat).

(** A call with its result dropped. *)
Definition void {A} (m : M A) : M unit := m >>; ret tt.

Definition exec (tid : nat) (c : Call) : M unit :=
  match c with
  | CallConnect a peer => void (RayAPIStub.connect tid a peer)
  | CallDisconnect => RayAPIStub.disconnect tid
  | CallInit serve peer => void (RayAPIStub.init tid serve peer)
  | CallShutdown e => RayAPIStub.shutdown tid e
  | CallGetContext => void (RayAPIStub.get_context tid)
  | CallSetContext cxt => void (RayAPIStub.set_context tid cxt)
  | CallIsDefault => void (RayAPIStub.is_default tid)
  | CallIsConnected => void (RayAPIStub.is_connected tid)
  | CallGetattr name => void (RayAPIStub.__getattr__ tid name)
  | CallNumConnectedContexts => void num_connected_contexts
  | CallContextFromClientId k => void (context_from_client_id k)
  | CallEnter g => void (ManagedContext.__enter__ g tid)
  | CallExit g => ManagedContext.__exit__ g tid
  | CallGuardDisconnect g => ManagedContext.disconnect g tid
  | CallGuardId g => void (ManagedContext.id g)
  end.

(** The transport a connect attempt would open reports a client id that no
    context holds. *)
Definition fresh_client_id (s : State) (a : ConnectArgs) (peer : Peer) : Prop :=
  forall wk, Worker_new peer (conn_str a) (secure a) (_credentials a) (metadata a)
         (connection_retries a) = Ok wk ->
    forall c, _client_id (ctx_at s c) <> Some (w_client_id wk).

(** The calls a program can make in a state: a context passed to
    [set_context] is an existing object, and transports report distinct
    client ids. *)
Definition admissible (s : State) (c : Call) : Prop :=
  match c with
  | CallConnect a peer => fresh_client_id s a peer
  | CallInit _ peer => fresh_client_id s (connect_defaults "localhost:50051") peer
  | CallSetContext (Some r) => r < length (heap s)
  | _ => True
  end.

(** A change of a transport's link: what [is_connected()] answers and how
    [global_worker.node] evaluates from then on. *)
Definition set_link (up : bool) (node : Result (option bool)) (w : Worker) : Worker :=
  {| w_client_id := w_client_id w; w_server_init := w_server_init w;
     w_connection_info := w_connection_info w; w_is_connected := up;
     w_node := node; w_init_pushed := w_init_pushed w; w_closed := w_closed w |}.

(** The states a process reaches from import by admissible calls of its
    threads and changes of the transports' links. *)
Inductive reachable : State -> Prop :=
  | reach_import main vi env mode :
      reachable (module_init main vi env mode)
  | reach_call s tid c :
      reachable s -> admissible s c -> reachable (exec tid c s).2
  | reach_link s w up node :
      reachable s -> reachable (with_workers (alter (set_link up node) w) s).

(** The registry and the contexts agree: an entry is a context that holds a
    transport handle, under that context's client id; every context that
    holds a transport handle has its entry; no two contexts hold the same
    client id; and the handlers and the guards refer to existing contexts. *)
Definition consistent (s : State) : Prop :=
  heap s <> [] /\
  (forall k c, _all_contexts s !! k = Some c ->
     client_worker (ctx_at s c) <> None /\ _client_id (ctx_at s c) = k) /\
  (forall c, client_worker (ctx_at s c) <> None ->
     _all_contexts s !! _client_id (ctx_at s c) = Some c) /\
  (forall c1 c2 k, _client_id (ctx_at s c1) = Some k ->
     _client_id (ctx_at s c2) = Some k -> c1 = c2) /\
  (forall c, client_worker (ctx_at s c) <> None -> _client_id (ctx_at s c) <> None) /\
  (forall t c, handler s !! t = Some c -> c < length (heap s)) /\
  (forall g c, ManagedContext.guard_at s g = Some c -> c < length (heap s)).

(** Two states with the same sessions: the same registry, handlers and
    guards, and contexts with the same transport handles and client ids. *)
Definition same_sessions (s s' : State) : Prop :=
  length (heap s') = length (heap s) /\
  _all_contexts s' = _all_contexts s /\
  handler s' = handler s /\
  guards s' = guards s /\
  (forall c, client_worker (ctx_at s' c) = client_worker (ctx_at s c)) /\
  (forall c, _client_id (ctx_at s' c) = _client_id (ctx_at s c)).

(** The relation of a state in which a predicate holds to one in which it
    still does. *)
Definition preserving (P : State -> Prop) (s s' : State) : Prop := P s -> P s'.

(** A run of three calls from the import: the main thread connects, then a
    second thread switches to a new context and connects it. *)
Definition sample_run : State :=
  (exec 1 (CallConnect (connect_defaults "head:10001")
             (sample_peer "session-2" sample_info))
     (exec 1 (CallSetContext None)
        (exec 0 (CallConnect (connect_defaults "head:10001")
                   (sample_peer "session-1" sample_info))
           sample_start).2).2).2.

(** ** Notions used in the further properties *)

(** The keys [ManagedContext.__init__] reads from the connection info, in
    the order in which it reads them. *)
Definition snapshot_keys : list string :=
  ["dashboard_url"; "python_version"; "ray_version"; "ray_commit";
   "protocol_version"; "num_clients"].

(** The first of [keys] that a dictionary lacks. *)
Definition missing_key (d : gmap string PyVal) (keys : list string) : option string :=
  find (fun key => if d !! key is Some _ then false else true) keys.

(** What connecting, disconnecting and switching contexts leave alone: the
    calls of [shutdown_with_server] made so far, and the server handle and
    the [_connected_with_init] flag of every context. *)
Definition server_frame (s s' : State) : Prop :=
  stopped_servers s' = stopped_servers s /\
  (forall c, _server (ctx_at s' c) = _server (ctx_at s c)) /\
  (forall c, _connected_with_init (ctx_at s' c) = _connected_with_init (ctx_at s c)).

(** The two sessions under a guard, the link of the first session's
    transport having dropped. *)
Definition sample_link_down : State :=
  with_workers (alter (set_link false (Raise no_global_worker)) 0) sample_guarded.

(** The process after an [init] on thread 0 whose embedded server started
    (handle 7) but refused the initialisation of the transport. *)
Definition sample_failed_init : State :=
  (RayAPIStub.init 0 (Ok (7, sample_info)) (refusing_peer "session-1") sample_start).2.

(** The contexts marked as connected through [init] stay marked. *)
Definition init_flag_kept (s s' : State) : Prop :=
  forall c, _connected_with_init (ctx_at s c) = true ->
            _connected_with_init (ctx_at s' c) = true.

(** What every call but the guard's own leaves alone: the guards. *)
Definition guards_frame (s s' : State) : Prop := guards s' = guards s.

(** Every guard holds a context. *)
Definition guards_held (s : State) : Prop :=
  forall g, g < length (guards s) -> ManagedContext.guard_at s g <> None.

(** The first session of [sample_run], looked up by its id. *)
Definition sample_run_guarded : State :=
  (exec 0 (CallContextFromClientId (Some "session-1")) sample_run).2.

(** * Properties *)

(** ** The handshake validation *)

Lemma str_ne_VStr a b : str_ne a (VStr b) = false <-> b = a.
Proof.
  simpl. rewrite negb_false_iff, String.eqb_eq. split; congruence.
Qed.

Lemma python_msg_ne_protocol_msg vi pv pr :
  python_mismatch_msg vi pv <> protocol_mismatch_msg pr.
Proof. unfold python_mismatch_msg, protocol_mismatch_msg. discriminate. Qed.

(** [_check_versions] on a dictionary with both version entries, as a
    function of the two comparisons and the override. *)
Lemma check_versions_run s self ci ignore pv pr :
  ci !! "python_version" = Some (VStr pv) ->
  ci !! "protocol_version" = Some pr ->
  _ClientContext._check_versions self ci ignore s =
    let py_ok := String.prefix (local_major_minor (version_info s)) pv in
    let pr_ok := negb (str_ne CURRENT_PROTOCOL_VERSION pr) in
    let py_warn := if py_ok then []
                   else [(WARNING, python_mismatch_msg (version_info s) (VStr pv))] in
    let pr_warn := if pr_ok then [] else [(WARNING, protocol_mismatch_msg pr)] in
    if version_override ignore s then
      (Ok tt, with_log (fun l => (l ++ py_warn ++ pr_warn)%list) s)
    else if negb py_ok then
      (Raise (RuntimeError (python_mismatch_msg (version_info s) (VStr pv))), s)
    else if negb pr_ok then
      (Raise (RuntimeError (protocol_mismatch_msg pr)), s)
    else (Ok tt, s).
Proof.
  intros Hpv Hpr.
  unfold _ClientContext._check_versions, version_override, bind, gets, getitem.
  rewrite Hpv, Hpr. cbn [startswith ret].
  destruct s as [h w g ac hd t cm ss vi env lg]; cbn [version_info environ].
  destruct (String.prefix (local_major_minor vi) pv); cbn [negb];
    destruct (ignore || bool_decide ("RAY_IGNORE_VERSION_MISMATCH" ∈ env));
    destruct (str_ne CURRENT_PROTOCOL_VERSION pr);
    unfold ret, raise, logger_warning, modify, with_log; cbn;
    rewrite ?app_nil_r, <- ?app_assoc; reflexivity.
Qed.

(** C4: a peer-reported [python_version] that does not start with the local
    "major.minor" makes [_check_versions] raise the version error, unless
    [ignore_version] or [RAY_IGNORE_VERSION_MISMATCH] is set, in which case
    the message is logged as a warning and the check returns; a peer version
    with the local "major.minor" as a prefix never raises that error and
    logs nothing for it. *)
Theorem check_versions_python_version s self ci ignore pv :
  ci !! "python_version" = Some (VStr pv) ->
  let r := _ClientContext._check_versions self ci ignore s in
  let msg := python_mismatch_msg (version_info s) (VStr pv) in
  (String.prefix (local_major_minor (version_info s)) pv = false ->
     (version_override ignore s = false -> r = (Raise (RuntimeError msg), s)) /\
     (version_override ignore s = true ->
        forall pr, ci !! "protocol_version" = Some pr ->
          r.1 = Ok tt /\
          exists rest, r.2 = with_log (fun l => (l ++ (WARNING, msg) :: rest)%list) s)) /\
  (String.prefix (local_major_minor (version_info s)) pv = true ->
     r.1 <> Raise (RuntimeError msg) /\
     (ci !! "protocol_version" = Some (VStr CURRENT_PROTOCOL_VERSION) -> r = (Ok tt, s))).
Proof.
  intros Hpv r msg. subst r msg. split.
  - intros Hpre. split.
    + intros Hov.
      unfold _ClientContext._check_versions, bind, gets, getitem.
      rewrite Hpv. cbn [startswith ret]. rewrite Hpre. cbn [negb].
      unfold version_override in Hov. rewrite Hov. reflexivity.
    + intros Hov pr Hpr.
      rewrite (check_versions_run _ _ _ _ _ _ Hpv Hpr). cbn zeta.
      rewrite Hov, Hpre. split; [reflexivity|]. cbn [snd].
      eexists. reflexivity.
  - intros Hpre. split.
    + destruct (ci !! "protocol_version") as [pr|] eqn:Hpr.
      * rewrite (check_versions_run _ _ _ _ _ _ Hpv Hpr). cbn zeta.
        rewrite Hpre. cbn [negb].
        destruct (version_override ignore s); [discriminate|].
        destruct (negb (negb (str_ne CURRENT_PROTOCOL_VERSION pr))); [|discriminate].
        cbn [fst]. intros H. apply (python_msg_ne_protocol_msg (version_info s) (VStr pv) pr).
        congruence.
      * unfold _ClientContext._check_versions, bind, gets, getitem.
        rewrite Hpv, Hpr. cbn [startswith ret]. rewrite Hpre. discriminate.
    + intros Hpr.
      rewrite (check_versions_run _ _ _ _ _ _ Hpv Hpr). cbn zeta.
      rewrite Hpre.
      assert (str_ne CURRENT_PROTOCOL_VERSION (VStr CURRENT_PROTOCOL_VERSION) = false)
        as -> by (apply str_ne_VStr; reflexivity).
      cbn [negb]. destruct (version_override ignore s); [|reflexivity].
      destruct s; unfold with_log; cbn. rewrite app_nil_r. reflexivity.
Qed.

(** C5, as the code has it: on a connection info whose Python version is a
    string, [_check_versions] raises the protocol error exactly when the
    peer's [protocol_version] is not the string ["2021-09-02"], no override
    is set, and the runtime-version check has not raised; under the override
    the mismatch is only logged.  The check runs after the runtime-version
    check: without override a runtime-version mismatch raises first,
    whatever the protocol version. *)
Theorem check_versions_protocol_version s self ci ignore pv pr :
  ci !! "python_version" = Some (VStr pv) ->
  ci !! "protocol_version" = Some pr ->
  let r := _ClientContext._check_versions self ci ignore s in
  let msg := protocol_mismatch_msg pr in
  let py_ok := String.prefix (local_major_minor (version_info s)) pv in
  CURRENT_PROTOCOL_VERSION = "2021-09-02" /\
  (r.1 = Raise (RuntimeError msg) <->
     pr <> VStr CURRENT_PROTOCOL_VERSION /\ version_override ignore s = false /\
     py_ok = true) /\
  (version_override ignore s = false -> py_ok = true ->
     (pr = VStr CURRENT_PROTOCOL_VERSION -> r = (Ok tt, s)) /\
     (pr <> VStr CURRENT_PROTOCOL_VERSION -> r = (Raise (RuntimeError msg), s))) /\
  (version_override ignore s = false -> py_ok = false ->
     r = (Raise (RuntimeError (python_mismatch_msg (version_info s) (VStr pv))), s)) /\
  (version_override ignore s = true ->
     r.1 = Ok tt /\
     exists py_warn,
       r.2 = with_log (fun l => (l ++ py_warn ++
               (if str_ne CURRENT_PROTOCOL_VERSION pr then [(WARNING, msg)]
                else []))%list) s).
Proof.
  intros Hpv Hpr r msg py_ok. subst r msg py_ok.
  rewrite (check_versions_run _ _ _ _ _ _ Hpv Hpr). cbn zeta.
  split; [reflexivity|].
  assert (Hs : str_ne CURRENT_PROTOCOL_VERSION pr = false <->
               pr = VStr CURRENT_PROTOCOL_VERSION).
  { destruct pr as [|b|z]; [split; discriminate| |split; discriminate].
    rewrite str_ne_VStr. split; [intros ->; reflexivity|intros [= ->]; reflexivity]. }
  destruct (version_override ignore s);
    destruct (String.prefix (local_major_minor (version_info s)) pv);
    destruct (str_ne CURRENT_PROTOCOL_VERSION pr) eqn:Hne;
    cbn [negb fst snd].
  all: assert (Hd : pr = VStr CURRENT_PROTOCOL_VERSION \/
                    pr <> VStr CURRENT_PROTOCOL_VERSION)
         by (first [left; apply Hs; reflexivity
                   |right; intros E; apply Hs in E; discriminate]).
  all: assert (Hx : pr = VStr CURRENT_PROTOCOL_VERSION ->
                    pr <> VStr CURRENT_PROTOCOL_VERSION -> False) by auto.
  all: split; [split; [intros H|intros (H1 & H2 & H3)]|split; [|split]].
  all: try discriminate.
  all: try (exfalso; apply H1, Hs; reflexivity).
  all: try (exfalso;
            apply (python_msg_ne_protocol_msg (version_info s) (VStr pv) pr);
            congruence).
  all: try (split; [intros E; apply Hs in E; discriminate|split; reflexivity]).
  all: try (intros _ _; split; intros E; [apply Hs in E; discriminate|reflexivity]).
  all: try (intros _ _; split; intros E; [reflexivity|exfalso; apply E, Hs; reflexivity]).
  all: try (intros _ _; reflexivity).
  all: try (intros _; split; [reflexivity|eexists; reflexivity]).
  reflexivity.
Qed.

Lemma check_versions_python_version_witness :
  <["python_version" := VStr "3.9.0"]> sample_info !! "python_version"
    = Some (VStr "3.9.0") /\
  String.prefix (local_major_minor (version_info sample_start)) "3.9.0" = false /\
  String.prefix (local_major_minor (version_info sample_start)) "3.8.10" = true /\
  _ClientContext._check_versions 0 (<["python_version" := VStr "3.9.0"]> sample_info)
      false sample_start
    = (Raise (RuntimeError
         (python_mismatch_msg (version_info sample_start) (VStr "3.9.0"))),
       sample_start).
Proof.
  split; [reflexivity|]. split; [reflexivity|]. split; [reflexivity|].
  apply (check_versions_python_version sample_start 0
           (<["python_version" := VStr "3.9.0"]> sample_info) false "3.9.0");
    reflexivity.
Defined.

Lemma check_versions_protocol_version_witness :
  <["protocol_version" := VStr "2021-03-01"]> sample_info !! "python_version"
    = Some (VStr "3.8.10") /\
  <["protocol_version" := VStr "2021-03-01"]> sample_info !! "protocol_version"
    = Some (VStr "2021-03-01") /\
  _ClientContext._check_versions 0
      (<["protocol_version" := VStr "2021-03-01"]> sample_info) false sample_start
    = (Raise (RuntimeError (protocol_mismatch_msg (VStr "2021-03-01"))), sample_start).
Proof.
  split; [reflexivity|]. split; [reflexivity|].
  apply (check_versions_protocol_version sample_start 0
           (<["protocol_version" := VStr "2021-03-01"]> sample_info) false
           "3.8.10" (VStr "2021-03-01")); try reflexivity.
  discriminate.
Defined.

(** C5, the claim as stated fails: the protocol check is not independent of
    the runtime-version check.  With a peer on Python 3.9.0 against the local
    3.8 and no override, [_check_versions] raises although the protocol
    versions are equal; and with a differing protocol version it does not
    raise the protocol error, the runtime-version error coming first. *)
Lemma protocol_check_not_independent_counterexample :
  let ci1 := <["python_version" := VStr "3.9.0"]> sample_info in
  let ci2 := <["protocol_version" := VStr "2021-03-01"]> ci1 in
  let py_error := RuntimeError (python_mismatch_msg (version_info sample_start)
                                  (VStr "3.9.0")) in
  version_override false sample_start = false /\
  ci1 !! "protocol_version" = Some (VStr CURRENT_PROTOCOL_VERSION) /\
  (_ClientContext._check_versions 0 ci1 false sample_start).1 = Raise py_error /\
  ci2 !! "protocol_version" = Some (VStr "2021-03-01") /\
  (_ClientContext._check_versions 0 ci2 false sample_start).1 = Raise py_error /\
  py_error <> RuntimeError (protocol_mismatch_msg (VStr "2021-03-01")).
Proof.
  cbn zeta. split; [reflexivity|]. split; [reflexivity|]. split; [vm_compute; reflexivity|].
  split; [reflexivity|]. split; [vm_compute; reflexivity|].
  intros E.
  apply (f_equal (fun x => if x is RuntimeError m then m else "")) in E.
  exact (python_msg_ne_protocol_msg _ _ _ E).
Qed.

(** ** Reading and writing contexts *)

Lemma alter_fixed {A} (f : A -> A) (l : list A) (i : nat) :
  (forall x, l !! i = Some x -> f x = x) -> alter f i l = l.
Proof.
  intros Hf. apply list_eq. intros j.
  destruct (decide (i = j)) as [<-|Hne].
  - rewrite list_lookup_alter_eq. destruct (l !! i) as [x|] eqn:E; [|reflexivity].
    cbn. f_equal. auto.
  - rewrite list_lookup_alter_ne by done. reflexivity.
Qed.

Lemma with_heap_id f s : f (heap s) = heap s -> with_heap f s = s.
Proof. intros H. destruct s. unfold with_heap. cbn in *. rewrite H. reflexivity. Qed.

Lemma ctx_at_alter s self r upd :
  ctx_at (with_heap (alter upd self) s) r =
    if decide (self = r)
    then (if decide (r < length (heap s)) then upd (ctx_at s r) else ctx_at s r)
    else ctx_at s r.
Proof.
  unfold ctx_at. cbn [heap with_heap].
  destruct (decide (self = r)) as [->|Hne].
  - rewrite list_lookup_alter_eq. destruct (heap s !! r) as [c|] eqn:E; cbn.
    + apply lookup_lt_Some in E. rewrite decide_True by done. reflexivity.
    + apply lookup_ge_None in E. rewrite decide_False by lia. reflexivity.
  - rewrite list_lookup_alter_ne by done. reflexivity.
Qed.

Lemma ctx_at_with_workers f s r : ctx_at (with_workers f s) r = ctx_at s r.
Proof. reflexivity. Qed.

Lemma is_connected_run s self :
  _ClientContext.is_connected self s = (Ok (connected s self), s).
Proof.
  unfold _ClientContext.is_connected, connected, bind, read, gets.
  destruct (client_worker (ctx_at s self)); reflexivity.
Qed.

(** ** [disconnect] of a context *)

Lemma disconnect_run s self :
  _ClientContext.disconnect self s =
    (Ok tt,
     with_heap (alter (set_client_worker None) self)
       match client_worker (ctx_at s self) with
       | Some w => with_workers (alter set_closed w) s
       | None => s
       end).
Proof.
  unfold _ClientContext.disconnect, bind, read, gets, write, modify, worker_close.
  destruct (client_worker (ctx_at s self)); reflexivity.
Qed.

Lemma set_client_worker_None_fixed c :
  client_worker c = None -> set_client_worker None c = c.
Proof. destruct c; cbn; intros ->; reflexivity. Qed.

Lemma disconnect_fresh s self :
  client_worker (ctx_at s self) = None ->
  _ClientContext.disconnect self s = (Ok tt, s).
Proof.
  intros H. rewrite disconnect_run, H. f_equal.
  apply with_heap_id, alter_fixed. intros c Hc.
  apply set_client_worker_None_fixed.
  unfold ctx_at in H. rewrite Hc in H. exact H.
Qed.

Lemma disconnect_client_worker s self :
  client_worker (ctx_at (_ClientContext.disconnect self s).2 self) = None.
Proof.
  rewrite disconnect_run. cbn [snd]. rewrite ctx_at_alter.
  rewrite decide_True by done.
  destruct (decide _) as [Hlt|Hge]; [reflexivity|].
  destruct (client_worker (ctx_at s self)) eqn:E.
  - rewrite ctx_at_with_workers in *.
    unfold ctx_at in *. cbn [heap with_workers] in Hge.
    rewrite lookup_ge_None_2 in * by lia. reflexivity.
  - unfold ctx_at in *. rewrite lookup_ge_None_2 in * by lia. reflexivity.
Qed.

(** C8, as the code has it: [disconnect] always returns; on a context with no
    transport handle it changes nothing, so a second [disconnect] has no
    further effect; on a connected context it closes the transport and sets
    [client_worker] to [None], after which [is_connected()] is false.  The
    stored client id is kept, not cleared. *)
Theorem disconnect_idempotent_keeps_id s self :
  let s1 := (_ClientContext.disconnect self s).2 in
  (_ClientContext.disconnect self s).1 = Ok tt /\
  (client_worker (ctx_at s self) = None -> s1 = s) /\
  _ClientContext.disconnect self s1 = (Ok tt, s1) /\
  client_worker (ctx_at s1 self) = None /\
  _ClientContext.is_connected self s1 = (Ok false, s1) /\
  (forall w wk, client_worker (ctx_at s self) = Some w ->
     workers s !! w = Some wk -> workers s1 !! w = Some (set_closed wk)) /\
  _client_id (ctx_at s1 self) = _client_id (ctx_at s self).
Proof.
  intros s1. subst s1.
  pose proof (disconnect_client_worker s self) as Hnone.
  split; [rewrite disconnect_run; reflexivity|].
  split; [intros H; rewrite disconnect_fresh by exact H; reflexivity|].
  split; [apply disconnect_fresh, Hnone|].
  split; [exact Hnone|].
  split; [rewrite is_connected_run; unfold connected; rewrite Hnone; reflexivity|].
  split.
  - intros w wk Hw Hwk. rewrite disconnect_run, Hw. cbn [snd workers with_heap with_workers].
    rewrite list_lookup_alter_eq, Hwk. reflexivity.
  - rewrite disconnect_run. cbn [snd]. rewrite ctx_at_alter.
    destruct (client_worker (ctx_at s self)); rewrite ?ctx_at_with_workers;
      repeat case_decide; try reflexivity;
      destruct (ctx_at s self); reflexivity.
Qed.

(** C8, the claim as stated fails: disconnecting a connected context leaves
    its client id in place. *)
Lemma disconnect_clears_id_counterexample :
  _ClientContext.is_connected 0 sample_connected = (Ok true, sample_connected) /\
  (_ClientContext.id 0 sample_connected).1 = Ok (Some "session-1") /\
  (_ClientContext.id 0 (_ClientContext.disconnect 0 sample_connected).2).1
    = Ok (Some "session-1").
Proof. vm_compute. repeat split; reflexivity. Qed.

(** ** Attribute resolution on a context *)

Lemma getattr_run s self key :
  _ClientContext.__getattr__ self key s =
    if String.eqb key "id" then (Ok (AttrId (_client_id (ctx_at s self))), s)
    else if String.eqb key "worker" then (Ok (AttrWorker (client_worker (ctx_at s self))), s)
    else if connected s self then (Ok (AttrApi key), s)
    else if bool_decide (key ∈ introspection_allowlist)
         then (Ok (AttrLambda (fun _ => false)), s)
         else (Raise (Exception
                 "Ray Client is not connected. Please connect by calling `ray.init`."), s).
Proof.
  unfold _ClientContext.__getattr__, introspection_allowlist.
  destruct (String.eqb key "id"); [reflexivity|].
  destruct (String.eqb key "worker"); [reflexivity|].
  unfold bind. rewrite is_connected_run.
  destruct (connected s self); [reflexivity|].
  destruct (bool_decide _); reflexivity.
Qed.

Lemma not_in_allowlist key :
  String.eqb key "is_initialized" = false ->
  String.eqb key "_internal_kv_initialized" = false ->
  key ∉ introspection_allowlist.
Proof.
  intros H1 H2 Hin. unfold introspection_allowlist in Hin.
  apply elem_of_cons in Hin as [->|Hin]; [discriminate|].
  apply elem_of_cons in Hin as [->|Hin]; [discriminate|].
  apply elem_of_nil in Hin. contradiction.
Qed.

(** C7, as the code has it: on a context that is not connected,
    [__getattr__] answers [id] with the stored client id and [worker] with the
    stored transport handle, answers the two introspection names with a
    callable that yields false, and raises the not-connected error for every
    other name. *)
Theorem getattr_not_connected s self key :
  (_ClientContext.is_connected self s).1 = Ok false ->
  (key = "id" ->
     _ClientContext.__getattr__ self key s = (Ok (AttrId (_client_id (ctx_at s self))), s)) /\
  (key = "worker" ->
     _ClientContext.__getattr__ self key s
       = (Ok (AttrWorker (client_worker (ctx_at s self))), s)) /\
  (key ∈ introspection_allowlist ->
     exists f, _ClientContext.__getattr__ self key s = (Ok (AttrLambda f), s) /\
               forall u, f u = false) /\
  (key <> "id" -> key <> "worker" -> key ∉ introspection_allowlist ->
     _ClientContext.__getattr__ self key s
       = (Raise (Exception
            "Ray Client is not connected. Please connect by calling `ray.init`."), s)).
Proof.
  rewrite is_connected_run. cbn [fst]. intros [= Hc].
  rewrite getattr_run, Hc.
  split; [intros ->; reflexivity|].
  split; [intros ->; reflexivity|].
  split.
  - intros Hin. exists (fun _ => false). split; [|reflexivity].
    unfold introspection_allowlist in Hin.
    apply elem_of_cons in Hin as [->|Hin]; [reflexivity|].
    apply elem_of_cons in Hin as [->|Hin]; [reflexivity|].
    apply elem_of_nil in Hin. contradiction.
  - intros H1 H2 H3.
    apply String.eqb_neq in H1, H2. rewrite H1, H2.
    rewrite bool_decide_false by exact H3. reflexivity.
Qed.

Lemma getattr_not_connected_witness :
  (_ClientContext.is_connected 0 sample_start).1 = Ok false /\
  _ClientContext.__getattr__ 0 "get" sample_start
    = (Raise (Exception
         "Ray Client is not connected. Please connect by calling `ray.init`."),
       sample_start).
Proof.
  split; [reflexivity|].
  apply (getattr_not_connected sample_start 0 "get"); [reflexivity|discriminate..|].
  apply not_in_allowlist; reflexivity.
Defined.

(** C7, the claim as stated fails: on a context with no transport, the name
    [id] is outside the introspection allowlist and yet is answered without
    an error. *)
Lemma getattr_raises_counterexample :
  (_ClientContext.is_connected 0 sample_start).1 = Ok false /\
  ("id" ∉ introspection_allowlist) /\
  (_ClientContext.__getattr__ 0 "id" sample_start).1 = Ok (AttrId None).
Proof.
  split; [reflexivity|]. split; [|reflexivity].
  apply not_in_allowlist; reflexivity.
Qed.

(** ** [connect] on a connected context *)

Lemma connect_already_connected s self a peer w :
  client_worker (ctx_at s self) = Some w ->
  _ClientContext.connect self a peer s =
    if _connected_with_init (ctx_at s self) then (Ok None, s)
    else (Raise (Exception "ray.init() called, but ray client is already connected"), s).
Proof.
  intros H. unfold _ClientContext.connect, bind, read, gets. rewrite H.
  destruct (_connected_with_init (ctx_at s self)); reflexivity.
Qed.

(** C6, where the code departs from the claim: on a context connected
    through [init], a second [connect] changes nothing but returns [None],
    not the cached connection info; on a context connected otherwise it
    raises. *)
Theorem connect_again_via_init_returns_None :
  _connected_with_init (ctx_at sample_connected_via_init 0) = true /\
  _conn_info (ctx_at sample_connected_via_init 0) = sample_info /\
  _ClientContext.connect 0 (connect_defaults "localhost:50051")
      (sample_peer "session-9" sample_info) sample_connected_via_init
    = (Ok None, sample_connected_via_init) /\
  (_ClientContext.connect 0 (connect_defaults "head:10001")
      (sample_peer "session-9" sample_info) sample_connected).1
    = Raise (Exception "ray.init() called, but ray client is already connected").
Proof.
  split; [reflexivity|]. split; [vm_compute; reflexivity|].
  split.
  - rewrite (connect_already_connected _ _ _ _ 0) by reflexivity. reflexivity.
  - rewrite (connect_already_connected _ _ _ _ 0) by reflexivity. reflexivity.
Qed.

(** ** The thread's active context *)

Lemma get_context_run s tid :
  RayAPIStub.get_context tid s = (Ok (active s tid), bound tid s).
Proof.
  unfold RayAPIStub.get_context, active, bound, bind, gets.
  destruct (handler s !! tid); reflexivity.
Qed.

Lemma handler_bound s tid : handler (bound tid s) !! tid = Some (active s tid).
Proof.
  unfold bound, active. destruct (handler s !! tid) eqn:E; cbn.
  - exact E.
  - apply lookup_insert_eq.
Qed.

Lemma active_bound s tid tid' : active (bound tid s) tid' = active s tid'.
Proof.
  unfold bound, active. destruct (handler s !! tid) eqn:E; [reflexivity|].
  cbn [handler with_handler].
  destruct (decide (tid = tid')) as [<-|Hne].
  - rewrite lookup_insert_eq, E. reflexivity.
  - rewrite lookup_insert_ne by done. reflexivity.
Qed.

Lemma bound_fixed s tid c : handler s !! tid = Some c -> bound tid s = s.
Proof. unfold bound. intros ->. reflexivity. Qed.

Lemma bound_bound s tid : bound tid (bound tid s) = bound tid s.
Proof. apply (bound_fixed _ _ _ (handler_bound s tid)). Qed.

Lemma heap_bound s tid : heap (bound tid s) = heap s.
Proof. unfold bound. destruct (handler s !! tid); reflexivity. Qed.

Lemma workers_bound s tid : workers (bound tid s) = workers s.
Proof. unfold bound. destruct (handler s !! tid); reflexivity. Qed.

Lemma guards_bound s tid : guards (bound tid s) = guards s.
Proof. unfold bound. destruct (handler s !! tid); reflexivity. Qed.

Lemma all_contexts_bound s tid : _all_contexts (bound tid s) = _all_contexts s.
Proof. unfold bound. destruct (handler s !! tid); reflexivity. Qed.

Lemma client_mode_bound s tid : client_mode (bound tid s) = client_mode s.
Proof. unfold bound. destruct (handler s !! tid); reflexivity. Qed.

Lemma ctx_at_bound s tid r : ctx_at (bound tid s) r = ctx_at s r.
Proof. unfold ctx_at. rewrite heap_bound. reflexivity. Qed.

Lemma connected_bound s tid r : connected (bound tid s) r = connected s r.
Proof. unfold connected. rewrite ctx_at_bound, workers_bound. reflexivity. Qed.

Lemma get_context_active s tid c :
  handler s !! tid = Some c -> RayAPIStub.get_context tid s = (Ok c, s).
Proof.
  intros H. rewrite get_context_run. unfold active. rewrite H.
  rewrite (bound_fixed _ _ _ H). reflexivity.
Qed.

Lemma is_default_run s tid :
  RayAPIStub.is_default tid s
    = (Ok (bool_decide (active s tid = _default_context)), bound tid s).
Proof. unfold RayAPIStub.is_default, bind. rewrite get_context_run. reflexivity. Qed.

Lemma stub_is_connected_run s tid :
  RayAPIStub.is_connected tid s = (Ok (connected s (active s tid)), bound tid s).
Proof.
  unfold RayAPIStub.is_connected, bind. rewrite get_context_run, is_connected_run.
  rewrite connected_bound. reflexivity.
Qed.

Lemma set_context_run s tid cxt :
  RayAPIStub.set_context tid cxt s =
    (Ok (active s tid),
     match cxt with
     | None => with_handler <[tid := length (heap s)]>
                 (with_heap (fun h => (h ++ [_ClientContext_new])%list) (bound tid s))
     | Some c => with_handler <[tid := c]> (bound tid s)
     end).
Proof.
  unfold RayAPIStub.set_context, bind. rewrite get_context_run.
  destruct cxt as [c|]; unfold alloc_context, modify, ret; cbn.
  - reflexivity.
  - rewrite heap_bound. reflexivity.
Qed.

(** C10: [set_context(None)] returns the context that was active and binds
    the thread to a newly allocated context, distinct from every existing
    one and from the default context, with the fields of a new
    [_ClientContext]; right afterwards [is_default()] and [is_connected()]
    are false. *)
Theorem set_context_None_installs_new_context s tid :
  heap s <> [] ->
  let r := RayAPIStub.set_context tid None s in
  let new := length (heap s) in
  r.1 = Ok (active s tid) /\
  heap s !! new = None /\
  heap r.2 !! new = Some _ClientContext_new /\
  new <> _default_context /\
  RayAPIStub.get_context tid r.2 = (Ok new, r.2) /\
  RayAPIStub.is_default tid r.2 = (Ok false, r.2) /\
  RayAPIStub.is_connected tid r.2 = (Ok false, r.2) /\
  (forall c, c < new -> heap r.2 !! c = heap s !! c).
Proof.
  intros Hne r new. subst r new. rewrite set_context_run. cbn [fst snd].
  set (s' := with_handler _ _).
  assert (Hh : handler s' !! tid = Some (length (heap s))).
  { unfold s'. cbn [handler with_handler]. apply lookup_insert_eq. }
  assert (Hheap : heap s' = (heap s ++ [_ClientContext_new])%list).
  { unfold s'. cbn [heap with_handler with_heap]. rewrite heap_bound. reflexivity. }
  assert (Hnew : length (heap s) <> _default_context).
  { unfold _default_context. destruct (heap s); [contradiction|cbn; lia]. }
  assert (Hact : active s' tid = length (heap s)).
  { unfold active. rewrite Hh. reflexivity. }
  split; [reflexivity|].
  split; [apply lookup_ge_None_2; lia|].
  split; [rewrite Hheap; apply list_lookup_middle; reflexivity|].
  split; [exact Hnew|].
  split; [apply get_context_active, Hh|].
  split.
  { rewrite is_default_run, Hact, (bound_fixed _ _ _ Hh).
    rewrite bool_decide_false by exact Hnew. reflexivity. }
  split.
  { rewrite stub_is_connected_run, Hact, (bound_fixed _ _ _ Hh).
    unfold connected, ctx_at. rewrite Hheap.
    rewrite list_lookup_middle by reflexivity. reflexivity. }
  intros c Hc. rewrite Hheap. apply lookup_app_l. exact Hc.
Qed.

Lemma set_context_None_installs_new_context_witness :
  heap sample_connected <> [] /\
  (RayAPIStub.set_context 1 None sample_connected).1 = Ok _default_context /\
  RayAPIStub.is_default 1 (RayAPIStub.set_context 1 None sample_connected).2
    = (Ok false, (RayAPIStub.set_context 1 None sample_connected).2).
Proof.
  assert (H : heap sample_connected <> []) by (vm_compute; discriminate).
  split; [exact H|].
  pose proof (set_context_None_installs_new_context sample_connected 1 H) as T.
  cbn zeta in T. split; [apply T|apply T].
Defined.

(** ** The handshake of [connect] *)

(** The state [connect] leaves before its [try] block: client mode is
    enabled unless the context is inside a client test, and a warning may be
    logged. *)
Lemma connect_prepare_run s self a :
  let r := _ClientContext.connect_prepare self a s in
  r = (Ok tt, with_log (fun _ => log r.2)
                (if _inside_client_test (ctx_at s self) then s
                 else with_client_mode true s)).
Proof.
  unfold _ClientContext.connect_prepare, bind, read, gets, when.
  destruct (_inside_client_test (ctx_at s self)); cbn [negb];
    unfold _explicitly_enable_client_mode, modify, ret.
  all: destruct (_ClientContext.effective_job_config a) as [jc|];
    [destruct (runtime_env_pip jc || runtime_env_conda jc)|].
  all: destruct s; reflexivity.
Qed.

(** [_check_versions] touches the log only. *)
Lemma check_versions_state s self ci ignore :
  let r := _ClientContext._check_versions self ci ignore s in
  r.2 = with_log (fun _ => log r.2) s.
Proof.
  unfold _ClientContext._check_versions, bind, gets, getitem.
  destruct (ci !! "python_version") as [pv|]; [|destruct s; reflexivity].
  cbn [ret]. destruct pv as [|pv|z]; cbn [startswith raise ret];
    try (destruct s; reflexivity).
  destruct (String.prefix _ pv); cbn [negb ret];
    destruct (ignore || _); cbn [raise]; try (destruct s; reflexivity).
  all: unfold logger_warning, modify.
  all: destruct (ci !! "protocol_version") as [pr|]; cbn [ret raise];
    try (destruct s; reflexivity).
  all: destruct (str_ne _ pr); try (destruct s; reflexivity).
Qed.

(** The [try] block of [connect], step by step. *)
Lemma connect_attempt_run s self a jc peer :
  _ClientContext.connect_attempt self a jc peer s =
    match Worker_new peer (conn_str a) (secure a) (_credentials a) (metadata a)
         (connection_retries a) with
    | Raise e => (Raise e, s)
    | Ok wk =>
        let w := length (workers s) in
        let s1 := with_heap (alter (set_api_worker (Some w)) self)
                    (with_heap (alter (set_client_id (Some (w_client_id wk))) self)
                       (with_heap (alter (set_client_worker (Some w)) self)
                          (with_workers (fun l => (l ++ [wk])%list) s))) in
        match w_server_init wk with
        | Some e => (Raise e, s1)
        | None =>
            let s2 := with_workers
                        (alter (set_init_pushed (jc, ray_init_kwargs a)) w) s1 in
            match w_connection_info wk with
            | Raise e => (Raise e, s2)
            | Ok info =>
                let s3 := with_heap (alter (set_conn_info info) self) s2 in
                let r := _ClientContext._check_versions self (_conn_info (ctx_at s3 self))
                           (ignore_version a) s3 in
                match r.1 with
                | Raise e => (Raise e, r.2)
                | Ok _ =>
                    match serialization_addons_apply peer with
                    | Some e => (Raise e, r.2)
                    | None => (Ok (Some (_conn_info (ctx_at r.2 self))), r.2)
                    end
                end
            end
        end
    end.
Proof.
  unfold _ClientContext.connect_attempt.
  destruct (Worker_new peer _ _ _ _ _) as [wk|e]; [|reflexivity].
  unfold bind at 1. unfold alloc_worker.
  unfold bind at 1. unfold write at 1. unfold modify at 1.
  unfold bind at 1. unfold gets at 1.
  cbn [workers with_heap with_workers].
  rewrite list_lookup_middle by reflexivity. cbn [fmap option_fmap option_map].
  unfold bind at 1. unfold write at 1. unfold modify at 1.
  unfold bind at 1. unfold write at 1. unfold modify at 1.
  unfold bind at 1. unfold worker_server_init at 1.
  unfold bind at 1. unfold gets at 1.
  cbn [workers with_heap with_workers].
  rewrite list_lookup_middle by reflexivity.
  destruct (w_server_init wk) as [e|]; [reflexivity|].
  unfold modify at 1.
  unfold bind at 1. unfold worker_connection_info at 1.
  unfold bind at 1. unfold gets at 1.
  cbn [workers with_heap with_workers].
  rewrite list_lookup_alter_eq, list_lookup_middle by reflexivity.
  cbn [fmap option_fmap option_map w_connection_info set_init_pushed].
  destruct (w_connection_info wk) as [info|e]; [|reflexivity].
  cbn [ret].
  unfold bind at 1. unfold write at 1. unfold modify at 1.
  unfold bind at 1. unfold read at 1. unfold gets at 1.
  unfold bind at 1.
  match goal with |- context [_ClientContext._check_versions ?x ?y ?z ?t] =>
    destruct (_ClientContext._check_versions x y z t) as [[[]|e] s4] end;
    [|reflexivity].
  cbn [fst snd].
  unfold bind at 1. unfold _ClientContext._register_serializers.
  destruct (serialization_addons_apply peer); reflexivity.
Qed.

(** ** Stability of computations *)

Section stable.
Context (R : State -> State -> Prop) `{!PreOrder R}.

Lemma stable_ret {A} (a : A) : stable R (ret a).
Proof. intros s. reflexivity. Qed.

Lemma stable_raise {A} e : stable R (@raise A e).
Proof. intros s. reflexivity. Qed.

Lemma stable_gets {A} (f : State -> A) : stable R (gets f).
Proof. intros s. reflexivity. Qed.

Lemma stable_read {A} r (f : _ClientContext -> A) : stable R (read r f).
Proof. intros s. reflexivity. Qed.

Lemma stable_modify f : (forall s, R s (f s)) -> stable R (modify f).
Proof. intros H s. apply H. Qed.

Lemma stable_bind {A B} (m : M A) (k : A -> M B) :
  stable R m -> (forall a, stable R (k a)) -> stable R (bind m k).
Proof.
  intros Hm Hk s. unfold bind. specialize (Hm s).
  destruct (m s) as [[a|e] s1]; cbn in *; [|exact Hm].
  etransitivity; [exact Hm|apply Hk].
Qed.

Lemma stable_try_except {A} (body : M A) handler :
  stable R body -> (forall e, stable R (handler e)) ->
  stable R (try_except body handler).
Proof.
  intros Hm Hk s. unfold try_except. specialize (Hm s).
  destruct (body s) as [[a|e] s1]; cbn in *; [exact Hm|].
  etransitivity; [exact Hm|apply Hk].
Qed.

Lemma stable_when b m : stable R m -> stable R (when b m).
Proof. intros H. destruct b; [exact H|apply stable_ret]. Qed.

Lemma stable_for_each {A} (l : list A) f :
  (forall x, x ∈ l -> stable R (f x)) -> stable R (for_each l f).
Proof.
  induction l as [|x l IH]; intros H; cbn [for_each]; [apply stable_ret|].
  apply stable_bind; [apply H; left|].
  intros _. apply IH. intros y Hy. apply H. right. exact Hy.
Qed.

Lemma stable_with {A} g tid (body : M A) :
  stable R (ManagedContext.__enter__ g tid) ->
  stable R (ManagedContext.__exit__ g tid) ->
  stable R body -> stable R (with_guard g tid body).
Proof.
  intros He Hx Hb. unfold with_guard. apply stable_bind; [exact He|].
  intros _ s. specialize (Hb s). destruct (body s) as [[a|e] s1]; cbn [snd] in Hb.
  - etransitivity; [exact Hb|].
    apply (stable_bind _ (fun _ => ret a) Hx). intros _. apply stable_ret.
  - etransitivity; [exact Hb|].
    apply (stable_bind _ (fun _ => raise e) Hx). intros _. apply stable_raise.
Qed.
End stable.

(** One step of a stability proof: peel the outermost construct. *)
Ltac stable_step :=
  lazymatch goal with
  | |- stable _ (bind _ _) => refine (stable_bind _ _ _ _ _); [|intros ?]
  | |- stable _ (ret _) => refine (stable_ret _ _)
  | |- stable _ (raise _) => refine (stable_raise _ _)
  | |- stable _ (gets _) => refine (stable_gets _ _)
  | |- stable _ (read _ _) => refine (stable_read _ _ _)
  | |- stable _ (when _ _) => refine (stable_when _ _ _ _)
  | |- stable _ (try_except _ _) => refine (stable_try_except _ _ _ _ _); [|intros ?]
  | |- stable _ (match ?x with _ => _ end) => destruct x
  end.

#[export] Instance ctx_frame_preorder self : PreOrder (ctx_frame self).
Proof.
  split.
  - intros s. unfold ctx_frame. repeat split; try reflexivity.
    intros w wk H. exists wk. auto.
  - intros s1 s2 s3 (A1&A2&A3&A4&A5&A6&A7&A8&A9) (B1&B2&B3&B4&B5&B6&B7&B8&B9).
    unfold ctx_frame. repeat split; try congruence.
    + intros c Hc. rewrite B8, A8 by exact Hc. reflexivity.
    + intros w wk H. destruct (A9 _ _ H) as (wk1 & H1 & I1 & C1).
      destruct (B9 _ _ H1) as (wk2 & H2 & I2 & C2).
      exists wk2. repeat split; [exact H2|congruence|auto].
Qed.

#[export] Instance session_frame_preorder : PreOrder session_frame.
Proof.
  split.
  - intros s. unfold session_frame. repeat split; auto.
  - intros s1 s2 s3 (A1&A2&A3&A4) (B1&B2&B3&B4).
    unfold session_frame.
    split; [congruence|]. split; [congruence|].
    split; [intros t; rewrite B3, A3; reflexivity|auto].
Qed.

Lemma stable_weaken {A} (R1 R2 : State -> State -> Prop) (m : M A) :
  (forall s s', R1 s s' -> R2 s s') -> stable R1 m -> stable R2 m.
Proof. intros H Hm s. apply H, Hm. Qed.

Lemma ctx_frame_session self s s' : ctx_frame self s s' -> session_frame s s'.
Proof.
  intros (A1&A2&A3&A4&A5&A6&A7&A8&A9). unfold session_frame, active.
  rewrite A2. auto.
Qed.

(** *** The elementary updates *)

Lemma ctx_frame_write self upd s : ctx_frame self s (with_heap (alter upd self) s).
Proof.
  unfold ctx_frame. cbn [heap workers guards _all_contexts handler
    stub_inside_client_test version_info environ with_heap].
  repeat split.
  - apply length_alter.
  - intros c Hc. apply list_lookup_alter_ne. congruence.
  - intros w wk H. exists wk. auto.
Qed.

Lemma ctx_frame_workers_alter self f w s :
  (forall wk, w_client_id (f wk) = w_client_id wk /\
              (w_closed wk = true -> w_closed (f wk) = true)) ->
  ctx_frame self s (with_workers (alter f w) s).
Proof.
  intros Hf. unfold ctx_frame. cbn [heap workers guards _all_contexts handler
    stub_inside_client_test version_info environ with_workers].
  repeat split. intros w' wk H.
  destruct (decide (w = w')) as [<-|Hne].
  - exists (f wk). rewrite list_lookup_alter_eq, H. split; [reflexivity|apply Hf].
  - exists wk. rewrite list_lookup_alter_ne by done. auto.
Qed.

Lemma ctx_frame_workers_app self wk0 s :
  ctx_frame self s (with_workers (fun l => (l ++ [wk0])%list) s).
Proof.
  unfold ctx_frame. cbn [heap workers guards _all_contexts handler
    stub_inside_client_test version_info environ with_workers].
  repeat split. intros w wk H. exists wk.
  rewrite lookup_app_l by (eapply lookup_lt_Some; exact H). auto.
Qed.

Lemma ctx_frame_log self f s : ctx_frame self s (with_log f s).
Proof.
  unfold ctx_frame. cbn. repeat split. intros w wk H. exists wk. auto.
Qed.

Lemma ctx_frame_client_mode self b s : ctx_frame self s (with_client_mode b s).
Proof.
  unfold ctx_frame. cbn. repeat split. intros w wk H. exists wk. auto.
Qed.

Lemma ctx_frame_stopped_servers self f s : ctx_frame self s (with_stopped_servers f s).
Proof.
  unfold ctx_frame. cbn. repeat split. intros w wk H. exists wk. auto.
Qed.

(** *** The calls on a context *)

Lemma stable_write self upd : stable (ctx_frame self) (write self upd).
Proof. apply stable_modify. intros s. apply ctx_frame_write. Qed.

Lemma stable_logger_warning self msg : stable (ctx_frame self) (logger_warning msg).
Proof. apply stable_modify. intros s. apply ctx_frame_log. Qed.

Lemma stable_worker_close self w : stable (ctx_frame self) (worker_close w).
Proof.
  apply stable_modify. intros s. apply ctx_frame_workers_alter.
  intros wk. split; reflexivity.
Qed.

Lemma stable_disconnect self : stable (ctx_frame self) (_ClientContext.disconnect self).
Proof.
  unfold _ClientContext.disconnect.
  repeat stable_step; auto using stable_write, stable_worker_close.
Qed.

Lemma stable_check_versions self ci ignore :
  stable (ctx_frame self) (_ClientContext._check_versions self ci ignore).
Proof.
  intros s. rewrite check_versions_state. apply ctx_frame_log.
Qed.

Lemma stable_connect_prepare self a :
  stable (ctx_frame self) (_ClientContext.connect_prepare self a).
Proof.
  intros s. rewrite connect_prepare_run. cbn [snd].
  etransitivity; [|apply ctx_frame_log].
  destruct (_inside_client_test _); [reflexivity|apply ctx_frame_client_mode].
Qed.

Lemma stable_connect_attempt self a jc peer :
  stable (ctx_frame self) (_ClientContext.connect_attempt self a jc peer).
Proof.
  unfold _ClientContext.connect_attempt, _ClientContext._register_serializers,
    worker_server_init, worker_connection_info, alloc_worker.
  repeat stable_step;
    auto using stable_write, stable_check_versions.
  - intros s. apply ctx_frame_workers_app.
  - apply stable_modify. intros s. apply ctx_frame_workers_alter.
    intros wk. split; [reflexivity|auto].
Qed.

Lemma stable_connect self a peer :
  stable (ctx_frame self) (_ClientContext.connect self a peer).
Proof.
  unfold _ClientContext.connect.
  repeat stable_step;
    auto using stable_connect_prepare, stable_connect_attempt, stable_disconnect.
Qed.

Lemma stable_ctx_is_connected self : stable (ctx_frame self) (_ClientContext.is_connected self).
Proof. intros s. rewrite is_connected_run. reflexivity. Qed.

Lemma stable_ctx_getattr self key :
  stable (ctx_frame self) (_ClientContext.__getattr__ self key).
Proof.
  intros s. rewrite getattr_run.
  repeat (match goal with |- context [if ?b then _ else _] => destruct b end);
    reflexivity.
Qed.

Lemma stable_ctx_init self serve peer :
  stable (ctx_frame self) (_ClientContext.init self serve peer).
Proof.
  unfold _ClientContext.init.
  repeat stable_step; auto using stable_write, stable_connect.
Qed.

Lemma stable_ctx_shutdown self e :
  stable (ctx_frame self) (_ClientContext.shutdown self e).
Proof.
  unfold _ClientContext.shutdown, shutdown_with_server.
  repeat stable_step; auto using stable_write, stable_disconnect.
  apply stable_modify. intros s. apply ctx_frame_stopped_servers.
Qed.

(** ** Failure of [connect] *)

(** The outcome of [_check_versions] depends on the interpreter version and
    the environment only. *)
Lemma check_versions_outcome s s' self self' ci ignore :
  version_info s = version_info s' -> environ s = environ s' ->
  (_ClientContext._check_versions self ci ignore s).1
    = (_ClientContext._check_versions self' ci ignore s').1.
Proof.
  intros Hv He.
  unfold _ClientContext._check_versions, bind, gets, getitem.
  rewrite Hv, He.
  destruct (ci !! "python_version") as [pv|]; [|reflexivity].
  cbn [ret]. destruct pv as [|pv|z]; cbn [startswith raise ret]; try reflexivity.
  destruct (String.prefix _ pv); cbn [negb ret];
    destruct (ignore || _); cbn [raise]; try reflexivity.
  all: unfold logger_warning, modify.
  all: destruct (ci !! "protocol_version") as [pr|]; cbn [ret raise]; try reflexivity.
  all: destruct (str_ne _ pr); reflexivity.
Qed.

(** The address of an existing context reads back what is written to it. *)
Lemma ctx_at_write s self upd :
  self < length (heap s) ->
  ctx_at (with_heap (alter upd self) s) self = upd (ctx_at s self).
Proof.
  intros H. rewrite ctx_at_alter, decide_True by done.
  rewrite decide_True by exact H. reflexivity.
Qed.

Lemma ctx_at_write_ne s self r upd :
  self <> r -> ctx_at (with_heap (alter upd self) s) r = ctx_at s r.
Proof. intros H. rewrite ctx_at_alter, decide_False by done. reflexivity. Qed.

(** The attempt fails exactly when a step of the handshake does, with that
    step's exception. *)
Lemma connect_attempt_outcome s self a jc peer :
  self < length (heap s) ->
  match handshake_failure s self a peer with
  | Some e => (_ClientContext.connect_attempt self a jc peer s).1 = Raise e
  | None => exists info, (_ClientContext.connect_attempt self a jc peer s).1 = Ok (Some info)
  end.
Proof.
  intros Hin. rewrite connect_attempt_run. unfold handshake_failure.
  destruct (Worker_new peer _ _ _ _ _) as [wk|e]; [|reflexivity].
  cbn zeta. destruct (w_server_init wk) as [e|]; [reflexivity|].
  destruct (w_connection_info wk) as [info|e]; [|reflexivity].
  rewrite ctx_at_write by (cbn; rewrite !length_alter; exact Hin).
  cbn [_conn_info set_conn_info].
  match goal with |- context [(_ClientContext._check_versions self info ?i ?t).1] =>
    rewrite (check_versions_outcome t s self self info i) by reflexivity end.
  destruct (_ClientContext._check_versions self info (ignore_version a) s).1 as [[]|e];
    [|reflexivity].
  destruct (serialization_addons_apply peer); [reflexivity|].
  eexists. reflexivity.
Qed.

(** [connect] on a context without transport: the preparation, then the
    attempt, and [disconnect] on the state the attempt leaves if it fails. *)
Lemma connect_fresh_run s self a peer :
  client_worker (ctx_at s self) = None ->
  _ClientContext.connect self a peer s =
    let s0 := (_ClientContext.connect_prepare self a s).2 in
    let attempt := _ClientContext.connect_attempt self a
                     (_ClientContext.effective_job_config a) peer s0 in
    match attempt.1 with
    | Ok v => (Ok v, attempt.2)
    | Raise e => (Raise e, (_ClientContext.disconnect self attempt.2).2)
    end.
Proof.
  intros H. unfold _ClientContext.connect. unfold bind at 1. unfold read at 1, gets at 1.
  rewrite H. unfold bind at 1.
  pose proof (connect_prepare_run s self a) as Hp. cbn zeta in Hp.
  destruct (_ClientContext.connect_prepare self a s) as [r0 s0].
  injection Hp as -> _. cbn [snd].
  unfold try_except.
  destruct (_ClientContext.connect_attempt _ _ _ _ s0) as [[v|e] s1]; [reflexivity|].
  cbn [fst snd]. unfold bind. rewrite disconnect_run. reflexivity.
Qed.

Lemma stub_flag_bound s tid :
  stub_inside_client_test (bound tid s) = stub_inside_client_test s.
Proof. unfold bound. destruct (handler s !! tid); reflexivity. Qed.

Lemma version_info_bound s tid : version_info (bound tid s) = version_info s.
Proof. unfold bound. destruct (handler s !! tid); reflexivity. Qed.

Lemma environ_bound s tid : environ (bound tid s) = environ s.
Proof. unfold bound. destruct (handler s !! tid); reflexivity. Qed.

Lemma register_handler_run s tid c :
  handler s !! tid = Some c ->
  RayAPIStub.register_handler tid s
    = (Ok tt, with_all_contexts <[_client_id (ctx_at s c) := c]> s).
Proof.
  intros H. unfold RayAPIStub.register_handler, bind.
  rewrite (get_context_active _ _ _ H). reflexivity.
Qed.

(** The facade's [connect]: the context-level [connect] on the active
    context, then the registration if it returned. *)
Lemma stub_connect_run s tid a peer :
  RayAPIStub.connect tid a peer s =
    let c := active s tid in
    let sw := with_heap (alter (set_inside_client_test (stub_inside_client_test s)) c)
                (bound tid s) in
    let r := _ClientContext.connect c a peer sw in
    match r.1 with
    | Raise e => (Raise e, r.2)
    | Ok conn => (Ok conn, with_all_contexts <[_client_id (ctx_at r.2 c) := c]> r.2)
    end.
Proof.
  cbn zeta. unfold RayAPIStub.connect.
  unfold bind at 1. rewrite get_context_run.
  unfold bind at 1. unfold gets at 1.
  unfold bind at 1. unfold write at 1, modify at 1.
  rewrite stub_flag_bound.
  set (sw := with_heap _ (bound tid s)).
  assert (Hh : handler sw !! tid = Some (active s tid)) by apply handler_bound.
  unfold bind at 1. rewrite (get_context_active _ _ _ Hh).
  unfold bind at 1.
  pose proof (stable_connect (active s tid) a peer sw) as (_ & Hh' & _).
  destruct (_ClientContext.connect (active s tid) a peer sw) as [[conn|e] s1];
    cbn [fst snd] in *; [|reflexivity].
  unfold bind. rewrite (register_handler_run _ _ (active s tid)) by (rewrite Hh'; exact Hh).
  reflexivity.
Qed.

(** C1, as the code has it: when a step of the handshake fails on a context
    that passed the state check, the context-level [connect] runs
    [disconnect] on the state the failed attempt left and raises that step's
    exception; afterwards the context holds no transport handle, the
    transport opened by the attempt is closed, and the registry, the
    handlers, the guards and every other context are as before the call.
    The facade's [connect] on a thread whose active context this is raises
    the same exception and adds no entry to the registry. *)
Theorem connect_failure_rolls_back s self a peer e :
  self < length (heap s) ->
  client_worker (ctx_at s self) = None ->
  handshake_failure s self a peer = Some e ->
  let s0 := (_ClientContext.connect_prepare self a s).2 in
  let attempt := _ClientContext.connect_attempt self a
                   (_ClientContext.effective_job_config a) peer s0 in
  let r := _ClientContext.connect self a peer s in
  attempt.1 = Raise e /\
  r = (Raise e, (_ClientContext.disconnect self attempt.2).2) /\
  client_worker (ctx_at r.2 self) = None /\
  (forall w wk, client_worker (ctx_at attempt.2 self) = Some w ->
     workers attempt.2 !! w = Some wk -> workers r.2 !! w = Some (set_closed wk)) /\
  _all_contexts r.2 = _all_contexts s /\
  ctx_frame self s r.2 /\
  (forall tid, active s tid = self ->
     let r' := RayAPIStub.connect tid a peer s in
     r'.1 = Raise e /\
     _all_contexts r'.2 = _all_contexts s /\
     client_worker (ctx_at r'.2 self) = None).
Proof.
  intros Hin Hnone Hfail s0 attempt r.
  assert (Hgen : forall t, self < length (heap t) -> client_worker (ctx_at t self) = None ->
            version_info t = version_info s -> environ t = environ s ->
            let t0 := (_ClientContext.connect_prepare self a t).2 in
            let att := _ClientContext.connect_attempt self a
                         (_ClientContext.effective_job_config a) peer t0 in
            att.1 = Raise e /\
            _ClientContext.connect self a peer t
              = (Raise e, (_ClientContext.disconnect self att.2).2)).
  { intros t Ht Hn Hv He t0 att.
    pose proof (stable_connect_prepare self a t) as (_&_&_&_&Hv0&He0&Hl0&_).
    fold t0 in Hv0, He0, Hl0.
    assert (Hatt : att.1 = Raise e).
    { pose proof (connect_attempt_outcome t0 self a
                    (_ClientContext.effective_job_config a) peer) as Ho.
      assert (Hf : handshake_failure t0 self a peer = Some e).
      { rewrite <- Hfail. unfold handshake_failure.
        destruct (Worker_new peer _ _ _ _ _) as [wk|]; [|reflexivity].
        destruct (w_server_init wk); [reflexivity|].
        destruct (w_connection_info wk) as [info|]; [|reflexivity].
        rewrite (check_versions_outcome t0 s self self info) by congruence.
        reflexivity. }
      rewrite Hf in Ho. apply Ho. lia. }
    split; [exact Hatt|].
    rewrite (connect_fresh_run _ _ _ _ Hn). cbn zeta. fold t0. fold att.
    rewrite Hatt. reflexivity. }
  destruct (Hgen s Hin Hnone eq_refl eq_refl) as [Hatt Hrun].
  fold s0 in Hatt, Hrun. fold attempt in Hatt, Hrun. fold r in Hrun.
  split; [exact Hatt|]. split; [exact Hrun|].
  split; [rewrite Hrun; apply disconnect_client_worker|].
  split.
  { intros w wk Hw Hwk. rewrite Hrun. cbn [snd].
    rewrite disconnect_run, Hw. cbn [snd workers with_heap with_workers].
    rewrite list_lookup_alter_eq, Hwk. reflexivity. }
  pose proof (stable_connect self a peer s) as Hframe. fold r in Hframe.
  split; [apply Hframe|]. split; [exact Hframe|].
  intros tid Hact r'. subst r'. rewrite stub_connect_run. cbn zeta. rewrite Hact.
  set (sw := with_heap _ (bound tid s)).
  assert (Hsw : ctx_frame self (bound tid s) sw) by apply ctx_frame_write.
  destruct Hsw as (Hac & _ & _ & _ & Hv & He & Hl & _).
  destruct (Hgen sw) as [_ Hrun'].
  { rewrite Hl, heap_bound. exact Hin. }
  { unfold sw. rewrite ctx_at_write by (rewrite heap_bound; exact Hin).
    rewrite ctx_at_bound. destruct (ctx_at s self); exact Hnone. }
  { rewrite Hv. apply version_info_bound. }
  { rewrite He. apply environ_bound. }
  pose proof (stable_connect self a peer sw) as (Hac' & _).
  rewrite Hrun' in *. cbn [fst snd] in *.
  split; [reflexivity|].
  split; [rewrite Hac', Hac; apply all_contexts_bound|].
  apply disconnect_client_worker.
Qed.

Lemma connect_failure_rolls_back_witness :
  0 < length (heap sample_start) /\
  client_worker (ctx_at sample_start 0) = None /\
  handshake_failure sample_start 0 (connect_defaults "head:10001")
    (refusing_peer "session-1") = Some (CollaboratorError "initialization failed") /\
  client_worker
    (ctx_at (_ClientContext.connect_attempt 0 (connect_defaults "head:10001") None
               (refusing_peer "session-1") sample_start).2 0) = Some 0 /\
  (_ClientContext.connect 0 (connect_defaults "head:10001") (refusing_peer "session-1")
     sample_start).1 = Raise (CollaboratorError "initialization failed") /\
  client_worker
    (ctx_at (_ClientContext.connect 0 (connect_defaults "head:10001")
               (refusing_peer "session-1") sample_start).2 0) = None /\
  w_closed <$>
    workers (_ClientContext.connect 0 (connect_defaults "head:10001")
               (refusing_peer "session-1") sample_start).2 !! 0 = Some true /\
  (RayAPIStub.connect 0 (connect_defaults "head:10001") (refusing_peer "session-1")
     sample_start).1 = Raise (CollaboratorError "initialization failed") /\
  _all_contexts
    (RayAPIStub.connect 0 (connect_defaults "head:10001") (refusing_peer "session-1")
       sample_start).2 = _all_contexts sample_start.
Proof.
  assert (H1 : 0 < length (heap sample_start)) by (cbn; lia).
  split; [exact H1|]. split; [reflexivity|]. split; [reflexivity|].
  split; [vm_compute; reflexivity|].
  pose proof (connect_failure_rolls_back sample_start 0 (connect_defaults "head:10001")
                (refusing_peer "session-1") (CollaboratorError "initialization failed")
                H1 eq_refl eq_refl) as T.
  cbn zeta in T. destruct T as (_ & T2 & T3 & T4 & _ & _ & T7).
  split; [rewrite T2; reflexivity|]. split; [exact T3|].
  split.
  { erewrite T4; [reflexivity|vm_compute; reflexivity|vm_compute; reflexivity]. }
  destruct (T7 0 eq_refl) as (R1 & R2 & _). split; [exact R1|exact R2].
Defined.

(** C1, the claim as stated fails: a failed [connect] does not leave the
    process as before the call.  When the server refuses the initialisation
    of a transport that was opened, the rollback closes the transport and
    clears [client_worker], but client mode stays enabled, the context keeps
    the client id of the failed transport and the reference [api.worker] to
    it, and the closed transport object remains. *)
Lemma connect_failure_not_as_before_counterexample :
  let r := _ClientContext.connect 0 (connect_defaults "head:10001")
             (refusing_peer "session-1") sample_start in
  r.1 = Raise (CollaboratorError "initialization failed") /\
  r.2 <> sample_start /\
  client_mode sample_start = false /\ client_mode r.2 = true /\
  _client_id (ctx_at sample_start 0) = None /\
  _client_id (ctx_at r.2 0) = Some "session-1" /\
  api_worker (ctx_at sample_start 0) = None /\
  api_worker (ctx_at r.2 0) = Some 0.
Proof.
  cbn zeta. split; [vm_compute; reflexivity|].
  split.
  { intros E. apply (f_equal client_mode) in E. vm_compute in E. discriminate. }
  vm_compute. repeat split; reflexivity.
Qed.

(** ** Tearing sessions down *)

#[export] Instance teardown_preorder : PreOrder teardown.
Proof.
  split.
  - intros s. unfold teardown. repeat split; auto.
    intros w wk H. exists wk. auto.
  - intros s1 s2 s3 (A1&A2&A3&A4&A5&A6&A7&A8&A9) (B1&B2&B3&B4&B5&B6&B7&B8&B9).
    unfold teardown.
    split; [congruence|]. split; [congruence|]. split; [congruence|].
    split; [congruence|]. split; [congruence|]. split; [congruence|].
    split; [intros c; rewrite B7; apply A7|].
    split.
    + intros c. destruct (B8 c) as [H|H]; [left; exact H|].
      rewrite H. apply A8.
    + intros w wk H. destruct (A9 _ _ H) as (wk1 & H1 & I1 & C1).
      destruct (B9 _ _ H1) as (wk2 & H2 & I2 & C2).
      exists wk2. split; [exact H2|]. split; [congruence|auto].
Qed.

Lemma teardown_workers_alter w s :
  teardown s (with_workers (alter set_closed w) s).
Proof.
  unfold teardown. cbn [heap workers guards _all_contexts handler client_mode with_workers].
  repeat split; auto using length_alter.
  intros w' wk H. destruct (decide (w = w')) as [<-|Hne].
  - exists (set_closed wk). rewrite list_lookup_alter_eq, H. repeat split.
  - exists wk. rewrite list_lookup_alter_ne by done. auto.
Qed.

Lemma teardown_write self upd s :
  (forall c, _client_id (upd c) = _client_id c /\
             (client_worker (upd c) = None \/ client_worker (upd c) = client_worker c)) ->
  teardown s (with_heap (alter upd self) s).
Proof.
  intros Hu. unfold teardown.
  cbn [heap workers guards _all_contexts handler client_mode with_heap].
  repeat split; auto using length_alter.
  - intros c. rewrite ctx_at_alter. repeat case_decide; try reflexivity. apply Hu.
  - intros c. rewrite ctx_at_alter. repeat case_decide; auto. apply Hu.
  - intros w wk H. exists wk. auto.
Qed.

Lemma teardown_stopped_servers f s : teardown s (with_stopped_servers f s).
Proof.
  unfold teardown. cbn. repeat split; auto. intros w wk H. exists wk. auto.
Qed.

Lemma stable_teardown_disconnect self : stable teardown (_ClientContext.disconnect self).
Proof.
  unfold _ClientContext.disconnect, worker_close.
  repeat stable_step.
  - apply stable_modify. intros s. apply teardown_workers_alter.
  - apply stable_modify. intros s. apply teardown_write. intros c. auto.
Qed.

Lemma stable_teardown_shutdown self e :
  stable teardown (_ClientContext.shutdown self e).
Proof.
  unfold _ClientContext.shutdown, shutdown_with_server.
  repeat stable_step; auto using stable_teardown_disconnect.
  - apply stable_modify. intros s. apply teardown_stopped_servers.
  - apply stable_modify. intros s. apply teardown_write. intros c. auto.
Qed.

Lemma shutdown_run s self e :
  _ClientContext.shutdown self e s =
    let s1 := (_ClientContext.disconnect self s).2 in
    (Ok tt,
     match _server (ctx_at s1 self) with
     | None => s1
     | Some h => with_heap (alter (set_server None) self)
                   (with_stopped_servers (fun l => (l ++ [(h, e)])%list) s1)
     end).
Proof.
  unfold _ClientContext.shutdown, bind. rewrite disconnect_run. cbn [snd].
  unfold read, gets. destruct (_server _); reflexivity.
Qed.

(** The per-context call of a teardown: [disconnect] or [shutdown]. *)
Section per_context.
Variable f : nat -> M unit.
Hypothesis f_returns : forall c s, (f c s).1 = Ok tt.
Hypothesis f_teardown : forall c, stable teardown (f c).
Hypothesis f_frame : forall c, stable (ctx_frame c) (f c).
Hypothesis f_clears : forall c s, client_worker (ctx_at (f c s).2 c) = None.
Hypothesis f_closes : forall c s w wk,
  client_worker (ctx_at s c) = Some w -> workers s !! w = Some wk ->
  exists wk', workers (f c s).2 !! w = Some wk' /\ w_closed wk' = true.

Lemma for_each_returns (l : list nat) s : (for_each l f s).1 = Ok tt.
Proof.
  revert s. induction l as [|c l IH]; intros s; [reflexivity|].
  cbn [for_each]. unfold bind. pose proof (f_returns c s) as H.
  destruct (f c s) as [[[]|e] s1]; [apply IH|discriminate].
Qed.

Lemma for_each_teardown (l : list nat) : stable teardown (for_each l f).
Proof. apply stable_for_each; [exact _|]. intros c _. apply f_teardown. Qed.

Lemma for_each_clears (l : list nat) s c :
  c ∈ l -> client_worker (ctx_at (for_each l f s).2 c) = None.
Proof.
  revert s. induction l as [|c0 l IH]; intros s Hc; [inversion Hc|].
  cbn [for_each]. unfold bind. pose proof (f_returns c0 s) as Hr.
  pose proof (f_clears c0 s) as Hn.
  destruct (f c0 s) as [[[]|e] s1]; [|discriminate]. cbn [fst snd] in *.
  destruct (decide (c ∈ l)) as [Hin|Hnin]; [apply IH, Hin|].
  apply elem_of_cons in Hc as [->|Hc]; [|contradiction].
  destruct (for_each_teardown l s1) as (_&_&_&_&_&_&_&H&_).
  destruct (H c0) as [H0|H0]; [exact H0|]. rewrite H0. exact Hn.
Qed.

Lemma for_each_closes (l : list nat) s c w wk :
  c ∈ l -> client_worker (ctx_at s c) = Some w -> workers s !! w = Some wk ->
  exists wk', workers (for_each l f s).2 !! w = Some wk' /\ w_closed wk' = true.
Proof.
  revert s wk. induction l as [|c0 l IH]; intros s wk Hc Hw Hwk; [inversion Hc|].
  cbn [for_each]. unfold bind. pose proof (f_returns c0 s) as Hr.
  pose proof (f_closes c0 s) as Hcl. pose proof (f_frame c0 s) as Hfr.
  pose proof (f_teardown c0 s) as Htd.
  destruct (f c0 s) as [[[]|e] s1]; [|discriminate]. cbn [fst snd] in *.
  destruct (decide (c = c0)) as [->|Hne].
  - destruct (Hcl _ _ Hw Hwk) as (wk1 & H1 & C1).
    destruct (for_each_teardown l s1) as (_&_&_&_&_&_&_&_&H).
    destruct (H _ _ H1) as (wk2 & H2 & _ & C2). exists wk2. auto.
  - apply elem_of_cons in Hc as [->|Hc]; [contradiction|].
    destruct Htd as (_&_&_&_&_&_&_&_&H). destruct (H _ _ Hwk) as (wk1 & H1 & _).
    apply (IH s1 wk1 Hc); [|exact H1].
    destruct Hfr as (_&_&_&_&_&_&_&Hh&_). unfold ctx_at.
    rewrite (Hh c Hne). exact Hw.
Qed.

Lemma for_each_untouched (l : list nat) s c :
  c ∉ l -> heap (for_each l f s).2 !! c = heap s !! c.
Proof.
  revert s. induction l as [|c0 l IH]; intros s Hc; [reflexivity|].
  cbn [for_each]. unfold bind. pose proof (f_returns c0 s) as Hr.
  pose proof (f_frame c0 s) as Hfr.
  destruct (f c0 s) as [[[]|e] s1]; [|discriminate]. cbn [fst snd] in *.
  apply not_elem_of_cons in Hc as [Hne Hc].
  rewrite IH by exact Hc. destruct Hfr as (_&_&_&_&_&_&_&Hh&_). apply Hh, Hne.
Qed.

Lemma popped_run s tid c :
  handler s !! tid = Some c ->
  (let! c0 := RayAPIStub.get_context tid in
   let! k := _ClientContext.id c0 in
   modify (with_all_contexts (delete k)) >>;
   let! n := gets (fun s => size (_all_contexts s)) in
   when (bool_decide (n = 0)) _explicitly_disable_client_mode) s
  = (Ok tt, popped c s).
Proof.
  intros Hh. unfold bind at 1. rewrite (get_context_active s tid c Hh).
  unfold popped, bind, _ClientContext.id, read, gets, modify, when.
  cbn [_all_contexts with_all_contexts].
  destruct (bool_decide _); reflexivity.
Qed.

Lemma broadcast_run s tid :
  broadcast f tid s =
    (Ok tt,
     popped (active s tid)
       (if bool_decide (_default_context = active s tid)
        then with_all_contexts (fun _ => ∅)
               (for_each (map_to_list (_all_contexts (bound tid s))).*2 f
                  (bound tid s)).2
        else (f (active s tid) (bound tid s)).2)).
Proof.
  unfold broadcast. unfold bind at 1. rewrite get_context_run.
  set (c := active s tid). set (s1 := bound tid s).
  assert (Hh1 : handler s1 !! tid = Some c) by apply handler_bound.
  destruct (bool_decide (_default_context = c)).
  - unfold bind at 1. unfold bind at 1. unfold all_contexts_values, gets.
    unfold bind at 1.
    pose proof (for_each_returns (map_to_list (_all_contexts s1)).*2 s1) as Hr.
    pose proof (for_each_teardown (map_to_list (_all_contexts s1)).*2 s1) as (_&Hh&_).
    destruct (for_each _ f s1) as [[[]|e] s2]; [|discriminate]. cbn [fst snd] in *.
    unfold modify. apply popped_run. cbn [handler with_all_contexts].
    rewrite Hh. exact Hh1.
  - unfold bind at 1. unfold bind at 1.
    rewrite (get_context_active s1 tid c Hh1).
    pose proof (f_returns c s1) as Hr.
    pose proof (f_teardown c s1) as (_&Hh&_).
    destruct (f c s1) as [[[]|e] s2]; [|discriminate]. cbn [fst snd] in *.
    apply popped_run. rewrite Hh. exact Hh1.
Qed.

Lemma popped_facts c s :
  _all_contexts (popped c s) = delete (_client_id (ctx_at s c)) (_all_contexts s) /\
  heap (popped c s) = heap s /\
  workers (popped c s) = workers s /\
  handler (popped c s) = handler s /\
  guards (popped c s) = guards s /\
  (_all_contexts (popped c s) = ∅ -> client_mode (popped c s) = false).
Proof.
  unfold popped. cbn zeta.
  destruct (bool_decide_reflect
              (size (_all_contexts
                 (with_all_contexts (delete (_client_id (ctx_at s c))) s)) = 0))
    as [Hz|Hz].
  - repeat split.
  - repeat split. intros He. exfalso. apply Hz. rewrite He. apply map_size_empty.
Qed.

Lemma broadcast_torn_down s tid : torn_down s tid (broadcast f tid s).
Proof.
  rewrite broadcast_run. unfold torn_down. cbn [fst snd].
  match goal with |- context [popped ?c ?t] =>
    destruct (popped_facts c t) as (Hreg & Hheap & Hwk & _ & _ & Hmode);
    generalize dependent (popped c t) end.
  intros fin Hreg Hheap Hwk Hmode.
  split; [reflexivity|]. split; [|exact Hmode].
  intros Hact. rewrite Hact in *.
  change (bool_decide (_default_context = _default_context)) with true in *.
  cbv iota in *.
  set (l := (map_to_list (_all_contexts (bound tid s))).*2) in *.
  split.
  - rewrite Hreg. cbn [_all_contexts with_all_contexts]. apply delete_empty.
  - intros k c Hk.
    assert (Hin : c ∈ l).
    { unfold l. rewrite all_contexts_bound. apply list_elem_of_fmap.
      exists (k, c). split; [reflexivity|]. apply elem_of_map_to_list. exact Hk. }
    split.
    + unfold ctx_at. rewrite Hheap. cbn [heap with_all_contexts].
      apply (for_each_clears l (bound tid s) c Hin).
    + intros w wk Hw Hwk'. rewrite Hwk. cbn [workers with_all_contexts].
      apply (for_each_closes l (bound tid s) c w wk Hin).
      * rewrite ctx_at_bound. exact Hw.
      * rewrite workers_bound. exact Hwk'.
Qed.
End per_context.

Lemma disconnect_is_broadcast tid :
  RayAPIStub.disconnect tid = broadcast _ClientContext.disconnect tid.
Proof. reflexivity. Qed.

Lemma shutdown_is_broadcast tid e :
  RayAPIStub.shutdown tid e = broadcast (fun c => _ClientContext.shutdown c e) tid.
Proof. reflexivity. Qed.

Lemma disconnect_closes c s w wk :
  client_worker (ctx_at s c) = Some w -> workers s !! w = Some wk ->
  exists wk', workers (_ClientContext.disconnect c s).2 !! w = Some wk' /\
              w_closed wk' = true.
Proof.
  intros Hw Hwk. rewrite disconnect_run, Hw. cbn [snd workers with_heap with_workers].
  exists (set_closed wk). rewrite list_lookup_alter_eq, Hwk. split; reflexivity.
Qed.

Lemma shutdown_clears c e s :
  client_worker (ctx_at (_ClientContext.shutdown c e s).2 c) = None.
Proof.
  rewrite shutdown_run. cbn zeta. cbn [snd].
  pose proof (disconnect_client_worker s c) as H.
  destruct (_server _); [|exact H].
  rewrite ctx_at_alter. repeat case_decide; exact H.
Qed.

Lemma shutdown_closes c e s w wk :
  client_worker (ctx_at s c) = Some w -> workers s !! w = Some wk ->
  exists wk', workers (_ClientContext.shutdown c e s).2 !! w = Some wk' /\
              w_closed wk' = true.
Proof.
  intros Hw Hwk. rewrite shutdown_run. cbn zeta. cbn [snd].
  destruct (disconnect_closes c s w wk Hw Hwk) as (wk' & H & C).
  exists wk'. split; [|exact C]. destruct (_server _); exact H.
Qed.

Lemma stub_disconnect_torn_down s tid : torn_down s tid (RayAPIStub.disconnect tid s).
Proof.
  rewrite disconnect_is_broadcast. apply broadcast_torn_down.
  - intros c t. rewrite disconnect_run. reflexivity.
  - apply stable_teardown_disconnect.
  - apply stable_disconnect.
  - intros c t. apply disconnect_client_worker.
  - apply disconnect_closes.
Qed.

Lemma stub_shutdown_torn_down s tid e : torn_down s tid (RayAPIStub.shutdown tid e s).
Proof.
  rewrite shutdown_is_broadcast. apply broadcast_torn_down.
  - intros c t. rewrite shutdown_run. reflexivity.
  - intros c. apply stable_teardown_shutdown.
  - intros c. apply stable_ctx_shutdown.
  - intros c t. apply shutdown_clears.
  - intros c t. apply shutdown_closes.
Qed.

(** C2: a [disconnect] or [shutdown] of the facade returns; called on a
    thread whose active context is the default context, it disconnects every
    registered context (the context loses its transport handle and the
    transport is closed) and leaves the registry empty; and whenever it
    leaves the registry empty, client mode is disabled. *)
Theorem disconnect_broadcasts_from_default s tid :
  torn_down s tid (RayAPIStub.disconnect tid s) /\
  (forall e, torn_down s tid (RayAPIStub.shutdown tid e s)).
Proof.
  split; [apply stub_disconnect_torn_down|intros e; apply stub_shutdown_torn_down].
Qed.

(** ** The facade's calls and the threads' active contexts *)

Lemma session_frame_bound tid s : session_frame s (bound tid s).
Proof.
  unfold session_frame. rewrite guards_bound, heap_bound.
  split; [reflexivity|]. split; [reflexivity|].
  split; [intros t; apply active_bound|].
  intros t c H. unfold bound. destruct (handler s !! tid) eqn:E; [exact H|].
  cbn [handler with_handler]. rewrite lookup_insert_ne; [exact H|congruence].
Qed.

Lemma session_frame_all_contexts f s : session_frame s (with_all_contexts f s).
Proof. unfold session_frame, active. cbn. auto. Qed.

Lemma session_frame_client_mode b s : session_frame s (with_client_mode b s).
Proof. unfold session_frame, active. cbn. auto. Qed.

Lemma session_frame_log f s : session_frame s (with_log f s).
Proof. unfold session_frame, active. cbn. auto. Qed.

Lemma stable_session_get_context tid : stable session_frame (RayAPIStub.get_context tid).
Proof. intros s. rewrite get_context_run. apply session_frame_bound. Qed.

Lemma stable_session_ctx {A} (m : M A) c : stable (ctx_frame c) m -> stable session_frame m.
Proof. apply stable_weaken. apply ctx_frame_session. Qed.

Lemma stable_session_broadcast f tid :
  (forall c, stable (ctx_frame c) (f c)) -> stable session_frame (broadcast f tid).
Proof.
  intros Hf. unfold broadcast, all_contexts_values, _ClientContext.id,
    _explicitly_disable_client_mode.
  repeat stable_step; try apply stable_session_get_context.
  - apply stable_for_each; [exact _|]. intros c _. apply (stable_session_ctx _ c), Hf.
  - apply stable_modify, session_frame_all_contexts.
  - apply (stable_session_ctx _ a0), Hf.
  - apply stable_modify, session_frame_all_contexts.
  - apply stable_modify, session_frame_client_mode.
Qed.

Lemma stable_session_disconnect tid : stable session_frame (RayAPIStub.disconnect tid).
Proof. apply stable_session_broadcast. apply stable_disconnect. Qed.

Lemma stable_session_shutdown tid e : stable session_frame (RayAPIStub.shutdown tid e).
Proof. apply stable_session_broadcast. intros c. apply stable_ctx_shutdown. Qed.

Lemma stub_disconnect_returns tid s : (RayAPIStub.disconnect tid s).1 = Ok tt.
Proof. apply (stub_disconnect_torn_down s tid). Qed.

Lemma stub_shutdown_returns tid e s : (RayAPIStub.shutdown tid e s).1 = Ok tt.
Proof. apply (stub_shutdown_torn_down s tid e). Qed.

(** ** The guard *)

Lemma swap_context_run s g tid :
  ManagedContext._swap_context g tid s =
    (Ok tt,
     match ManagedContext.guard_at s g with
     | Some c =>
         with_guards (alter (set_context_to_restore (Some (active s tid))) g)
           (with_handler <[tid := c]> (bound tid s))
     | None => s
     end).
Proof.
  unfold ManagedContext._swap_context, bind, gets.
  destruct (ManagedContext.guard_at s g) as [c|]; [|reflexivity].
  rewrite set_context_run. reflexivity.
Qed.

Lemma swap_context_swaps s g tid c :
  ManagedContext.guard_at s g = Some c ->
  let s' := (ManagedContext._swap_context g tid s).2 in
  active s' tid = c /\
  ManagedContext.guard_at s' g = Some (active s tid) /\
  (forall t, t <> tid -> active s' t = active s t) /\
  handler s' !! tid = Some c.
Proof.
  intros Hg. rewrite swap_context_run, Hg. cbn [snd].
  split; [|split; [|split]].
  - unfold active. cbn [handler with_guards with_handler].
    rewrite lookup_insert_eq. reflexivity.
  - unfold ManagedContext.guard_at in *. cbn [guards with_guards with_handler].
    rewrite guards_bound, list_lookup_alter_eq.
    destruct (guards s !! g); [reflexivity|discriminate].
  - intros t Ht. unfold active at 1. cbn [handler with_guards with_handler].
    rewrite lookup_insert_ne by congruence. apply active_bound.
  - cbn [handler with_guards with_handler]. apply lookup_insert_eq.
Qed.

Lemma stub_getattr_worker s tid :
  RayAPIStub.__getattr__ tid "worker" s
    = (Ok (AttrWorker (client_worker (ctx_at s (active s tid)))), bound tid s).
Proof.
  unfold RayAPIStub.__getattr__, bind. rewrite get_context_run, getattr_run.
  cbn [String.eqb Ascii.eqb Bool.eqb]. rewrite ctx_at_bound. reflexivity.
Qed.

Lemma ray_worker_run s tid :
  ManagedContext.ray_worker tid s
    = (Ok (client_worker (ctx_at s (active s tid))), bound tid s).
Proof.
  unfold ManagedContext.ray_worker, bind. rewrite stub_getattr_worker. reflexivity.
Qed.

Lemma global_worker_node_run w s :
  ManagedContext.global_worker_node w s =
    match workers s !! w with
    | Some wk =>
        match w_node wk with
        | Ok node => (Ok node, s)
        | Raise e => (Raise e, s)
        end
    | None => (Ok None, s)
    end.
Proof.
  unfold ManagedContext.global_worker_node, bind, gets.
  destruct (workers s !! w) as [wk|]; [|reflexivity].
  destruct (w_node wk); reflexivity.
Qed.

Lemma disconnect_with_context_run s g tid force :
  disconnect_failure s (active s tid) = None ->
  (ManagedContext._disconnect_with_context g tid force s).1 = Ok tt.
Proof.
  unfold disconnect_failure, ManagedContext._disconnect_with_context. unfold bind at 1.
  rewrite stub_is_connected_run. destruct (connected s (active s tid)).
  - intros _. unfold bind. rewrite is_default_run.
    unfold when, ray_client_connect_disconnect.
    destruct (_ || force); [apply stub_disconnect_returns|reflexivity].
  - unfold bind at 1. rewrite ray_worker_run, ctx_at_bound, active_bound.
    destruct (client_worker _) as [w|]; [|reflexivity].
    unfold bind. rewrite global_worker_node_run, !workers_bound.
    destruct (workers s !! w) as [wk|]; [|reflexivity].
    destruct (w_node wk) as [[[]|]|e]; try reflexivity; [|discriminate].
    intros _. apply stub_shutdown_returns.
Qed.

(** On a thread whose active context holds a transport that reports not
    connected and whose [global_worker] cannot be evaluated, the disconnect
    step of a guard raises, having done nothing. *)
Lemma disconnect_with_context_raises s g tid force e :
  disconnect_failure s (active s tid) = Some e ->
  ManagedContext._disconnect_with_context g tid force s = (Raise e, bound tid s).
Proof.
  unfold disconnect_failure, ManagedContext._disconnect_with_context. unfold bind at 1.
  rewrite stub_is_connected_run. destruct (connected s (active s tid)); [discriminate|].
  unfold bind at 1. rewrite ray_worker_run, bound_bound, ctx_at_bound, active_bound.
  destruct (client_worker _) as [w|]; [|discriminate].
  unfold bind. rewrite global_worker_node_run, workers_bound.
  destruct (workers s !! w) as [wk|]; [|discriminate].
  destruct (w_node wk) as [node|e']; [discriminate|].
  intros [= ->]. reflexivity.
Qed.

Lemma stable_disconnect_with_context g tid force :
  stable session_frame (ManagedContext._disconnect_with_context g tid force).
Proof.
  unfold ManagedContext._disconnect_with_context, ManagedContext.ray_worker,
    ManagedContext.global_worker_node, RayAPIStub.is_connected, RayAPIStub.is_default,
    RayAPIStub.__getattr__, ray_client_connect_disconnect, logger_debug.
  repeat stable_step;
    try apply stable_session_get_context;
    try apply stable_session_disconnect;
    try apply stable_session_shutdown.
  all: try (eapply stable_session_ctx; apply stable_ctx_is_connected).
  all: try (eapply stable_session_ctx; apply stable_ctx_getattr).
  all: try (apply stable_modify, session_frame_log).
Qed.

Lemma disconnect_with_context_keeps s g tid force :
  let r := ManagedContext._disconnect_with_context g tid force s in
  (forall g', ManagedContext.guard_at r.2 g' = ManagedContext.guard_at s g') /\
  (forall t, active r.2 t = active s t).
Proof.
  cbn zeta.
  destruct (stable_disconnect_with_context g tid force s) as (Hg & _ & Ha & _).
  split; [|exact Ha].
  intros g'. unfold ManagedContext.guard_at. rewrite Hg. reflexivity.
Qed.

Lemma bind_ok {A B} (m : M A) (k : A -> M B) s a s1 :
  m s = (Ok a, s1) -> bind m k s = k a s1.
Proof. intros H. unfold bind. rewrite H. reflexivity. Qed.

Lemma bind_raise {A B} (m : M A) (k : A -> M B) s e s1 :
  m s = (Raise e, s1) -> bind m k s = (Raise e, s1).
Proof. intros H. unfold bind. rewrite H. reflexivity. Qed.

Lemma surjective_pairing_swap s g tid :
  ManagedContext._swap_context g tid s
    = (Ok tt, (ManagedContext._swap_context g tid s).2).
Proof. rewrite swap_context_run. reflexivity. Qed.

Lemma disconnect_failure_swap s g tid c :
  disconnect_failure (ManagedContext._swap_context g tid s).2 c = disconnect_failure s c.
Proof.
  rewrite swap_context_run. cbn [snd].
  destruct (ManagedContext.guard_at s g); [|reflexivity].
  unfold disconnect_failure, connected, ctx_at.
  cbn [heap workers with_guards with_handler]. rewrite heap_bound, workers_bound.
  reflexivity.
Qed.

(** [__exit__] binds the thread to the context the guard holds, when its
    disconnect step returns. *)
Lemma exit_run s g tid c :
  ManagedContext.guard_at s g = Some c ->
  disconnect_failure s (active s tid) = None ->
  let r := ManagedContext.__exit__ g tid s in
  r.1 = Ok tt /\
  active r.2 tid = c /\
  ManagedContext.guard_at r.2 g = Some (active s tid) /\
  (forall t, t <> tid -> active r.2 t = active s t) /\
  handler r.2 !! tid = Some c.
Proof.
  intros Hg Hf. cbn zeta. unfold ManagedContext.__exit__, bind.
  pose proof (disconnect_with_context_run s g tid false Hf) as Hr.
  destruct (disconnect_with_context_keeps s g tid false) as (Hg' & Ha).
  destruct (ManagedContext._disconnect_with_context g tid false s) as [[[]|e] s1];
    [|discriminate]. cbn [fst snd] in *.
  rewrite <- Hg' in Hg.
  destruct (swap_context_swaps s1 g tid c Hg) as (H1 & H2 & H3 & H4).
  split; [rewrite swap_context_run; reflexivity|].
  split; [exact H1|]. split; [rewrite H2, Ha; reflexivity|].
  split; [|exact H4].
  intros t Ht. rewrite H3 by exact Ht. apply Ha.
Qed.

(** [__exit__] has no [try]: when its disconnect step raises, the swap back
    does not run, and the thread and the guard stay as they are. *)
Lemma exit_raises s g tid e :
  disconnect_failure s (active s tid) = Some e ->
  ManagedContext.__exit__ g tid s = (Raise e, bound tid s).
Proof.
  intros Hf. unfold ManagedContext.__exit__.
  apply bind_raise, disconnect_with_context_raises, Hf.
Qed.

(** [disconnect()] on a guard swaps twice, so the thread's active context
    and the context the guard holds are as before, when the disconnect step
    on the guard's context returns. *)
Lemma guard_disconnect_keeps s g tid c :
  ManagedContext.guard_at s g = Some c ->
  disconnect_failure s c = None ->
  let r := ManagedContext.disconnect g tid s in
  r.1 = Ok tt /\
  ManagedContext.guard_at r.2 g = Some c /\
  (forall t, active r.2 t = active s t).
Proof.
  intros Hg Hf. cbn zeta. unfold ManagedContext.disconnect.
  destruct (swap_context_swaps s g tid c Hg) as (H1 & H2 & H3 & _).
  rewrite (bind_ok _ _ s tt _ (surjective_pairing_swap s g tid)).
  pose proof (disconnect_failure_swap s g tid c) as Hf1.
  set (s1 := (ManagedContext._swap_context g tid s).2) in *.
  assert (Hr : (ManagedContext._disconnect_with_context g tid true s1).1 = Ok tt)
    by (apply disconnect_with_context_run; rewrite H1, Hf1; exact Hf).
  destruct (disconnect_with_context_keeps s1 g tid true) as (Hg' & Ha).
  rewrite (bind_ok _ _ s1 tt
             (ManagedContext._disconnect_with_context g tid true s1).2).
  2:{ rewrite <- Hr. apply surjective_pairing. }
  set (s2 := (ManagedContext._disconnect_with_context g tid true s1).2) in *.
  rewrite <- Hg' in H2.
  destruct (swap_context_swaps s2 g tid _ H2) as (K1 & K2 & K3 & _).
  split; [rewrite swap_context_run; reflexivity|].
  split; [rewrite K2, Ha, H1; reflexivity|].
  intros t. destruct (decide (t = tid)) as [->|Ht].
  - exact K1.
  - rewrite K3, Ha, H3 by exact Ht. reflexivity.
Qed.

(** A guard that holds no context is inert: [__enter__] changes nothing,
    and [__exit__] leaves every thread's active context as it is. *)
Lemma guard_without_context_inert s g tid :
  ManagedContext.guard_at s g = None ->
  ManagedContext.__enter__ g tid s = (Ok g, s) /\
  (forall t, active (ManagedContext.__exit__ g tid s).2 t = active s t).
Proof.
  intros Hg. split.
  - unfold ManagedContext.__enter__, bind. rewrite swap_context_run, Hg. reflexivity.
  - destruct (disconnect_with_context_keeps s g tid false) as (Hg' & Ha).
    unfold ManagedContext.__exit__, bind.
    destruct (ManagedContext._disconnect_with_context g tid false s) as [[[]|e] s1];
      cbn [fst snd] in *; [|exact Ha].
    rewrite swap_context_run, Hg', Hg. exact Ha.
Qed.

(** C3, as the code has it: for a guard that holds a target context,
    [__enter__] binds the thread to the target and keeps the context that
    was active.  A [with] block over the guard, for a body that leaves the
    guard holding what it held on entry, ends in one of two ways.  If the
    context the body leaves active is connected or holds no transport, the
    disconnect step of [__exit__] returns and the thread is bound again to
    the context that was active before entry, whether the body returned or
    raised (the block then returns or raises alike).  If that context holds
    a transport that reports not connected and on which [global_worker]
    cannot be evaluated, [__exit__] raises that error before it swaps, and
    the thread stays on the context the body left.  The facade's
    [disconnect()] leaves both the guard and the threads' active contexts as
    it found them, and so does [disconnect()] on the guard when its
    disconnect step returns. *)
Theorem guard_restores_previous_context {A} s g tid target (body : M A) :
  ManagedContext.guard_at s g = Some target ->
  let prev := active s tid in
  let entered := ManagedContext.__enter__ g tid s in
  (entered.1 = Ok g /\
   RayAPIStub.get_context tid entered.2 = (Ok target, entered.2) /\
   ManagedContext.guard_at entered.2 g = Some prev) /\
  (ManagedContext.guard_at (body entered.2).2 g
     = ManagedContext.guard_at entered.2 g ->
   let left := (body entered.2).2 in
   let r := with_guard g tid body s in
   match disconnect_failure left (active left tid) with
   | None =>
       r.1 = (body entered.2).1 /\
       RayAPIStub.get_context tid r.2 = (Ok prev, r.2)
   | Some e =>
       r.1 = Raise e /\
       RayAPIStub.get_context tid r.2 = (Ok (active left tid), r.2) /\
       ManagedContext.guard_at r.2 g = Some prev
   end) /\
  (forall s' c, ManagedContext.guard_at s' g = Some c ->
     disconnect_failure s' c = None ->
     (ManagedContext.disconnect g tid s').1 = Ok tt /\
     ManagedContext.guard_at (ManagedContext.disconnect g tid s').2 g = Some c /\
     forall t, active (ManagedContext.disconnect g tid s').2 t = active s' t) /\
  (forall s',
     (RayAPIStub.disconnect tid s').1 = Ok tt /\
     ManagedContext.guard_at (RayAPIStub.disconnect tid s').2 g
       = ManagedContext.guard_at s' g /\
     forall t, active (RayAPIStub.disconnect tid s').2 t = active s' t).
Proof.
  intros Hg prev entered.
  destruct (swap_context_swaps s g tid target Hg) as (H1 & H2 & H3 & H4).
  assert (He : entered = (Ok g, (ManagedContext._swap_context g tid s).2)).
  { unfold entered, ManagedContext.__enter__.
    rewrite (bind_ok _ _ s tt _ (surjective_pairing_swap s g tid)). reflexivity. }
  set (s1 := (ManagedContext._swap_context g tid s).2) in *.
  rewrite He. cbn [fst snd].
  split; [|split; [|split]].
  - split; [reflexivity|]. split; [apply get_context_active, H4|exact H2].
  - intros Hbody. cbn zeta. unfold with_guard.
    rewrite (bind_ok (ManagedContext.__enter__ g tid) _ s g s1 He).
    rewrite H2 in Hbody.
    destruct (disconnect_failure (body s1).2 (active (body s1).2 tid)) as [e|] eqn:Hf.
    + pose proof (exit_raises (body s1).2 g tid e Hf) as X.
      destruct (body s1) as [[a|e0] s2]; cbn [fst snd] in *.
      all: rewrite (bind_raise _ _ s2 e (bound tid s2) X); cbn [fst snd].
      all: split; [reflexivity|].
      all: split; [rewrite get_context_run, active_bound, bound_bound; reflexivity|].
      all: unfold ManagedContext.guard_at in *; rewrite guards_bound; exact Hbody.
    + destruct (exit_run (body s1).2 g tid prev Hbody Hf) as (X1 & _ & _ & _ & X5).
      destruct (body s1) as [[a|e] s2]; cbn [fst snd] in *.
      * rewrite (bind_ok _ _ s2 tt (ManagedContext.__exit__ g tid s2).2)
          by (rewrite <- X1; apply surjective_pairing).
        cbn [ret fst snd]. split; [reflexivity|apply get_context_active, X5].
      * rewrite (bind_ok _ _ s2 tt (ManagedContext.__exit__ g tid s2).2)
          by (rewrite <- X1; apply surjective_pairing).
        cbn [raise fst snd]. split; [reflexivity|apply get_context_active, X5].
  - intros s' c Hc Hf. exact (guard_disconnect_keeps s' g tid c Hc Hf).
  - intros s'. destruct (stable_session_disconnect tid s') as (Gg & _ & Ga & _).
    split; [apply stub_disconnect_returns|].
    split; [|exact Ga]. unfold ManagedContext.guard_at. rewrite Gg. reflexivity.
Qed.

Lemma guard_restores_previous_context_witness :
  ManagedContext.guard_at sample_guarded 0 = Some _default_context /\
  active sample_guarded 1 = 1 /\
  (with_guard 0 1
     (ManagedContext.disconnect 0 1 >>; @raise unit (ValueError "body failed"))
     sample_guarded).1 = Raise (ValueError "body failed") /\
  (RayAPIStub.get_context 1
     (with_guard 0 1
        (ManagedContext.disconnect 0 1 >>; @raise unit (ValueError "body failed"))
        sample_guarded).2).1 = Ok 1.
Proof.
  assert (Hg : ManagedContext.guard_at sample_guarded 0 = Some _default_context)
    by (vm_compute; reflexivity).
  split; [exact Hg|]. split; [vm_compute; reflexivity|].
  pose proof (guard_restores_previous_context sample_guarded 0 1 _default_context
                (ManagedContext.disconnect 0 1 >>; @raise unit (ValueError "body failed"))
                Hg) as T.
  cbn zeta in T. destruct T as (_ & T & _ & _).
  assert (Hb : ManagedContext.guard_at
            ((ManagedContext.disconnect 0 1 >>; @raise unit (ValueError "body failed"))
               (ManagedContext.__enter__ 0 1 sample_guarded).2).2 0
          = ManagedContext.guard_at (ManagedContext.__enter__ 0 1 sample_guarded).2 0)
    by (vm_compute; reflexivity).
  specialize (T Hb).
  assert (Hf : disconnect_failure
            ((ManagedContext.disconnect 0 1 >>; @raise unit (ValueError "body failed"))
               (ManagedContext.__enter__ 0 1 sample_guarded).2).2
            (active
               ((ManagedContext.disconnect 0 1 >>; @raise unit (ValueError "body failed"))
                  (ManagedContext.__enter__ 0 1 sample_guarded).2).2 1) = None)
    by (vm_compute; reflexivity).
  rewrite Hf in T. destruct T as (T1 & T2).
  split.
  - rewrite T1. vm_compute. reflexivity.
  - rewrite T2. vm_compute. reflexivity.
Defined.

(** C3, the claim as stated fails, in two ways.  The restoration is not
    unconditional: with the link of the target session's transport down, the
    disconnect step of [__exit__] raises on evaluating
    [ray.worker.global_worker] and the swap back never runs, so the thread,
    which was on context 1, is left on the target context 0.  And it depends
    on the body: a body that itself calls [__exit__] on the guard leaves the
    guard holding the target, and the block ends with the thread on the
    target, not on the context that was active before. *)
Lemma guard_exit_not_restored_counterexample :
  ManagedContext.guard_at sample_link_down 0 = Some 0 /\
  active sample_link_down 1 = 1 /\
  (with_guard 0 1 (ret tt) sample_link_down).1 = Raise no_global_worker /\
  active (with_guard 0 1 (ret tt) sample_link_down).2 1 = 0 /\
  ManagedContext.guard_at sample_guarded 0 = Some 0 /\
  active sample_guarded 1 = 1 /\
  (with_guard 0 1 (ManagedContext.__exit__ 0 1) sample_guarded).1 = Ok tt /\
  active (with_guard 0 1 (ManagedContext.__exit__ 0 1) sample_guarded).2 1 = 0.
Proof. vm_compute. repeat split; reflexivity. Qed.

(** ** Consistency of the registry with the contexts *)

#[export] Instance preserving_preorder P : PreOrder (preserving P).
Proof. split; unfold preserving; [intros s H; exact H|intros s1 s2 s3; auto]. Qed.

Lemma ctx_at_out_of_range s c : length (heap s) <= c -> ctx_at s c = _ClientContext_new.
Proof. intros H. unfold ctx_at. rewrite lookup_ge_None_2 by exact H. reflexivity. Qed.

Lemma connected_in_range s c :
  client_worker (ctx_at s c) <> None -> c < length (heap s).
Proof.
  intros H. destruct (decide (c < length (heap s))) as [Hlt|Hge]; [exact Hlt|].
  rewrite ctx_at_out_of_range in H by lia. contradiction.
Qed.

Lemma same_sessions_refl s : same_sessions s s.
Proof. unfold same_sessions. repeat split; reflexivity. Qed.

Lemma same_sessions_trans s1 s2 s3 :
  same_sessions s1 s2 -> same_sessions s2 s3 -> same_sessions s1 s3.
Proof.
  intros (A1&A2&A3&A4&A5&A6) (B1&B2&B3&B4&B5&B6). unfold same_sessions.
  repeat split; congruence.
Qed.

Lemma consistent_same_sessions s s' :
  same_sessions s s' -> consistent s -> consistent s'.
Proof.
  intros (L&R&H&G&W&I) (C0&C1&C2&C3&C4&C5&C6). unfold consistent.
  split; [|split; [|split; [|split; [|split; [|split]]]]].
  - intros E. rewrite E in L. destruct (heap s); [contradiction|discriminate].
  - intros k c Hk. rewrite W, I. apply C1. rewrite <- R. exact Hk.
  - intros c Hc. rewrite R, I. apply C2. rewrite <- W. exact Hc.
  - intros c1 c2 k H1 H2. rewrite I in H1, H2. eauto.
  - intros c Hc. rewrite I. apply C4. rewrite <- W. exact Hc.
  - intros t c Ht. rewrite L. apply (C5 t). rewrite <- H. exact Ht.
  - intros g c Hg. rewrite L. apply (C6 g).
    unfold ManagedContext.guard_at in *. rewrite <- G. exact Hg.
Qed.

Lemma same_sessions_log f s : same_sessions s (with_log f s).
Proof. unfold same_sessions. cbn. repeat split; reflexivity. Qed.

Lemma same_sessions_client_mode b s : same_sessions s (with_client_mode b s).
Proof. unfold same_sessions. cbn. repeat split; reflexivity. Qed.

Lemma same_sessions_stopped_servers f s : same_sessions s (with_stopped_servers f s).
Proof. unfold same_sessions. cbn. repeat split; reflexivity. Qed.

Lemma same_sessions_workers f s : same_sessions s (with_workers f s).
Proof. unfold same_sessions. cbn. repeat split; reflexivity. Qed.

Lemma same_sessions_write c upd s :
  (forall x, client_worker (upd x) = client_worker x /\ _client_id (upd x) = _client_id x) ->
  same_sessions s (with_heap (alter upd c) s).
Proof.
  intros Hu. unfold same_sessions. cbn [heap _all_contexts handler guards with_heap].
  split; [apply length_alter|]. repeat split.
  - intros r. rewrite ctx_at_alter. repeat case_decide; try reflexivity. apply Hu.
  - intros r. rewrite ctx_at_alter. repeat case_decide; try reflexivity. apply Hu.
Qed.

Lemma consistent_import main vi env mode : consistent (module_init main vi env mode).
Proof.
  unfold consistent, module_init. cbn [heap _all_contexts handler guards].
  assert (Hctx : forall c, ctx_at (module_init main vi env mode) c = _ClientContext_new).
  { intros [|c]; [reflexivity|]. apply ctx_at_out_of_range.
    unfold module_init. cbn [heap]. change (length [_ClientContext_new]) with 1. lia. }
  unfold module_init in Hctx.
  split; [discriminate|]. split; [intros k c H; rewrite lookup_empty in H; discriminate|].
  split; [intros c H; rewrite Hctx in H; contradiction|].
  split; [intros c1 c2 k H; rewrite Hctx in H; discriminate|].
  split; [intros c H; rewrite Hctx in H; contradiction|].
  split.
  - intros t c H. apply lookup_singleton_Some in H as [_ <-].
    unfold _default_context. change (length [_ClientContext_new]) with 1. lia.
  - intros g c H. unfold ManagedContext.guard_at in H. cbn in H.
    rewrite lookup_nil in H. discriminate.
Qed.

Lemma consistent_handler f s :
  (forall t c, f (handler s) !! t = Some c -> c < length (heap s)) ->
  consistent s -> consistent (with_handler f s).
Proof.
  intros Hf (C0&C1&C2&C3&C4&C5&C6). unfold consistent.
  split; [exact C0|]. split; [exact C1|]. split; [exact C2|]. split; [exact C3|].
  split; [exact C4|]. split; [exact Hf|exact C6].
Qed.

Lemma consistent_bound tid s : consistent s -> consistent (bound tid s).
Proof.
  intros C. unfold bound. destruct (handler s !! tid) eqn:E; [exact C|].
  apply consistent_handler; [|exact C].
  intros t c H. destruct (decide (tid = t)) as [<-|Hne].
  - rewrite lookup_insert_eq in H. injection H as <-.
    destruct C as (C0 & _). unfold _default_context.
    destruct (heap s); [contradiction|cbn; lia].
  - rewrite lookup_insert_ne in H by done. destruct C as (_&_&_&_&_&C5&_). eauto.
Qed.

Lemma keeps_get_context tid :
  stable (preserving consistent) (RayAPIStub.get_context tid).
Proof. intros s. rewrite get_context_run. exact (consistent_bound tid s). Qed.

(** *** [connect] and the registration *)

Lemma ctx_at_with_log f s c : ctx_at (with_log f s) c = ctx_at s c.
Proof. reflexivity. Qed.

Lemma ctx_at_with_client_mode b s c : ctx_at (with_client_mode b s) c = ctx_at s c.
Proof. reflexivity. Qed.

Lemma ctx_frame_ctx_at self s s' c :
  ctx_frame self s s' -> c <> self -> ctx_at s' c = ctx_at s c.
Proof.
  intros (_&_&_&_&_&_&_&H&_) Hne. unfold ctx_at. rewrite (H c Hne). reflexivity.
Qed.

(** The context after the attempt: unless the transport could not be
    opened, it holds the new transport and that transport's client id. *)
Lemma connect_attempt_ctx s c a jc peer :
  c < length (heap s) ->
  let r := _ClientContext.connect_attempt c a jc peer s in
  match Worker_new peer (conn_str a) (secure a) (_credentials a) (metadata a)
         (connection_retries a) with
  | Raise e => r = (Raise e, s)
  | Ok wk0 =>
      client_worker (ctx_at r.2 c) = Some (length (workers s)) /\
      _client_id (ctx_at r.2 c) = Some (w_client_id wk0)
  end.
Proof.
  intros Hin. cbn zeta. rewrite connect_attempt_run.
  destruct (Worker_new peer _ _ _ _ _) as [wk0|e]; [|reflexivity].
  cbn zeta.
  set (w := length (workers s)).
  set (s1 := with_heap (alter (set_api_worker (Some w)) c) _).
  assert (H1 : ctx_at s1 c
               = set_api_worker (Some w)
                   (set_client_id (Some (w_client_id wk0))
                      (set_client_worker (Some w) (ctx_at s c)))).
  { unfold s1.
    rewrite !ctx_at_write
      by (cbn [heap with_heap with_workers]; rewrite ?length_alter; exact Hin).
    reflexivity. }
  assert (L1 : length (heap s1) = length (heap s)).
  { unfold s1. cbn [heap with_heap with_workers]. rewrite !length_alter. reflexivity. }
  destruct (w_server_init wk0) as [e|].
  { cbn [snd]. rewrite H1. split; reflexivity. }
  set (s2 := with_workers _ s1).
  destruct (w_connection_info wk0) as [info|e].
  2:{ cbn [snd]. unfold s2. rewrite ctx_at_with_workers, H1. split; reflexivity. }
  set (s3 := with_heap _ s2).
  assert (H3 : ctx_at s3 c = set_conn_info info (ctx_at s1 c)).
  { unfold s3. rewrite ctx_at_write by (unfold s2; cbn [heap with_workers]; lia).
    reflexivity. }
  pose proof (check_versions_state s3 c (_conn_info (ctx_at s3 c)) (ignore_version a)) as Hc.
  cbn zeta in Hc.
  assert (Hfin : client_worker
                   (ctx_at (_ClientContext._check_versions c (_conn_info (ctx_at s3 c))
                              (ignore_version a) s3).2 c) = Some w /\
                 _client_id
                   (ctx_at (_ClientContext._check_versions c (_conn_info (ctx_at s3 c))
                              (ignore_version a) s3).2 c) = Some (w_client_id wk0)).
  { rewrite Hc, ctx_at_with_log, H3, H1. split; reflexivity. }
  destruct (_ClientContext._check_versions c _ _ s3) as [[[]|e] s4]; cbn [fst snd] in *;
    [|exact Hfin].
  destruct (serialization_addons_apply peer); exact Hfin.
Qed.

(** The context-level [connect] on a context without transport: either it
    returns and the context holds a new transport under that transport's
    client id, or it raises and the context holds no transport, with the
    client id it had or that of the transport the attempt opened. *)
Lemma connect_fresh_effect s c a peer :
  c < length (heap s) ->
  client_worker (ctx_at s c) = None ->
  let r := _ClientContext.connect c a peer s in
  match r.1 with
  | Ok _ =>
      exists wk0,
        Worker_new peer (conn_str a) (secure a) (_credentials a) (metadata a)
         (connection_retries a) = Ok wk0 /\
        client_worker (ctx_at r.2 c) <> None /\
        _client_id (ctx_at r.2 c) = Some (w_client_id wk0)
  | Raise _ =>
      client_worker (ctx_at r.2 c) = None /\
      (_client_id (ctx_at r.2 c) = _client_id (ctx_at s c) \/
       exists wk0,
         Worker_new peer (conn_str a) (secure a) (_credentials a) (metadata a)
         (connection_retries a) = Ok wk0 /\
         _client_id (ctx_at r.2 c) = Some (w_client_id wk0))
  end.
Proof.
  intros Hin Hnone. cbn zeta. rewrite (connect_fresh_run _ _ _ _ Hnone). cbn zeta.
  pose proof (connect_prepare_run s c a) as Hp. cbn zeta in Hp.
  set (s0 := (_ClientContext.connect_prepare c a s).2) in *.
  assert (H0 : forall r, ctx_at s0 r = ctx_at s r).
  { intros r. unfold s0. rewrite Hp. cbn [snd]. rewrite ctx_at_with_log.
    destruct (_inside_client_test _); reflexivity. }
  assert (L0 : length (heap s0) = length (heap s)).
  { unfold s0. rewrite Hp. cbn [snd heap with_log].
    destruct (_inside_client_test _); reflexivity. }
  pose proof (connect_attempt_ctx s0 c a (_ClientContext.effective_job_config a) peer) as Ha.
  cbn zeta in Ha. specialize (Ha ltac:(lia)).
  set (att := _ClientContext.connect_attempt c a _ peer s0) in *.
  destruct (Worker_new peer _ _ _ _ _) as [wk0|e].
  - destruct Ha as [Hw Hi]. destruct att.1 as [v|e]; cbn [fst snd].
    + exists wk0. split; [reflexivity|]. split; [rewrite Hw; discriminate|exact Hi].
    + split; [apply disconnect_client_worker|]. right. exists wk0.
      split; [reflexivity|].
      destruct (stable_teardown_disconnect c att.2) as (_&_&_&_&_&_&Hid&_).
      rewrite Hid. exact Hi.
  - rewrite Ha. cbn [fst snd]. split; [apply disconnect_client_worker|]. left.
    destruct (stable_teardown_disconnect c s0) as (_&_&_&_&_&_&Hid&_).
    rewrite Hid, H0. reflexivity.
Qed.

(** Consistency after a context-level [connect] on a context [c] that held
    no transport: as it stands if [c] still holds none, and once [c] is
    registered under its client id if it holds one. *)
Lemma consistent_after_connect s s' c :
  consistent s ->
  ctx_frame c s s' ->
  client_worker (ctx_at s c) = None ->
  (_client_id (ctx_at s' c) = _client_id (ctx_at s c) \/
   exists k, _client_id (ctx_at s' c) = Some k /\
             forall c', _client_id (ctx_at s c') <> Some k) ->
  (client_worker (ctx_at s' c) = None -> consistent s') /\
  (client_worker (ctx_at s' c) <> None ->
   (exists k, _client_id (ctx_at s' c) = Some k /\
              forall c', _client_id (ctx_at s c') <> Some k) ->
   consistent (with_all_contexts <[_client_id (ctx_at s' c) := c]> s')).
Proof.
  intros (C0&C1&C2&C3&C4&C5&C6) F Hnone Hid.
  assert (Fctx : forall r, r <> c -> ctx_at s' r = ctx_at s r)
    by (intros r; apply (ctx_frame_ctx_at c s s' r F)).
  destruct F as (Freg&Fh&Fg&_&_&_&Flen&_&_).
  assert (D0 : heap s' <> []).
  { intros E. rewrite E in Flen. destruct (heap s); [contradiction|discriminate]. }
  assert (D3 : forall c1 c2 k, _client_id (ctx_at s' c1) = Some k ->
                 _client_id (ctx_at s' c2) = Some k -> c1 = c2).
  { assert (Hc : forall c2 k, c2 <> c -> _client_id (ctx_at s' c) = Some k ->
                   _client_id (ctx_at s c2) = Some k -> False).
    { intros c2 k Hne H1 H2. destruct Hid as [Hsame|(k0 & Hk0 & Hfresh)].
      - rewrite Hsame in H1. apply Hne. symmetry. apply (C3 _ _ _ H1 H2).
      - rewrite Hk0 in H1. injection H1 as ->. apply (Hfresh c2 H2). }
    intros c1 c2 k H1 H2.
    destruct (decide (c1 = c)) as [->|N1]; destruct (decide (c2 = c)) as [->|N2].
    - reflexivity.
    - rewrite (Fctx c2 N2) in H2. exfalso. exact (Hc c2 k N2 H1 H2).
    - rewrite (Fctx c1 N1) in H1. exfalso. exact (Hc c1 k N1 H2 H1).
    - rewrite (Fctx c1 N1) in H1. rewrite (Fctx c2 N2) in H2. eauto. }
  assert (D5 : forall t r, handler s' !! t = Some r -> r < length (heap s')).
  { intros t r H. rewrite Flen. apply (C5 t). rewrite <- Fh. exact H. }
  assert (D6 : forall g r, ManagedContext.guard_at s' g = Some r -> r < length (heap s')).
  { intros g r H. rewrite Flen. apply (C6 g).
    unfold ManagedContext.guard_at in *. rewrite <- Fg. exact H. }
  assert (Hreg : forall k r, _all_contexts s !! k = Some r -> r <> c).
  { intros k r H ->. destruct (C1 _ _ H) as [Hw _]. contradiction. }
  split.
  - intros Hn. unfold consistent.
    split; [exact D0|]. split; [|split; [|split; [exact D3|split; [|split]]]].
    + intros k r H. rewrite Freg in H. rewrite (Fctx r (Hreg _ _ H)). apply C1, H.
    + intros r H. assert (r <> c) as Hne by (intros ->; contradiction).
      rewrite Freg, (Fctx r Hne) in *. apply C2, H.
    + intros r H. assert (r <> c) as Hne by (intros ->; contradiction).
      rewrite (Fctx r Hne) in *. apply C4, H.
    + exact D5.
    + exact D6.
  - intros Hw (k0 & Hk0 & Hfresh).
    set (s2 := with_all_contexts <[_client_id (ctx_at s' c) := c]> s').
    assert (E : forall r, ctx_at s2 r = ctx_at s' r) by reflexivity.
    unfold consistent.
    split; [exact D0|]. split; [|split; [|split; [|split; [|split]]]].
    + intros k r H. rewrite E. unfold s2 in H. cbn [_all_contexts with_all_contexts] in H.
      destruct (decide (_client_id (ctx_at s' c) = k)) as [<-|Hk].
      * rewrite lookup_insert_eq in H. injection H as <-. split; [exact Hw|reflexivity].
      * rewrite lookup_insert_ne in H by exact Hk. rewrite Freg in H.
        rewrite (Fctx r (Hreg _ _ H)). apply C1, H.
    + intros r H. rewrite E in *. unfold s2. cbn [_all_contexts with_all_contexts].
      destruct (decide (r = c)) as [->|Hne]; [apply lookup_insert_eq|].
      rewrite (Fctx r Hne) in *.
      rewrite lookup_insert_ne, Freg; [apply C2, H|].
      rewrite Hk0. intros E'. symmetry in E'. exact (Hfresh r E').
    + intros c1 c2 k. rewrite !E. apply D3.
    + intros r H. rewrite E in *.
      destruct (decide (r = c)) as [->|Hne]; [rewrite Hk0; discriminate|].
      rewrite (Fctx r Hne) in *. apply C4, H.
    + exact D5.
    + exact D6.
Qed.

Lemma same_sessions_register s s' c :
  same_sessions s s' ->
  same_sessions (with_all_contexts <[_client_id (ctx_at s c) := c]> s)
                (with_all_contexts <[_client_id (ctx_at s' c) := c]> s').
Proof.
  intros (L&R&H&G&W&I). unfold same_sessions.
  cbn [heap _all_contexts handler guards with_all_contexts].
  split; [exact L|]. split; [rewrite R, I; reflexivity|].
  split; [exact H|]. split; [exact G|]. split; [exact W|exact I].
Qed.

Lemma fresh_client_id_same_sessions s s' a peer :
  same_sessions s s' -> fresh_client_id s a peer -> fresh_client_id s' a peer.
Proof.
  intros (_&_&_&_&_&I) F wk Hwk c. rewrite I. apply (F wk Hwk).
Qed.

(** The context-level [connect], with the registration that follows its
    return. *)
Lemma consistent_connect_register s c a peer :
  consistent s -> c < length (heap s) -> fresh_client_id s a peer ->
  let r := _ClientContext.connect c a peer s in
  match r.1 with
  | Raise _ => consistent r.2
  | Ok _ => consistent (with_all_contexts <[_client_id (ctx_at r.2 c) := c]> r.2)
  end.
Proof.
  intros C Hin Hfresh. cbn zeta.
  destruct (client_worker (ctx_at s c)) as [w|] eqn:Hw.
  - rewrite (connect_already_connected _ _ _ _ w Hw).
    destruct (_connected_with_init (ctx_at s c)); cbn [fst snd]; [|exact C].
    apply (consistent_same_sessions s); [|exact C].
    unfold same_sessions. cbn [heap _all_contexts handler guards with_all_contexts].
    repeat split. apply insert_id.
    destruct C as (_&_&C2&_). apply C2. rewrite Hw. discriminate.
  - pose proof (connect_fresh_effect s c a peer Hin Hw) as He. cbn zeta in He.
    pose proof (stable_connect c a peer s) as F.
    set (r := _ClientContext.connect c a peer s) in *.
    destruct r.1 as [v|e].
    + destruct He as (wk0 & Hwk0 & Hcw & Hid).
      assert (Hnew : exists k, _client_id (ctx_at r.2 c) = Some k /\
                       forall c', _client_id (ctx_at s c') <> Some k)
        by (exists (w_client_id wk0); split; [exact Hid|apply (Hfresh wk0 Hwk0)]).
      apply (consistent_after_connect s r.2 c C F Hw); [right; exact Hnew|exact Hcw|exact Hnew].
    + destruct He as (Hcw & Hid).
      apply (consistent_after_connect s r.2 c C F Hw); [|exact Hcw].
      destruct Hid as [Hid|(wk0 & Hwk0 & Hid)]; [left; exact Hid|right].
      exists (w_client_id wk0). split; [exact Hid|apply (Hfresh wk0 Hwk0)].
Qed.

Lemma active_in_range s tid : consistent s -> active s tid < length (heap s).
Proof.
  intros (C0&_&_&_&_&C5&_). unfold active.
  destruct (handler s !! tid) as [c|] eqn:E; cbn.
  - apply (C5 tid c E).
  - unfold _default_context. destruct (heap s); [contradiction|cbn; lia].
Qed.

Lemma consistent_stub_connect s tid a peer :
  fresh_client_id s a peer -> consistent s ->
  consistent (RayAPIStub.connect tid a peer s).2.
Proof.
  intros Hfresh C. rewrite stub_connect_run. cbn zeta.
  set (c := active s tid).
  set (sw := with_heap _ (bound tid s)).
  assert (Hss : same_sessions (bound tid s) sw).
  { apply same_sessions_write. intros x. split; reflexivity. }
  assert (Cb : consistent (bound tid s)) by apply consistent_bound, C.
  assert (Cw : consistent sw) by (apply (consistent_same_sessions _ _ Hss), Cb).
  assert (Hin : c < length (heap sw)).
  { destruct Hss as (L&_). rewrite L, heap_bound. apply active_in_range, C. }
  assert (Hf : fresh_client_id sw a peer).
  { apply (fresh_client_id_same_sessions (bound tid s)); [exact Hss|].
    intros wk Hwk r. rewrite ctx_at_bound. apply (Hfresh wk Hwk). }
  pose proof (consistent_connect_register sw c a peer Cw Hin Hf) as H. cbn zeta in H.
  destruct (_ClientContext.connect c a peer sw).1; exact H.
Qed.

(** What the rollback of a failed [connect] does not undo: client mode stays
    enabled, and the context keeps the client id of the transport the attempt
    opened and the reference [api.worker] to it, now closed. *)
Lemma connect_failure_residue :
  let r := RayAPIStub.connect 0 (connect_defaults "head:10001")
             (refusing_peer "session-1") sample_start in
  r.1 = Raise (CollaboratorError "initialization failed") /\
  client_mode sample_start = false /\ client_mode r.2 = true /\
  _client_id (ctx_at sample_start 0) = None /\
  _client_id (ctx_at r.2 0) = Some "session-1" /\
  client_worker (ctx_at r.2 0) = None /\
  api_worker (ctx_at r.2 0) = Some 0 /\
  w_closed <$> workers r.2 !! 0 = Some true /\
  _all_contexts r.2 = _all_contexts sample_start.
Proof. vm_compute. repeat split; reflexivity. Qed.

(** The facade's [init], step by step. *)
Lemma stub_init_run s tid serve peer :
  RayAPIStub.init tid serve peer s =
    let c := active s tid in
    let s1 := bound tid s in
    match _server (ctx_at s1 c) with
    | Some _ => (Raise (Exception "Trying to start two instances of ray via client"), s1)
    | None =>
        match serve with
        | Raise e => (Raise e, s1)
        | Ok (h, info) =>
            let sw := with_heap (alter (set_server (Some h)) c) s1 in
            let r := _ClientContext.connect c (connect_defaults "localhost:50051") peer sw in
            match r.1 with
            | Raise e => (Raise e, r.2)
            | Ok _ =>
                let s3 := with_heap (alter (set_connected_with_init true) c) r.2 in
                (Ok info, with_all_contexts <[_client_id (ctx_at s3 c) := c]> s3)
            end
        end
    end.
Proof.
  cbn zeta. unfold RayAPIStub.init. unfold bind at 1. rewrite get_context_run.
  set (c := active s tid). set (s1 := bound tid s).
  assert (Hh : handler s1 !! tid = Some c) by apply handler_bound.
  unfold bind at 1. unfold _ClientContext.init. unfold bind at 1.
  unfold read at 1, gets at 1.
  destruct (_server (ctx_at s1 c)) as [h0|]; [reflexivity|].
  destruct serve as [[h info]|e]; [|reflexivity].
  unfold bind at 1. unfold write at 1, modify at 1.
  set (sw := with_heap _ s1).
  unfold bind at 1.
  pose proof (stable_connect c (connect_defaults "localhost:50051") peer sw) as (_ & Hh' & _).
  destruct (_ClientContext.connect c _ peer sw) as [[conn|e] s2]; cbn [fst snd] in *;
    [|reflexivity].
  unfold bind at 1. unfold write at 1, modify at 1. unfold bind at 1. cbn [ret].
  unfold bind.
  rewrite (register_handler_run _ _ c) by (cbn [handler with_heap]; rewrite Hh'; exact Hh).
  reflexivity.
Qed.

Lemma consistent_stub_init s tid serve peer :
  fresh_client_id s (connect_defaults "localhost:50051") peer -> consistent s ->
  consistent (RayAPIStub.init tid serve peer s).2.
Proof.
  intros Hfresh C. rewrite stub_init_run. cbn zeta.
  set (c := active s tid).
  assert (Cb : consistent (bound tid s)) by apply consistent_bound, C.
  destruct (_server (ctx_at (bound tid s) c)); [exact Cb|].
  destruct serve as [[h info]|e]; [|exact Cb].
  set (sw := with_heap _ (bound tid s)).
  assert (Hss : same_sessions (bound tid s) sw).
  { apply same_sessions_write. intros x. split; reflexivity. }
  assert (Cw : consistent sw) by (apply (consistent_same_sessions _ _ Hss), Cb).
  assert (Hin : c < length (heap sw)).
  { destruct Hss as (L&_). rewrite L, heap_bound. apply active_in_range, C. }
  assert (Hf : fresh_client_id sw (connect_defaults "localhost:50051") peer).
  { apply (fresh_client_id_same_sessions (bound tid s)); [exact Hss|].
    intros wk Hwk r. rewrite ctx_at_bound. apply (Hfresh wk Hwk). }
  pose proof (consistent_connect_register sw c _ peer Cw Hin Hf) as H. cbn zeta in H.
  destruct (_ClientContext.connect c _ peer sw) as [[v|e] s2]; cbn [fst snd] in *;
    [|exact H].
  revert H. apply consistent_same_sessions, same_sessions_register.
  apply same_sessions_write. intros x. split; reflexivity.
Qed.

(** *** [disconnect] and [shutdown] *)

Lemma same_sessions_popped c s :
  same_sessions (with_all_contexts (delete (_client_id (ctx_at s c))) s) (popped c s).
Proof.
  destruct (popped_facts c s) as (R & H & _ & Hh & G & _).
  unfold same_sessions. cbn [heap _all_contexts handler guards with_all_contexts].
  unfold ctx_at. rewrite H, R, Hh, G. repeat split; reflexivity.
Qed.

Section per_context_consistency.
Variable f : nat -> M unit.
Hypothesis f_returns : forall c s, (f c s).1 = Ok tt.
Hypothesis f_teardown : forall c, stable teardown (f c).
Hypothesis f_frame : forall c, stable (ctx_frame c) (f c).
Hypothesis f_clears : forall c s, client_worker (ctx_at (f c s).2 c) = None.

Lemma consistent_broadcast s tid :
  consistent s -> consistent (broadcast f tid s).2.
Proof.
  intros C. rewrite (broadcast_run f f_returns f_teardown). cbn [snd].
  set (c := active s tid). set (s1 := bound tid s).
  assert (Cb : consistent s1) by apply consistent_bound, C.
  destruct Cb as (C0&C1&C2&C3&C4&C5&C6).
  match goal with |- consistent (popped c ?t) =>
    apply (consistent_same_sessions _ _ (same_sessions_popped c t)); set (s2 := t) end.
  set (s3 := with_all_contexts _ s2).
  assert (E3 : forall r, ctx_at s3 r = ctx_at s2 r) by reflexivity.
  destruct (bool_decide (_default_context = c)).
  - set (l := (map_to_list (_all_contexts s1)).*2) in *.
    destruct (for_each_teardown f f_teardown l s1) as (_&Th&Tg&_&Tl&_&Ti&Tw&_).
    pose proof (for_each_clears f f_returns f_teardown f_clears l s1) as Hclr.
    set (sl := (for_each l f s1).2) in *.
    assert (E2 : forall r, ctx_at s2 r = ctx_at sl r) by reflexivity.
    assert (Hdead : forall r, client_worker (ctx_at sl r) = None).
    { intros r. destruct (Tw r) as [H|H]; [exact H|].
      destruct (client_worker (ctx_at s1 r)) as [w|] eqn:Ew; [|exact H].
      apply Hclr. unfold l. apply list_elem_of_fmap.
      exists (_client_id (ctx_at s1 r), r). split; [reflexivity|].
      apply elem_of_map_to_list. apply C2. rewrite Ew. discriminate. }
    unfold consistent.
    split; [|split; [|split; [|split; [|split; [|split]]]]].
    + change (heap s3) with (heap sl). intros E. rewrite E in Tl.
      destruct (heap s1); [contradiction|discriminate].
    + intros k r H. unfold s3, s2 in H. cbn [_all_contexts with_all_contexts] in H.
      rewrite delete_empty, lookup_empty in H. discriminate.
    + intros r H. rewrite E3, E2, Hdead in H. contradiction.
    + intros r1 r2 k. rewrite !E3, !E2, !Ti. apply C3.
    + intros r H. rewrite E3, E2, Hdead in H. contradiction.
    + intros t r H. change (heap s3) with (heap sl). rewrite Tl. apply (C5 t).
      change (handler s3) with (handler sl) in H. rewrite Th in H. exact H.
    + intros g r H. change (heap s3) with (heap sl). rewrite Tl. apply (C6 g).
      unfold ManagedContext.guard_at in *. change (guards s3) with (guards sl) in H.
      rewrite Tg in H. exact H.
  - destruct (f_teardown c s1) as (Tr&Th&Tg&_&Tl&_&Ti&Tw&_).
    pose proof (f_frame c s1) as F. pose proof (f_clears c s1) as Hclr.
    fold s2 in Tr, Th, Tg, Tl, Ti, Tw, F, Hclr.
    assert (Fctx : forall r, r <> c -> ctx_at s2 r = ctx_at s1 r)
      by (intros r; apply (ctx_frame_ctx_at c s1 s2 r F)).
    assert (R3 : _all_contexts s3 = delete (_client_id (ctx_at s1 c)) (_all_contexts s1)).
    { unfold s3. cbn [_all_contexts with_all_contexts]. rewrite Ti, Tr. reflexivity. }
    unfold consistent.
    split; [|split; [|split; [|split; [|split; [|split]]]]].
    + change (heap s3) with (heap s2). intros E. rewrite E in Tl.
      destruct (heap s1); [contradiction|discriminate].
    + intros k r H. rewrite R3 in H. apply lookup_delete_Some in H as [Hk H].
      destruct (C1 _ _ H) as [Hw Hi].
      assert (r <> c) as Hne by (intros ->; congruence).
      rewrite E3, (Fctx r Hne). split; assumption.
    + intros r H. rewrite E3 in *.
      assert (r <> c) as Hne by (intros ->; contradiction).
      rewrite (Fctx r Hne) in *. rewrite R3.
      rewrite lookup_delete_ne; [apply C2, H|].
      intros E. pose proof (C4 r H) as Hsome.
      destruct (_client_id (ctx_at s1 r)) as [k|] eqn:Ek; [|contradiction].
      apply Hne. symmetry. apply (C3 c r k); [exact E|exact Ek].
    + intros r1 r2 k. rewrite !E3, !Ti. apply C3.
    + intros r H. rewrite E3 in *.
      assert (r <> c) as Hne by (intros ->; contradiction).
      rewrite (Fctx r Hne) in *. apply C4, H.
    + intros t r H. change (heap s3) with (heap s2). rewrite Tl. apply (C5 t).
      change (handler s3) with (handler s2) in H. rewrite Th in H. exact H.
    + intros g r H. change (heap s3) with (heap s2). rewrite Tl. apply (C6 g).
      unfold ManagedContext.guard_at in *. change (guards s3) with (guards s2) in H.
      rewrite Tg in H. exact H.
Qed.
End per_context_consistency.

Lemma consistent_stub_disconnect s tid :
  consistent s -> consistent (RayAPIStub.disconnect tid s).2.
Proof.
  rewrite disconnect_is_broadcast. apply consistent_broadcast.
  - intros c t. rewrite disconnect_run. reflexivity.
  - apply stable_teardown_disconnect.
  - apply stable_disconnect.
  - intros c t. apply disconnect_client_worker.
Qed.

Lemma consistent_stub_shutdown s tid e :
  consistent s -> consistent (RayAPIStub.shutdown tid e s).2.
Proof.
  rewrite shutdown_is_broadcast. apply consistent_broadcast.
  - intros c t. rewrite shutdown_run. reflexivity.
  - intros c. apply stable_teardown_shutdown.
  - intros c. apply stable_ctx_shutdown.
  - intros c t. apply shutdown_clears.
Qed.

(** *** The other calls *)

Lemma consistent_set_context s tid cxt :
  match cxt with Some c => c < length (heap s) | None => True end ->
  consistent s -> consistent (RayAPIStub.set_context tid cxt s).2.
Proof.
  intros Hc C. rewrite set_context_run. cbn [snd].
  pose proof (consistent_bound tid s C) as Cb.
  destruct cxt as [c|].
  - apply consistent_handler; [|exact Cb].
    intros t r H. destruct (decide (tid = t)) as [<-|Hne].
    + rewrite lookup_insert_eq in H. injection H as <-. rewrite heap_bound. exact Hc.
    + rewrite lookup_insert_ne in H by done. destruct Cb as (_&_&_&_&_&C5&_). eauto.
  - set (s1 := bound tid s) in *.
    set (s2 := with_heap (fun h => (h ++ [_ClientContext_new])%list) s1).
    assert (L : length (heap s2) = S (length (heap s1))).
    { unfold s2. cbn [heap with_heap]. rewrite length_app. cbn. lia. }
    assert (E : forall r, ctx_at s2 r = ctx_at s1 r).
    { intros r. unfold ctx_at, s2. cbn [heap with_heap].
      destruct (decide (r < length (heap s1))) as [Hlt|Hge].
      - rewrite lookup_app_l by exact Hlt. reflexivity.
      - rewrite (lookup_ge_None_2 (heap s1)) by lia.
        destruct (decide (r = length (heap s1))) as [->|Hne].
        + rewrite list_lookup_middle by reflexivity. reflexivity.
        + rewrite lookup_ge_None_2; [reflexivity|]. rewrite length_app. cbn. lia. }
    assert (C2' : consistent s2).
    { destruct Cb as (C0&C1&C2&C3&C4&C5&C6). unfold consistent.
      split; [|split; [|split; [|split; [|split; [|split]]]]].
      - intros H. rewrite H in L. discriminate.
      - intros k r H. rewrite E. apply C1, H.
      - intros r H. rewrite E in *. apply (C2 r H).
      - intros r1 r2 k. rewrite !E. apply C3.
      - intros r H. rewrite E in *. apply C4, H.
      - intros t r H. rewrite L. specialize (C5 t r H). lia.
      - intros g r H. rewrite L. specialize (C6 g r H). lia. }
    apply consistent_handler; [|exact C2'].
    intros t r H. destruct (decide (tid = t)) as [<-|Hne].
    + rewrite lookup_insert_eq in H. injection H as <-. rewrite L.
      unfold s1. rewrite heap_bound. lia.
    + rewrite lookup_insert_ne in H by done. destruct C2' as (_&_&_&_&_&C5&_). eauto.
Qed.

Lemma consistent_guards f s :
  (forall g c, ManagedContext.guard_at (with_guards f s) g = Some c ->
     c < length (heap s)) ->
  consistent s -> consistent (with_guards f s).
Proof.
  intros Hf (C0&C1&C2&C3&C4&C5&C6). unfold consistent.
  split; [exact C0|]. split; [exact C1|]. split; [exact C2|]. split; [exact C3|].
  split; [exact C4|]. split; [exact C5|exact Hf].
Qed.

Lemma getitem_state d key s : (getitem d key s).2 = s.
Proof. unfold getitem. destruct (d !! key); reflexivity. Qed.

Lemma guard_init_state info r s :
  (ManagedContext.__init__ info r s).2 = s \/
  exists g, (ManagedContext.__init__ info r s).2
            = with_guards (fun l => (l ++ [g])%list) s /\ _context_to_restore g = r.
Proof.
  unfold ManagedContext.__init__, bind, getitem.
  repeat (match goal with |- context [info !! ?k] => destruct (info !! k) end;
          cbn [ret raise snd]; [|left; reflexivity]).
  right. eexists. split; reflexivity.
Qed.

Lemma consistent_context_from_client_id s k :
  consistent s -> consistent (context_from_client_id k s).2.
Proof.
  intros C. unfold context_from_client_id, bind, gets.
  destruct (_all_contexts s !! k) as [c|] eqn:Hk; [|exact C].
  unfold read, gets.
  destruct (guard_init_state (_conn_info (ctx_at s c)) (Some c) s) as [->|(g & -> & Hg)];
    [exact C|].
  apply consistent_guards; [|exact C].
  intros g' r H. unfold ManagedContext.guard_at in H. cbn [guards with_guards] in H.
  destruct (decide (g' < length (guards s))) as [Hlt|Hge].
  - rewrite lookup_app_l in H by exact Hlt. destruct C as (_&_&_&_&_&_&C6).
    apply (C6 g'). exact H.
  - destruct (decide (g' = length (guards s))) as [->|Hne].
    + rewrite list_lookup_middle in H by reflexivity. cbn in H. rewrite Hg in H.
      injection H as <-. apply connected_in_range.
      destruct C as (_&C1&_). apply (C1 k c Hk).
    + rewrite lookup_ge_None_2 in H; [discriminate|]. rewrite length_app. cbn. lia.
Qed.

Lemma consistent_swap_context s g tid :
  consistent s -> consistent (ManagedContext._swap_context g tid s).2.
Proof.
  intros C. rewrite swap_context_run. cbn [snd].
  destruct (ManagedContext.guard_at s g) as [c|] eqn:Hg; [|exact C].
  pose proof (consistent_bound tid s C) as Cb.
  assert (Hc : c < length (heap s)) by (destruct C as (_&_&_&_&_&_&C6); eauto).
  apply consistent_guards.
  - intros g' r H. cbn [heap with_handler]. rewrite heap_bound.
    unfold ManagedContext.guard_at in H. cbn [guards with_guards with_handler] in H.
    rewrite guards_bound in H.
    destruct (decide (g = g')) as [<-|Hne].
    + rewrite list_lookup_alter_eq in H.
      destruct (guards s !! g); cbn in H; [|discriminate].
      injection H as <-. apply active_in_range, C.
    + rewrite list_lookup_alter_ne in H by done.
      destruct C as (_&_&_&_&_&_&C6). apply (C6 g'). exact H.
  - apply consistent_handler; [|exact Cb].
    intros t r H. destruct (decide (tid = t)) as [<-|Hne].
    + rewrite lookup_insert_eq in H. injection H as <-. rewrite heap_bound. exact Hc.
    + rewrite lookup_insert_ne in H by done. destruct Cb as (_&_&_&_&_&C5&_). eauto.
Qed.

Lemma keeps_ctx_unchanged {A} (m : M A) :
  (forall s, (m s).2 = s) -> stable (preserving consistent) m.
Proof. intros H s. rewrite H. reflexivity. Qed.

Lemma keeps_disconnect_with_context g tid force :
  stable (preserving consistent) (ManagedContext._disconnect_with_context g tid force).
Proof.
  unfold ManagedContext._disconnect_with_context, ManagedContext.ray_worker,
    ManagedContext.global_worker_node, RayAPIStub.is_connected, RayAPIStub.is_default,
    RayAPIStub.__getattr__, ray_client_connect_disconnect, logger_debug.
  repeat stable_step; try apply keeps_get_context.
  all: try (apply keeps_ctx_unchanged; intros s;
            first [rewrite is_connected_run|rewrite getattr_run;
                   repeat (match goal with |- context [if ?b then _ else _] =>
                             destruct b end)]; reflexivity).
  - intros s. exact (consistent_stub_disconnect s tid).
  - apply stable_modify. intros s.
    exact (consistent_same_sessions _ _ (same_sessions_log _ s)).
  - intros s. exact (consistent_stub_shutdown s tid false).
Qed.

Lemma keeps_swap_context g tid :
  stable (preserving consistent) (ManagedContext._swap_context g tid).
Proof. intros s. exact (consistent_swap_context s g tid). Qed.

Lemma consistent_link s w up node :
  consistent s -> consistent (with_workers (alter (set_link up node) w) s).
Proof. apply consistent_same_sessions, same_sessions_workers. Qed.

(** Every admissible call keeps the registry consistent with the contexts. *)
Lemma consistent_exec s tid c :
  admissible s c -> consistent s -> consistent (exec tid c s).2.
Proof.
  intros Ha C.
  assert (Hvoid : forall A (m : M A), (void m s).2 = (m s).2).
  { intros A m. unfold void, bind. destruct (m s) as [[a|e] s1]; reflexivity. }
  destruct c; cbn [exec admissible] in *; rewrite ?Hvoid.
  - apply consistent_stub_connect; assumption.
  - apply consistent_stub_disconnect, C.
  - apply consistent_stub_init; assumption.
  - apply consistent_stub_shutdown, C.
  - apply keeps_get_context, C.
  - apply consistent_set_context; [|exact C]. destruct cxt; exact Ha.
  - rewrite is_default_run. apply consistent_bound, C.
  - rewrite stub_is_connected_run. apply consistent_bound, C.
  - unfold RayAPIStub.__getattr__, bind. rewrite get_context_run, getattr_run.
    repeat (match goal with |- context [if ?b then _ else _] => destruct b end);
      apply consistent_bound, C.
  - exact C.
  - apply consistent_context_from_client_id, C.
  - unfold ManagedContext.__enter__.
    rewrite (bind_ok _ _ s tt _ (surjective_pairing_swap s g tid)).
    apply consistent_swap_context, C.
  - unfold ManagedContext.__exit__.
    apply (stable_bind (preserving consistent)); [| |exact C].
    + apply keeps_disconnect_with_context.
    + intros _. apply keeps_swap_context.
  - unfold ManagedContext.disconnect.
    apply (stable_bind (preserving consistent)); [| |exact C].
    + apply keeps_swap_context.
    + intros _. apply (stable_bind (preserving consistent)).
      * apply keeps_disconnect_with_context.
      * intros _. apply keeps_swap_context.
  - unfold ManagedContext.id, bind, gets.
    destruct (ManagedContext.guard_at s g); exact C.
Qed.

Lemma reachable_consistent s : reachable s -> consistent s.
Proof.
  induction 1 as [main vi env mode|s tid c _ IH Ha|s w up node _ IH].
  - apply consistent_import.
  - apply consistent_exec; assumption.
  - apply consistent_link, IH.
Qed.

(** *** The size of the registry *)

Lemma registered_iff_connected s c :
  consistent s ->
  (exists k, _all_contexts s !! k = Some c) <-> c ∈ connected_contexts s.
Proof.
  intros (_&C1&C2&_). unfold connected_contexts.
  rewrite list_elem_of_filter, elem_of_seq. split.
  - intros (k & Hk). destruct (C1 k c Hk) as [Hw _].
    split; [|split; [lia|cbn; apply connected_in_range, Hw]].
    destruct (client_worker (ctx_at s c)); [eexists; reflexivity|contradiction].
  - intros ([w Hw] & _). exists (_client_id (ctx_at s c)). apply C2.
    rewrite Hw. discriminate.
Qed.

Lemma registry_size s :
  consistent s -> size (_all_contexts s) = length (connected_contexts s).
Proof.
  intros C. rewrite <- length_map_to_list, <- (length_fmap snd).
  apply Permutation_length, NoDup_Permutation.
  - apply NoDup_fmap_2_strong; [|apply NoDup_map_to_list].
    intros [k1 c1] [k2 c2] H1 H2 E. cbn in E. subst c2.
    apply elem_of_map_to_list in H1, H2.
    destruct C as (_&C1&_). destruct (C1 _ _ H1) as [_ <-].
    destruct (C1 _ _ H2) as [_ <-]. reflexivity.
  - apply NoDup_filter, NoDup_seq.
  - intros c. rewrite <- (registered_iff_connected s c C), list_elem_of_fmap. split.
    + intros ([k c'] & -> & H). exists k. apply elem_of_map_to_list, H.
    + intros (k & H). exists (k, c). split; [reflexivity|apply elem_of_map_to_list, H].
Qed.

(** C9, as the code has it: the registry is empty when the module is
    imported; in every state the process reaches through the facade (with
    transports that report distinct client ids) a context, the default one
    included, has an entry in the registry exactly while it holds a transport
    handle, and the size of the registry is the number of such contexts,
    which is what [num_connected_contexts] returns. *)
Theorem registry_counts_connected_contexts s :
  reachable s ->
  (forall main vi env mode, _all_contexts (module_init main vi env mode) = ∅) /\
  (forall c, (exists k, _all_contexts s !! k = Some c) <-> c ∈ connected_contexts s) /\
  size (_all_contexts s) = length (connected_contexts s) /\
  num_connected_contexts s = (Ok (length (connected_contexts s)), s).
Proof.
  intros R. apply reachable_consistent in R.
  split; [reflexivity|].
  split; [intros c; apply registered_iff_connected, R|].
  split; [apply registry_size, R|].
  unfold num_connected_contexts, gets. rewrite (registry_size s R). reflexivity.
Qed.

Lemma sample_run_reachable : reachable sample_run.
Proof.
  unfold sample_run.
  apply reach_call; [apply reach_call; [apply reach_call; [apply reach_import|]|]|].
  - intros wk [= <-] c. destruct c as [|c]; vm_compute; discriminate.
  - exact I.
  - intros wk [= <-] c. destruct c as [|[|c]]; vm_compute; discriminate.
Defined.

Lemma registry_counts_connected_contexts_witness :
  reachable sample_run /\
  connected_contexts sample_run = [0; 1] /\
  size (_all_contexts sample_run) = 2.
Proof.
  split; [exact sample_run_reachable|].
  split; [vm_compute; reflexivity|].
  destruct (registry_counts_connected_contexts sample_run sample_run_reachable)
    as (_ & _ & H & _).
  rewrite H. vm_compute. reflexivity.
Defined.

(** C9, the claim as stated fails: at import the registry is empty, so the
    default context is not in it; and once the default context is connected
    and registered, a [disconnect] from its thread removes its entry. *)
Lemma default_context_registered_counterexample :
  (forall k, _all_contexts sample_start !! k <> Some _default_context) /\
  _all_contexts sample_connected !! Some "session-1" = Some _default_context /\
  active sample_connected 0 = _default_context /\
  (forall k, _all_contexts (RayAPIStub.disconnect 0 sample_connected).2 !! k
             <> Some _default_context).
Proof.
  split; [intros k; unfold sample_start, module_init; cbn [_all_contexts];
          rewrite lookup_empty; discriminate|].
  split; [vm_compute; reflexivity|]. split; [vm_compute; reflexivity|].
  intros k.
  assert (E : _all_contexts (RayAPIStub.disconnect 0 sample_connected).2 = ∅)
    by (vm_compute; reflexivity).
  rewrite E, lookup_empty. discriminate.
Qed.

(** * Further properties of the module *)

(** ** The thread-local handler *)

Lemma with_handler_id f s : f (handler s) = handler s -> with_handler f s = s.
Proof. intros H. destruct s. unfold with_handler. cbn in *. rewrite H. reflexivity. Qed.

(** X1: [set_context] is local to the calling thread: whatever it installs,
    every other thread still gets from [get_context] the context it got
    before, and no existing context object is touched. *)
Theorem set_context_thread_local s tid t cxt :
  t <> tid ->
  let s' := (RayAPIStub.set_context tid cxt s).2 in
  active s' t = active s t /\
  (RayAPIStub.get_context t s').1 = (RayAPIStub.get_context t s).1 /\
  (forall c, c < length (heap s) -> heap s' !! c = heap s !! c).
Proof.
  intros Hne. cbn zeta. rewrite set_context_run. cbn [snd].
  assert (Ha : active
                 match cxt with
                 | Some c => with_handler <[tid:=c]> (bound tid s)
                 | None => with_handler <[tid:=length (heap s)]>
                             (with_heap (fun h => (h ++ [_ClientContext_new])%list)
                                (bound tid s))
                 end t = active s t).
  { destruct cxt as [c|]; unfold active at 1; cbn [handler with_handler with_heap];
      rewrite lookup_insert_ne by congruence; apply active_bound. }
  split; [exact Ha|]. split; [rewrite !get_context_run; cbn [fst]; rewrite Ha; reflexivity|].
  intros c Hc. destruct cxt as [c0|]; cbn [heap with_handler with_heap];
    rewrite heap_bound; [reflexivity|]. apply lookup_app_l, Hc.
Qed.

Lemma set_context_thread_local_witness :
  0 <> 1 /\
  active (RayAPIStub.set_context 1 None sample_connected).2 0 = _default_context /\
  active (RayAPIStub.set_context 1 None sample_connected).2 1 = 1.
Proof.
  assert (H : 0 <> 1) by discriminate.
  split; [exact H|]. split; [|vm_compute; reflexivity].
  destruct (set_context_thread_local sample_connected 1 0 None H) as (T & _).
  rewrite T. vm_compute. reflexivity.
Defined.

(** X2: [set_context] returns the context it replaces, so passing that
    result back undoes the switch: the second call returns the context the
    first installed.  After a switch to an existing context and back, the
    process is in the state a plain [get_context] would have left; after
    [set_context(None)] and back it is in that state but for the context
    object the first call created, which remains. *)
Theorem set_context_round_trip s tid cxt :
  let r1 := RayAPIStub.set_context tid cxt s in
  let r2 := RayAPIStub.set_context tid (Some (active s tid)) r1.2 in
  r1.1 = Ok (active s tid) /\
  r2.1 = Ok (default (length (heap s)) cxt) /\
  r2.2 = match cxt with
         | Some _ => (RayAPIStub.get_context tid s).2
         | None => with_heap (fun h => (h ++ [_ClientContext_new])%list)
                     (RayAPIStub.get_context tid s).2
         end.
Proof.
  cbn zeta. rewrite !set_context_run, get_context_run. cbn [fst snd].
  pose proof (handler_bound s tid) as Hb.
  assert (Hi : forall b, <[tid := active s tid]> (<[tid := b]> (handler (bound tid s)))
                         = handler (bound tid s)).
  { intros b. rewrite insert_insert_eq. apply insert_id, Hb. }
  destruct cxt as [c|]; cbn [default].
  - set (s1 := with_handler <[tid:=c]> (bound tid s)).
    assert (H1 : handler s1 !! tid = Some c) by apply lookup_insert_eq.
    split; [reflexivity|]. split; [unfold active; rewrite H1; reflexivity|].
    rewrite (bound_fixed _ _ _ H1). unfold s1.
    specialize (Hi c). destruct (bound tid s) as [h w g ac hd t cm ss vi env lg].
    unfold with_handler. cbn in *. f_equal. exact Hi.
  - set (s1 := with_handler <[tid:=length (heap s)]> _).
    assert (H1 : handler s1 !! tid = Some (length (heap s))) by apply lookup_insert_eq.
    split; [reflexivity|]. split; [unfold active; rewrite H1; reflexivity|].
    rewrite (bound_fixed _ _ _ H1). unfold s1.
    specialize (Hi (length (heap s))).
    destruct (bound tid s) as [h w g ac hd t cm ss vi env lg].
    unfold with_handler, with_heap. cbn in *. f_equal. exact Hi.
Qed.

(** ** A successful [connect] *)

Lemma handshake_passes s c a peer wk :
  Worker_new peer (conn_str a) (secure a) (_credentials a) (metadata a)
    (connection_retries a) = Ok wk ->
  handshake_failure s c a peer = None ->
  w_server_init wk = None /\
  exists info, w_connection_info wk = Ok info /\
    (_ClientContext._check_versions c info (ignore_version a) s).1 = Ok tt /\
    serialization_addons_apply peer = None.
Proof.
  intros Hwk. unfold handshake_failure. rewrite Hwk.
  destruct (w_server_init wk); [discriminate|].
  destruct (w_connection_info wk) as [info|]; [|discriminate].
  destruct (_ClientContext._check_versions c info (ignore_version a) s).1 as [[]|] eqn:E;
    [|discriminate].
  intros H. split; [reflexivity|]. exists info. auto.
Qed.

(** The attempt when every step of the handshake passes. *)
Lemma connect_attempt_success s c a jc peer wk :
  c < length (heap s) ->
  Worker_new peer (conn_str a) (secure a) (_credentials a) (metadata a)
    (connection_retries a) = Ok wk ->
  handshake_failure s c a peer = None ->
  let r := _ClientContext.connect_attempt c a jc peer s in
  let w := length (workers s) in
  r.1 = Ok (Some (_conn_info (ctx_at r.2 c))) /\
  w_connection_info wk = Ok (_conn_info (ctx_at r.2 c)) /\
  client_worker (ctx_at r.2 c) = Some w /\
  api_worker (ctx_at r.2 c) = Some w /\
  _client_id (ctx_at r.2 c) = Some (w_client_id wk) /\
  workers r.2 = alter (set_init_pushed (jc, ray_init_kwargs a)) w (workers s ++ [wk])%list.
Proof.
  intros Hin Hwk Hok. cbn zeta.
  destruct (handshake_passes s c a peer wk Hwk Hok) as (Hsi & info & Hci & Hcv & Hser).
  rewrite connect_attempt_run, Hwk. cbn zeta. rewrite Hsi, Hci.
  set (w := length (workers s)).
  set (s1 := with_heap (alter (set_api_worker (Some w)) c) _).
  set (s2 := with_workers _ s1).
  set (s3 := with_heap _ s2).
  assert (H1 : ctx_at s1 c
               = set_api_worker (Some w)
                   (set_client_id (Some (w_client_id wk))
                      (set_client_worker (Some w) (ctx_at s c)))).
  { unfold s1.
    rewrite !ctx_at_write
      by (cbn [heap with_heap with_workers]; rewrite ?length_alter; exact Hin).
    reflexivity. }
  assert (L1 : length (heap s1) = length (heap s)).
  { unfold s1. cbn [heap with_heap with_workers]. rewrite !length_alter. reflexivity. }
  assert (H3 : ctx_at s3 c = set_conn_info info (ctx_at s1 c)).
  { unfold s3. rewrite ctx_at_write by (unfold s2; cbn [heap with_workers]; lia).
    reflexivity. }
  assert (Hd : _conn_info (ctx_at s3 c) = info) by (rewrite H3; reflexivity).
  rewrite Hd.
  pose proof (check_versions_state s3 c info (ignore_version a)) as Hst. cbn zeta in Hst.
  pose proof (check_versions_outcome s3 s c c info (ignore_version a) eq_refl eq_refl) as Ho.
  rewrite Hcv in Ho.
  destruct (_ClientContext._check_versions c info (ignore_version a) s3) as [r4 s4].
  cbn [fst snd] in *. subst r4. rewrite Hser. cbn [fst snd].
  assert (E : ctx_at s4 c = ctx_at s3 c) by (rewrite Hst; reflexivity).
  rewrite E, H3, H1. cbn [_conn_info client_worker api_worker _client_id
    set_conn_info set_api_worker set_client_id set_client_worker].
  repeat split. rewrite Hst. reflexivity.
Qed.

(** The facade's [connect] when every step of the handshake passes. *)
Lemma stub_connect_success s tid a peer wk :
  active s tid < length (heap s) ->
  client_worker (ctx_at s (active s tid)) = None ->
  Worker_new peer (conn_str a) (secure a) (_credentials a) (metadata a)
    (connection_retries a) = Ok wk ->
  handshake_failure s (active s tid) a peer = None ->
  let c := active s tid in
  let r := RayAPIStub.connect tid a peer s in
  let w := length (workers s) in
  ((exists info, w_connection_info wk = Ok info /\ r.1 = Ok (Some info) /\
                _conn_info (ctx_at r.2 c) = info) /\
  client_worker (ctx_at r.2 c) = Some w /\
  _client_id (ctx_at r.2 c) = Some (w_client_id wk) /\
  _all_contexts r.2 = <[Some (w_client_id wk) := c]> (_all_contexts s) /\
  workers r.2 !! w
    = Some (set_init_pushed (_ClientContext.effective_job_config a, ray_init_kwargs a) wk) /\
  RayAPIStub.is_connected tid r.2 = (Ok (w_is_connected wk), r.2) /\
  (forall c', c' <> c -> heap r.2 !! c' = heap s !! c')) /\
  handler r.2 !! tid = Some c.
Proof.
  intros Hin Hnone Hwk Hok. cbn zeta. rewrite stub_connect_run. cbn zeta.
  set (c := active s tid) in *.
  set (sw := with_heap _ (bound tid s)).
  pose proof (ctx_frame_write c (set_inside_client_test (stub_inside_client_test s))
                (bound tid s)) as Fw. fold sw in Fw.
  destruct Fw as (Rw & Hw & _ & _ & Vw & Ew & Lw & Cw & _).
  assert (Hnone' : client_worker (ctx_at sw c) = None).
  { unfold sw. rewrite ctx_at_write by (rewrite heap_bound; exact Hin).
    rewrite ctx_at_bound. exact Hnone. }
  rewrite (connect_fresh_run _ _ _ _ Hnone'). cbn zeta.
  pose proof (stable_connect_prepare c a sw) as Fp.
  pose proof (connect_prepare_run sw c a) as Hp. cbn zeta in Hp.
  set (s0 := (_ClientContext.connect_prepare c a sw).2) in *.
  destruct Fp as (Rp & Hp' & _ & _ & Vp & Ep & Lp & Cp & _).
  assert (W0 : workers s0 = workers s).
  { unfold s0. rewrite Hp. cbn [snd workers with_log].
    destruct (_inside_client_test _); cbn [workers with_client_mode];
      unfold sw; cbn [workers with_heap]; apply workers_bound. }
  assert (Hok0 : handshake_failure s0 c a peer = None).
  { rewrite <- Hok. unfold handshake_failure. rewrite Hwk.
    destruct (w_server_init wk); [reflexivity|].
    destruct (w_connection_info wk) as [info|]; [|reflexivity].
    rewrite (check_versions_outcome s0 s c c info).
    - reflexivity.
    - rewrite Vp, Vw. apply version_info_bound.
    - rewrite Ep, Ew. apply environ_bound. }
  assert (Hin0 : c < length (heap s0)) by (rewrite Lp, Lw, heap_bound; exact Hin).
  destruct (connect_attempt_success s0 c a (_ClientContext.effective_job_config a)
              peer wk Hin0 Hwk Hok0) as (A1 & A2 & A3 & A4 & A5 & A6).
  pose proof (stable_connect_attempt c a (_ClientContext.effective_job_config a) peer s0)
    as (Ra & Ha & _ & _ & _ & _ & La & Ca & _).
  set (att := _ClientContext.connect_attempt c a _ peer s0) in *.
  rewrite A1. cbn [fst snd].
  set (fin := with_all_contexts _ att.2).
  assert (E : forall r, ctx_at fin r = ctx_at att.2 r) by reflexivity.
  assert (Wf : workers fin !! length (workers s)
               = Some (set_init_pushed
                         (_ClientContext.effective_job_config a, ray_init_kwargs a) wk)).
  { unfold fin. cbn [workers with_all_contexts]. rewrite A6, W0.
    rewrite list_lookup_alter_eq, list_lookup_middle by reflexivity. reflexivity. }
  assert (Hf : handler fin !! tid = Some c).
  { unfold fin. cbn [handler with_all_contexts]. rewrite Ha, Hp', Hw. apply handler_bound. }
  split; [|exact Hf].
  split; [exists (_conn_info (ctx_at att.2 c)); auto|].
  split; [rewrite <- W0; exact A3|].
  split; [exact A5|].
  split.
  { unfold fin. cbn [_all_contexts with_all_contexts].
    rewrite A5, Ra, Rp, Rw, all_contexts_bound. reflexivity. }
  split; [exact Wf|].
  split.
  { rewrite stub_is_connected_run, (bound_fixed _ _ _ Hf). f_equal. f_equal.
    unfold active. rewrite Hf. cbn [default]. unfold connected.
    change (ctx_at fin (id c)) with (ctx_at att.2 c).
    rewrite A3, W0, Wf. reflexivity. }
  intros c' Hc'. unfold fin. cbn [heap with_all_contexts].
  rewrite (Ca c' Hc'), (Cp c' Hc'), (Cw c' Hc'). rewrite heap_bound. reflexivity.
Qed.

(** X3: when the thread's active context holds no transport and every step
    of the handshake passes, the facade's [connect] returns the connection
    info the peer reported; the context then holds the new transport, its
    client id and that info; the transport was initialised with the job
    config carrying the namespace and with the init kwargs; the context is
    registered under the client id; [is_connected()] answers what the
    transport's link reports; and no other context is touched. *)
Theorem connect_success s tid a peer wk :
  active s tid < length (heap s) ->
  client_worker (ctx_at s (active s tid)) = None ->
  Worker_new peer (conn_str a) (secure a) (_credentials a) (metadata a)
    (connection_retries a) = Ok wk ->
  handshake_failure s (active s tid) a peer = None ->
  let c := active s tid in
  let r := RayAPIStub.connect tid a peer s in
  let w := length (workers s) in
  (exists info, w_connection_info wk = Ok info /\ r.1 = Ok (Some info) /\
                _conn_info (ctx_at r.2 c) = info) /\
  client_worker (ctx_at r.2 c) = Some w /\
  _client_id (ctx_at r.2 c) = Some (w_client_id wk) /\
  _all_contexts r.2 = <[Some (w_client_id wk) := c]> (_all_contexts s) /\
  workers r.2 !! w
    = Some (set_init_pushed (_ClientContext.effective_job_config a, ray_init_kwargs a) wk) /\
  RayAPIStub.is_connected tid r.2 = (Ok (w_is_connected wk), r.2) /\
  (forall c', c' <> c -> heap r.2 !! c' = heap s !! c').
Proof.
  intros H1 H2 H3 H4.
  exact (proj1 (stub_connect_success s tid a peer wk H1 H2 H3 H4)).
Qed.

Lemma connect_success_witness :
  active sample_start 0 < length (heap sample_start) /\
  client_worker (ctx_at sample_start (active sample_start 0)) = None /\
  handshake_failure sample_start (active sample_start 0)
    (connect_defaults "head:10001") (sample_peer "session-1" sample_info) = None /\
  _all_contexts
    (RayAPIStub.connect 0 (connect_defaults "head:10001")
       (sample_peer "session-1" sample_info) sample_start).2
    = <[Some "session-1" := 0]> (_all_contexts sample_start).
Proof.
  assert (H1 : active sample_start 0 < length (heap sample_start))
    by (vm_compute; lia).
  assert (H2 : handshake_failure sample_start (active sample_start 0)
                 (connect_defaults "head:10001") (sample_peer "session-1" sample_info)
               = None) by (vm_compute; reflexivity).
  split; [exact H1|]. split; [reflexivity|]. split; [exact H2|].
  apply (connect_success sample_start 0 (connect_defaults "head:10001")
           (sample_peer "session-1" sample_info) (sample_worker "session-1" sample_info)
           H1 eq_refl eq_refl H2).
Defined.

(** ** What [_check_versions] accepts *)

Lemma str_ne_false a pr : str_ne a pr = false <-> pr = VStr a.
Proof.
  destruct pr as [|b|z]; [split; discriminate| |split; discriminate].
  rewrite str_ne_VStr. split; [intros ->; reflexivity|intros [= ->]; reflexivity].
Qed.

(** The connection info lacks a key the check reads, or holds a
    [python_version] that is no string. *)
Lemma check_versions_malformed_run s self ci ignore :
  let r := _ClientContext._check_versions self ci ignore s in
  match ci !! "python_version" with
  | None => r = (Raise (KeyError "python_version"), s)
  | Some VNone =>
      r = (Raise (AttributeError "'NoneType' object has no attribute 'startswith'"), s)
  | Some (VInt _) =>
      r = (Raise (AttributeError "'int' object has no attribute 'startswith'"), s)
  | Some (VStr pv) =>
      ci !! "protocol_version" = None ->
      if String.prefix (local_major_minor (version_info s)) pv then
        r = (Raise (KeyError "protocol_version"), s)
      else if version_override ignore s then
        r = (Raise (KeyError "protocol_version"),
             with_log (fun l => (l ++ [(WARNING,
                         python_mismatch_msg (version_info s) (VStr pv))])%list) s)
      else r = (Raise (RuntimeError (python_mismatch_msg (version_info s) (VStr pv))), s)
  end.
Proof.
  cbn zeta. unfold _ClientContext._check_versions, version_override, bind, gets, getitem.
  destruct (ci !! "python_version") as [[|pv|z]|]; cbn [ret raise startswith];
    try reflexivity.
  intros ->. destruct (String.prefix _ pv); cbn [negb ret raise]; [reflexivity|].
  destruct (ignore || _); reflexivity.
Qed.

(** X4: [_check_versions] returns exactly when the connection info holds a
    string under [python_version] and a value under [protocol_version], and
    either the override is set ([ignore_version] or
    [RAY_IGNORE_VERSION_MISMATCH]) or the peer's Python version starts with
    the local "major.minor" and its protocol version is the string
    [CURRENT_PROTOCOL_VERSION]. *)
Theorem check_versions_accepts s self ci ignore :
  (_ClientContext._check_versions self ci ignore s).1 = Ok tt <->
  exists pv pr,
    ci !! "python_version" = Some (VStr pv) /\
    ci !! "protocol_version" = Some pr /\
    (version_override ignore s = true \/
     String.prefix (local_major_minor (version_info s)) pv = true /\
     pr = VStr CURRENT_PROTOCOL_VERSION).
Proof.
  pose proof (check_versions_malformed_run s self ci ignore) as Hm. cbn zeta in Hm.
  split.
  - intros Hok.
    destruct (ci !! "python_version") as [[|pv|z]|] eqn:Hpv;
      try (rewrite Hm in Hok; discriminate).
    destruct (ci !! "protocol_version") as [pr|] eqn:Hpr.
    + exists pv, pr. split; [reflexivity|]. split; [reflexivity|].
      rewrite (check_versions_run s self ci ignore pv pr Hpv Hpr) in Hok. cbn zeta in Hok.
      destruct (version_override ignore s); [left; reflexivity|right].
      destruct (String.prefix _ pv); cbn [negb] in Hok; [|discriminate].
      destruct (str_ne CURRENT_PROTOCOL_VERSION pr) eqn:Hne; cbn [negb] in Hok;
        [discriminate|].
      split; [reflexivity|]. apply str_ne_false, Hne.
    + specialize (Hm eq_refl).
      destruct (String.prefix _ pv); [rewrite Hm in Hok; discriminate|].
      destruct (version_override ignore s); rewrite Hm in Hok; discriminate.
  - intros (pv & pr & Hpv & Hpr & H).
    rewrite (check_versions_run s self ci ignore pv pr Hpv Hpr). cbn zeta.
    destruct H as [->|[-> ->]]; [reflexivity|].
    destruct (version_override ignore s); [reflexivity|].
    cbn [negb]. rewrite (proj2 (str_ne_false _ _) eq_refl). reflexivity.
Qed.

(** X5: the override of the version checks does not cover a malformed
    connection info.  Without [python_version] the check raises [KeyError]
    and with a [python_version] that is no string [AttributeError], before
    anything is logged; without [protocol_version] it raises [KeyError] once
    the Python version is accepted or overridden.  None of this depends on
    [ignore_version] being set. *)
Theorem check_versions_malformed s self ci ignore :
  let r := _ClientContext._check_versions self ci ignore s in
  (ci !! "python_version" = None -> r = (Raise (KeyError "python_version"), s)) /\
  (forall v, ci !! "python_version" = Some v -> (forall pv, v <> VStr pv) ->
     exists msg, r = (Raise (AttributeError msg), s)) /\
  (forall pv, ci !! "python_version" = Some (VStr pv) ->
     ci !! "protocol_version" = None ->
     (String.prefix (local_major_minor (version_info s)) pv = true
      \/ version_override ignore s = true) ->
     r.1 = Raise (KeyError "protocol_version")).
Proof.
  pose proof (check_versions_malformed_run s self ci ignore) as Hm. cbn zeta in *.
  split; [intros H; rewrite H in Hm; exact Hm|].
  split.
  - intros v Hv Hns. rewrite Hv in Hm. destruct v as [|pv|z].
    + eexists. exact Hm.
    + destruct (Hns pv eq_refl).
    + eexists. exact Hm.
  - intros pv Hpv Hpr Hacc. rewrite Hpv in Hm. specialize (Hm Hpr).
    destruct (String.prefix _ pv); [rewrite Hm; reflexivity|].
    destruct Hacc as [Hacc|Hacc]; [discriminate|]. rewrite Hacc in Hm.
    rewrite Hm. reflexivity.
Qed.

(** ** Guards obtained by client id *)

(** X6: [context_from_client_id] on an id that is not registered raises
    [ValueError] (not the [KeyError] its docstring announces); on a
    registered id whose context's connection info lacks one of the keys the
    guard snapshots, it raises [KeyError] for the first such key; in both
    cases the state is as before and no guard exists.  Otherwise it returns
    a new guard that holds the registered context and the six values of the
    connection info. *)
Theorem context_from_client_id_outcome s k :
  let r := context_from_client_id k s in
  match _all_contexts s !! k with
  | None =>
      r = (Raise (ValueError ("Client " +:+ from_option id "None" k +:+
                              " does not exist. " +:+ "It may have been shut down.")), s)
  | Some c =>
      let info := _conn_info (ctx_at s c) in
      match missing_key info snapshot_keys with
      | Some key => r = (Raise (KeyError key), s)
      | None =>
          exists g,
            r = (Ok (length (guards s)), with_guards (fun l => (l ++ [g])%list) s) /\
            _context_to_restore g = Some c /\
            info !! "dashboard_url" = Some (dashboard_url g) /\
            info !! "python_version" = Some (python_version g) /\
            info !! "ray_version" = Some (ray_version g) /\
            info !! "ray_commit" = Some (ray_commit g) /\
            info !! "protocol_version" = Some (protocol_version g) /\
            info !! "num_clients" = Some (_num_clients g)
      end
  end.
Proof.
  cbn zeta. unfold context_from_client_id, bind, gets.
  destruct (_all_contexts s !! k) as [c|]; [|reflexivity].
  unfold read, gets, ManagedContext.__init__, bind, getitem, missing_key, snapshot_keys.
  cbn [find].
  repeat (match goal with |- context [_conn_info (ctx_at s c) !! ?key] =>
            destruct (_conn_info (ctx_at s c) !! key) end;
          cbn [ret raise]; [|reflexivity]).
  eexists. split; [reflexivity|]. cbn. repeat split.
Qed.

(** X7: in every state the process reaches, a guard obtained by
    [context_from_client_id] for an id reports that id: the lookup followed
    by the guard's [id] property is the identity on registered ids.  The id
    is a string, never [None]. *)
Theorem guard_id_round_trip s k g s' :
  reachable s ->
  context_from_client_id k s = (Ok g, s') ->
  ManagedContext.id g s' = (Ok k, s') /\
  k <> None /\
  exists c, _all_contexts s !! k = Some c /\ ManagedContext.guard_at s' g = Some c.
Proof.
  intros R Hr. apply reachable_consistent in R.
  pose proof (context_from_client_id_outcome s k) as H. cbn zeta in H.
  destruct (_all_contexts s !! k) as [c|] eqn:Hk; [|rewrite Hr in H; discriminate].
  destruct (missing_key _ _); [rewrite Hr in H; discriminate|].
  destruct H as (g0 & H & Hc & _). rewrite Hr in H. injection H as -> ->.
  destruct R as (_ & C1 & _ & _ & C4 & _).
  destruct (C1 k c Hk) as [Hw Hid].
  assert (Hg : ManagedContext.guard_at (with_guards (fun l => (l ++ [g0])%list) s)
                 (length (guards s)) = Some c).
  { unfold ManagedContext.guard_at. cbn [guards with_guards].
    rewrite list_lookup_middle by reflexivity. cbn. exact Hc. }
  split; [|split].
  - unfold ManagedContext.id, bind, gets. rewrite Hg.
    unfold _ClientContext.id, read, gets. f_equal. f_equal. exact Hid.
  - rewrite <- Hid. apply C4, Hw.
  - exists c. split; [reflexivity|exact Hg].
Qed.

Lemma guard_id_round_trip_witness :
  reachable sample_run /\
  ManagedContext.id 0 (context_from_client_id (Some "session-1") sample_run).2
    = (Ok (Some "session-1"), (context_from_client_id (Some "session-1") sample_run).2).
Proof.
  split; [exact sample_run_reachable|].
  apply (guard_id_round_trip sample_run (Some "session-1") 0
           (context_from_client_id (Some "session-1") sample_run).2
           sample_run_reachable).
  vm_compute. reflexivity.
Defined.

(** ** [disconnect] and [shutdown] of the facade on a thread of its own *)

Lemma stub_disconnect_run s tid :
  RayAPIStub.disconnect tid s =
    (Ok tt,
     popped (active s tid)
       (if bool_decide (_default_context = active s tid)
        then with_all_contexts (fun _ => ∅)
               (for_each (map_to_list (_all_contexts (bound tid s))).*2
                  _ClientContext.disconnect (bound tid s)).2
        else (_ClientContext.disconnect (active s tid) (bound tid s)).2)).
Proof.
  rewrite disconnect_is_broadcast. apply broadcast_run.
  - intros c t. rewrite disconnect_run. reflexivity.
  - apply stable_teardown_disconnect.
Qed.

Lemma stub_shutdown_run s tid e :
  RayAPIStub.shutdown tid e s =
    (Ok tt,
     popped (active s tid)
       (if bool_decide (_default_context = active s tid)
        then with_all_contexts (fun _ => ∅)
               (for_each (map_to_list (_all_contexts (bound tid s))).*2
                  (fun c => _ClientContext.shutdown c e) (bound tid s)).2
        else (_ClientContext.shutdown (active s tid) e (bound tid s)).2)).
Proof.
  rewrite shutdown_is_broadcast.
  apply (broadcast_run (fun c => _ClientContext.shutdown c e)).
  - intros c t. rewrite shutdown_run. reflexivity.
  - intros c. apply stable_teardown_shutdown.
Qed.

Lemma popped_client_mode c s :
  client_mode (popped c s)
  = if bool_decide (size (_all_contexts (popped c s)) = 0) then false else client_mode s.
Proof.
  unfold popped. cbn zeta.
  destruct (bool_decide (size (_all_contexts (with_all_contexts _ s)) = 0)) eqn:E;
    cbn [_all_contexts with_client_mode client_mode]; rewrite E; reflexivity.
Qed.

(** The facade's [disconnect] on a thread bound to a context other than the
    default one. *)
Lemma stub_disconnect_local s tid :
  active s tid <> _default_context ->
  let c := active s tid in
  let r := RayAPIStub.disconnect tid s in
  r.1 = Ok tt /\
  client_worker (ctx_at r.2 c) = None /\
  _client_id (ctx_at r.2 c) = _client_id (ctx_at s c) /\
  _all_contexts r.2 = delete (_client_id (ctx_at s c)) (_all_contexts s) /\
  (forall c', c' <> c -> heap r.2 !! c' = heap s !! c') /\
  workers r.2 = match client_worker (ctx_at s c) with
                | Some w => alter set_closed w (workers s)
                | None => workers s
                end /\
  client_mode r.2
    = (if bool_decide (size (_all_contexts r.2) = 0) then false else client_mode s) /\
  exists msg,
    context_from_client_id (_client_id (ctx_at s c)) r.2 = (Raise (ValueError msg), r.2).
Proof.
  intros Hnd. cbn zeta. rewrite stub_disconnect_run.
  rewrite bool_decide_false by (intros E; apply Hnd; symmetry; exact E).
  cbn [fst snd].
  set (c := active s tid) in *.
  set (s2 := (_ClientContext.disconnect c (bound tid s)).2).
  destruct (popped_facts c s2) as (Hreg & Hheap & Hwk & _ & _ & _).
  pose proof (popped_client_mode c s2) as Hmode.
  destruct (stable_teardown_disconnect c (bound tid s)) as (T1&_&_&T4&_&_&T7&_).
  destruct (stable_disconnect c (bound tid s)) as (_&_&_&_&_&_&_&F8&_).
  fold s2 in T1, T4, T7, F8.
  assert (Hid : _client_id (ctx_at s2 c) = _client_id (ctx_at s c))
    by (rewrite T7, ctx_at_bound; reflexivity).
  assert (Hreg' : _all_contexts (popped c s2)
                  = delete (_client_id (ctx_at s c)) (_all_contexts s))
    by (rewrite Hreg, Hid, T1, all_contexts_bound; reflexivity).
  assert (E : forall r, ctx_at (popped c s2) r = ctx_at s2 r)
    by (intros r; unfold ctx_at; rewrite Hheap; reflexivity).
  split; [reflexivity|].
  split; [rewrite E; apply disconnect_client_worker|].
  split; [rewrite E; exact Hid|].
  split; [exact Hreg'|].
  split; [intros c' Hc'; rewrite Hheap, (F8 c' Hc'), heap_bound; reflexivity|].
  split.
  { rewrite Hwk. unfold s2. rewrite disconnect_run. cbn [snd workers with_heap].
    rewrite ctx_at_bound. destruct (client_worker (ctx_at s c));
      cbn [workers with_workers]; rewrite workers_bound; reflexivity. }
  split; [rewrite Hmode, T4, client_mode_bound; reflexivity|].
  eexists. unfold context_from_client_id, bind, gets.
  rewrite Hreg', lookup_delete_eq. reflexivity.
Qed.

(** X8: on a thread whose active context is not the default context, the
    facade's [disconnect] is local to that context: it returns, the context
    loses its transport handle (the transport is closed) and keeps its client
    id, exactly the entry under that id leaves the registry, every other
    context and every other transport is untouched, and client mode is
    switched off only if the registry is left empty.  From then on the id
    cannot be looked up: [context_from_client_id] raises [ValueError]. *)
Theorem disconnect_non_default_local s tid :
  active s tid <> _default_context ->
  let c := active s tid in
  let r := RayAPIStub.disconnect tid s in
  r.1 = Ok tt /\
  client_worker (ctx_at r.2 c) = None /\
  _client_id (ctx_at r.2 c) = _client_id (ctx_at s c) /\
  _all_contexts r.2 = delete (_client_id (ctx_at s c)) (_all_contexts s) /\
  (forall c', c' <> c -> heap r.2 !! c' = heap s !! c') /\
  workers r.2 = match client_worker (ctx_at s c) with
                | Some w => alter set_closed w (workers s)
                | None => workers s
                end /\
  client_mode r.2
    = (if bool_decide (size (_all_contexts r.2) = 0) then false else client_mode s) /\
  exists msg,
    context_from_client_id (_client_id (ctx_at s c)) r.2 = (Raise (ValueError msg), r.2).
Proof. exact (stub_disconnect_local s tid). Qed.

Lemma disconnect_non_default_local_witness :
  active sample_two_sessions 1 <> _default_context /\
  _all_contexts sample_two_sessions !! Some "session-2" = Some 1 /\
  _all_contexts (RayAPIStub.disconnect 1 sample_two_sessions).2
    = delete (Some "session-2") (_all_contexts sample_two_sessions) /\
  client_worker (ctx_at (RayAPIStub.disconnect 1 sample_two_sessions).2 0) = Some 0.
Proof.
  assert (H : active sample_two_sessions 1 <> _default_context)
    by (vm_compute; discriminate).
  split; [exact H|]. split; [vm_compute; reflexivity|].
  destruct (disconnect_non_default_local sample_two_sessions 1 H)
    as (_ & _ & _ & Hreg & Hother & _).
  split; [exact Hreg|].
  unfold ctx_at. rewrite (Hother 0) by (vm_compute; discriminate).
  vm_compute. reflexivity.
Defined.

(** ** The embedded server *)

#[export] Instance server_frame_preorder : PreOrder server_frame.
Proof.
  split.
  - intros s. unfold server_frame. auto.
  - intros s1 s2 s3 (A1&A2&A3) (B1&B2&B3). unfold server_frame.
    split; [congruence|].
    split; intros c; [rewrite B2; apply A2|rewrite B3; apply A3].
Qed.

Lemma server_frame_write self upd s :
  (forall c, _server (upd c) = _server c /\
             _connected_with_init (upd c) = _connected_with_init c) ->
  server_frame s (with_heap (alter upd self) s).
Proof.
  intros Hu. unfold server_frame. split; [reflexivity|].
  split; intros c; rewrite ctx_at_alter; repeat case_decide; try reflexivity; apply Hu.
Qed.

Lemma server_frame_alloc s :
  server_frame s (with_heap (fun h => (h ++ [_ClientContext_new])%list) s).
Proof.
  assert (E : forall c, ctx_at (with_heap (fun h => (h ++ [_ClientContext_new])%list) s) c
                        = ctx_at s c).
  { intros c. unfold ctx_at. cbn [heap with_heap].
    destruct (decide (c < length (heap s))) as [Hlt|Hge].
    - rewrite lookup_app_l by exact Hlt. reflexivity.
    - rewrite (lookup_ge_None_2 (heap s)) by lia.
      destruct (decide (c = length (heap s))) as [->|Hne].
      + rewrite list_lookup_middle by reflexivity. reflexivity.
      + rewrite lookup_ge_None_2; [reflexivity|]. rewrite length_app. cbn. lia. }
  unfold server_frame. split; [reflexivity|]. split; intros c; rewrite E; reflexivity.
Qed.

Lemma server_frame_bound tid s : server_frame s (bound tid s).
Proof. unfold bound. destruct (handler s !! tid); unfold server_frame; cbn; auto. Qed.

Lemma server_frame_popped c s : server_frame s (popped c s).
Proof.
  unfold popped. cbn zeta. destruct (bool_decide _); unfold server_frame; cbn; auto.
Qed.

Lemma stable_server_disconnect self : stable server_frame (_ClientContext.disconnect self).
Proof.
  intros s. rewrite disconnect_run. cbn [snd].
  etransitivity; [|apply server_frame_write; intros c; split; reflexivity].
  destruct (client_worker _); [|reflexivity]. unfold server_frame. cbn. auto.
Qed.

Lemma stable_server_connect self a peer :
  stable server_frame (_ClientContext.connect self a peer).
Proof.
  assert (Hw : forall upd,
            (forall c, _server (upd c) = _server c /\
                       _connected_with_init (upd c) = _connected_with_init c) ->
            stable server_frame (write self upd)).
  { intros upd Hu. apply stable_modify. intros s. apply server_frame_write, Hu. }
  assert (Hl : forall msg, stable server_frame (logger_warning msg)).
  { intros msg. apply stable_modify. intros s. unfold server_frame. cbn. auto. }
  unfold _ClientContext.connect, _ClientContext.connect_prepare,
    _ClientContext.connect_attempt, _ClientContext._register_serializers,
    worker_server_init, worker_connection_info, alloc_worker,
    _explicitly_enable_client_mode.
  repeat stable_step; auto using stable_server_disconnect.
  all: try solve [apply Hw; intros c; split; reflexivity].
  all: try solve [apply stable_modify; intros s; unfold server_frame; cbn; auto].
  all: try solve [intros s; unfold server_frame; cbn; auto].
  all: intros s; rewrite check_versions_state; unfold server_frame; cbn; auto.
Qed.

Lemma handshake_failure_ext s s' c c' a peer :
  version_info s = version_info s' -> environ s = environ s' ->
  handshake_failure s c a peer = handshake_failure s' c' a peer.
Proof.
  intros Hv He. unfold handshake_failure.
  destruct (Worker_new peer _ _ _ _ _) as [wk|]; [|reflexivity].
  destruct (w_server_init wk); [reflexivity|].
  destruct (w_connection_info wk) as [info|]; [|reflexivity].
  rewrite (check_versions_outcome s s' c c' info _ Hv He). reflexivity.
Qed.

(** The context-level [connect] when every step of the handshake passes. *)
Lemma ctx_connect_success s c a peer wk :
  c < length (heap s) ->
  client_worker (ctx_at s c) = None ->
  Worker_new peer (conn_str a) (secure a) (_credentials a) (metadata a)
    (connection_retries a) = Ok wk ->
  handshake_failure s c a peer = None ->
  let r := _ClientContext.connect c a peer s in
  let w := length (workers s) in
  r.1 = Ok (Some (_conn_info (ctx_at r.2 c))) /\
  w_connection_info wk = Ok (_conn_info (ctx_at r.2 c)) /\
  client_worker (ctx_at r.2 c) = Some w /\
  _client_id (ctx_at r.2 c) = Some (w_client_id wk) /\
  workers r.2 !! w
    = Some (set_init_pushed (_ClientContext.effective_job_config a, ray_init_kwargs a) wk).
Proof.
  intros Hin Hnone Hwk Hok. cbn zeta.
  rewrite (connect_fresh_run _ _ _ _ Hnone). cbn zeta.
  pose proof (stable_connect_prepare c a s) as Fp.
  pose proof (connect_prepare_run s c a) as Hp. cbn zeta in Hp.
  set (s0 := (_ClientContext.connect_prepare c a s).2) in *.
  destruct Fp as (_ & _ & _ & _ & Vp & Ep & Lp & _).
  assert (W0 : workers s0 = workers s).
  { unfold s0. rewrite Hp. cbn [snd workers with_log].
    destruct (_inside_client_test _); reflexivity. }
  assert (Hok0 : handshake_failure s0 c a peer = None)
    by (rewrite (handshake_failure_ext s0 s c c a peer Vp Ep); exact Hok).
  assert (Hin0 : c < length (heap s0)) by (rewrite Lp; exact Hin).
  destruct (connect_attempt_success s0 c a (_ClientContext.effective_job_config a)
              peer wk Hin0 Hwk Hok0) as (A1 & A2 & A3 & A4 & A5 & A6).
  set (att := _ClientContext.connect_attempt c a _ peer s0) in *.
  rewrite A1. cbn [fst snd]. rewrite <- W0.
  split; [reflexivity|]. split; [exact A2|]. split; [exact A3|]. split; [exact A5|].
  rewrite A6, list_lookup_alter_eq, list_lookup_middle by reflexivity. reflexivity.
Qed.

(** X9: [init] on a thread whose active context has neither an embedded
    server nor a transport, when the server starts and every step of the
    handshake with it passes: the call returns the address info of
    [init_and_serve]; the context holds the server handle, a new transport
    and its client id, and is marked as connected through [init]; the
    transport was initialised without job config and without init kwargs;
    and the context is registered under the client id. *)
Theorem init_success s tid h address_info peer wk :
  active s tid < length (heap s) ->
  _server (ctx_at s (active s tid)) = None ->
  client_worker (ctx_at s (active s tid)) = None ->
  Worker_new peer "localhost:50051" false None None 3 = Ok wk ->
  handshake_failure s (active s tid) (connect_defaults "localhost:50051") peer = None ->
  let c := active s tid in
  let r := RayAPIStub.init tid (Ok (h, address_info)) peer s in
  let w := length (workers s) in
  r.1 = Ok address_info /\
  _server (ctx_at r.2 c) = Some h /\
  _connected_with_init (ctx_at r.2 c) = true /\
  client_worker (ctx_at r.2 c) = Some w /\
  _client_id (ctx_at r.2 c) = Some (w_client_id wk) /\
  workers r.2 !! w = Some (set_init_pushed (None, None) wk) /\
  _all_contexts r.2 = <[Some (w_client_id wk) := c]> (_all_contexts s).
Proof.
  intros Hin Hsrv Hnone Hwk Hok. cbn zeta. rewrite stub_init_run. cbn zeta.
  set (c := active s tid) in *.
  rewrite ctx_at_bound, Hsrv.
  set (sw := with_heap (alter (set_server (Some h)) c) (bound tid s)).
  assert (Lw : length (heap sw) = length (heap s))
    by (unfold sw; cbn [heap with_heap]; rewrite length_alter, heap_bound; reflexivity).
  assert (Cw : ctx_at sw c = set_server (Some h) (ctx_at s c)).
  { unfold sw. rewrite ctx_at_write by (rewrite heap_bound; exact Hin).
    rewrite ctx_at_bound. reflexivity. }
  assert (Hin' : c < length (heap sw)) by (rewrite Lw; exact Hin).
  assert (Hnone' : client_worker (ctx_at sw c) = None) by (rewrite Cw; exact Hnone).
  assert (Hok' : handshake_failure sw c (connect_defaults "localhost:50051") peer = None).
  { rewrite <- Hok. apply handshake_failure_ext.
    - unfold sw. cbn [version_info with_heap]. apply version_info_bound.
    - unfold sw. cbn [environ with_heap]. apply environ_bound. }
  destruct (ctx_connect_success sw c (connect_defaults "localhost:50051") peer wk
              Hin' Hnone' Hwk Hok') as (A1 & _ & A3 & A5 & A6).
  destruct (stable_connect c (connect_defaults "localhost:50051") peer sw)
    as (Ra & _ & _ & _ & _ & _ & La & _).
  destruct (stable_server_connect c (connect_defaults "localhost:50051") peer sw)
    as (_ & Sa & _).
  set (r := _ClientContext.connect c (connect_defaults "localhost:50051") peer sw) in *.
  rewrite A1.
  set (s3 := with_heap (alter (set_connected_with_init true) c) r.2).
  assert (C3 : ctx_at s3 c = set_connected_with_init true (ctx_at r.2 c)).
  { unfold s3. rewrite ctx_at_write by (rewrite La; exact Hin'). reflexivity. }
  set (fin := with_all_contexts _ s3).
  assert (E : ctx_at fin c = set_connected_with_init true (ctx_at r.2 c)) by exact C3.
  assert (Ww : length (workers sw) = length (workers s))
    by (unfold sw; cbn [workers with_heap]; rewrite workers_bound; reflexivity).
  cbn [fst snd]. rewrite E.
  cbn [_server _connected_with_init client_worker _client_id set_connected_with_init].
  split; [reflexivity|].
  split; [rewrite Sa, Cw; reflexivity|].
  split; [reflexivity|].
  split; [rewrite A3, Ww; reflexivity|].
  split; [exact A5|].
  split; [rewrite <- Ww; exact A6|].
  unfold fin. cbn [_all_contexts with_all_contexts with_heap].
  rewrite C3. cbn [_client_id set_connected_with_init].
  change (_all_contexts s3) with (_all_contexts r.2).
  rewrite A5, Ra. unfold sw. cbn [_all_contexts with_heap].
  rewrite all_contexts_bound. reflexivity.
Qed.

Lemma init_success_witness :
  active sample_start 0 < length (heap sample_start) /\
  (RayAPIStub.init 0 (Ok (7, sample_info)) (sample_peer "session-1" sample_info)
     sample_start).1 = Ok sample_info /\
  _server (ctx_at sample_connected_via_init 0) = Some 7.
Proof.
  assert (H1 : active sample_start 0 < length (heap sample_start))
    by (vm_compute; lia).
  assert (H2 : handshake_failure sample_start (active sample_start 0)
                 (connect_defaults "localhost:50051")
                 (sample_peer "session-1" sample_info) = None)
    by (vm_compute; reflexivity).
  split; [exact H1|].
  destruct (init_success sample_start 0 7 sample_info
              (sample_peer "session-1" sample_info) (sample_worker "session-1" sample_info)
              H1 eq_refl eq_refl eq_refl H2) as (R1 & R2 & _).
  split; [exact R1|exact R2].
Defined.

(** X10: once [init_and_serve] has returned, [init] stores the server handle
    before it connects, and nothing on the way clears it: whatever the
    outcome of the call, the context holds the handle afterwards.  A failed
    [init] therefore cannot be retried: every further [init] on the thread
    raises the two-instances error and changes nothing. *)
Theorem init_keeps_server_handle s tid h address_info peer :
  active s tid < length (heap s) ->
  _server (ctx_at s (active s tid)) = None ->
  let c := active s tid in
  let r := RayAPIStub.init tid (Ok (h, address_info)) peer s in
  _server (ctx_at r.2 c) = Some h /\
  (forall e, r.1 = Raise e ->
     _connected_with_init (ctx_at r.2 c) = _connected_with_init (ctx_at s c)) /\
  forall serve' peer',
    RayAPIStub.init tid serve' peer' r.2
      = (Raise (Exception "Trying to start two instances of ray via client"), r.2).
Proof.
  intros Hin Hsrv. cbn zeta.
  set (c := active s tid) in *.
  set (r := RayAPIStub.init tid (Ok (h, address_info)) peer s).
  assert (H : _server (ctx_at r.2 c) = Some h /\ handler r.2 !! tid = Some c /\
              (forall e, r.1 = Raise e ->
                 _connected_with_init (ctx_at r.2 c) = _connected_with_init (ctx_at s c))).
  { unfold r. rewrite stub_init_run. cbn zeta. fold c.
    rewrite ctx_at_bound, Hsrv.
    set (sw := with_heap (alter (set_server (Some h)) c) (bound tid s)).
    assert (Cw : ctx_at sw c = set_server (Some h) (ctx_at s c)).
    { unfold sw. rewrite ctx_at_write by (rewrite heap_bound; exact Hin).
      rewrite ctx_at_bound. reflexivity. }
    assert (Hw : handler sw !! tid = Some c) by apply handler_bound.
    destruct (stable_connect c (connect_defaults "localhost:50051") peer sw)
      as (_ & Ha & _ & _ & _ & _ & La & _).
    destruct (stable_server_connect c (connect_defaults "localhost:50051") peer sw)
      as (_ & Sa & Ia).
    set (r' := _ClientContext.connect c (connect_defaults "localhost:50051") peer sw) in *.
    destruct r'.1 as [conn|e]; cbn [fst snd].
    - split; [|split; [|discriminate]].
      + change (_server (ctx_at (with_heap (alter (set_connected_with_init true) c) r'.2) c)
                = Some h).
        rewrite ctx_at_write.
        * cbn [_server set_connected_with_init]. rewrite Sa, Cw. reflexivity.
        * rewrite La. unfold sw. cbn [heap with_heap].
          rewrite length_alter, heap_bound. exact Hin.
      + cbn [handler with_all_contexts with_heap]. rewrite Ha. exact Hw.
    - split; [rewrite Sa, Cw; reflexivity|].
      split; [rewrite Ha; exact Hw|].
      intros _ _. rewrite Ia, Cw. reflexivity. }
  destruct H as (H1 & H2 & H3).
  split; [exact H1|]. split; [exact H3|].
  intros serve' peer'. rewrite stub_init_run. cbn zeta.
  unfold active. rewrite H2. change (default _default_context (Some c)) with c.
  rewrite (bound_fixed _ _ _ H2), H1. reflexivity.
Qed.

Lemma init_keeps_server_handle_witness :
  active sample_start 0 < length (heap sample_start) /\
  _server (ctx_at sample_start (active sample_start 0)) = None /\
  (RayAPIStub.init 0 (Ok (7, sample_info)) (refusing_peer "session-1") sample_start).1
    = Raise (CollaboratorError "initialization failed") /\
  (RayAPIStub.init 0 (Ok (8, sample_info)) (sample_peer "session-1" sample_info)
     (RayAPIStub.init 0 (Ok (7, sample_info)) (refusing_peer "session-1")
        sample_start).2).1
    = Raise (Exception "Trying to start two instances of ray via client").
Proof.
  assert (H1 : active sample_start 0 < length (heap sample_start))
    by (vm_compute; lia).
  split; [exact H1|]. split; [reflexivity|]. split; [vm_compute; reflexivity|].
  destruct (init_keeps_server_handle sample_start 0 7 sample_info
              (refusing_peer "session-1") H1 eq_refl) as (_ & _ & H).
  rewrite H. reflexivity.
Defined.

Lemma stable_server_get_context tid : stable server_frame (RayAPIStub.get_context tid).
Proof. intros s. rewrite get_context_run. apply server_frame_bound. Qed.

Lemma stable_server_stub_connect tid a peer :
  stable server_frame (RayAPIStub.connect tid a peer).
Proof.
  assert (Hr : stable server_frame (RayAPIStub.register_handler tid)).
  { unfold RayAPIStub.register_handler, _ClientContext.id.
    repeat stable_step; try apply stable_server_get_context.
    apply stable_modify. intros s. unfold server_frame. cbn. auto. }
  unfold RayAPIStub.connect.
  repeat stable_step;
    auto using stable_server_get_context, stable_server_connect.
  apply stable_modify. intros s. apply server_frame_write. intros c. split; reflexivity.
Qed.

Lemma stable_server_stub_disconnect tid : stable server_frame (RayAPIStub.disconnect tid).
Proof.
  unfold RayAPIStub.disconnect, all_contexts_values, _ClientContext.id,
    _explicitly_disable_client_mode.
  repeat stable_step;
    auto using stable_server_get_context, stable_server_disconnect.
  all: try solve [apply stable_modify; intros s; unfold server_frame; cbn; auto].
  apply stable_for_each; [exact _|]. intros c _. apply stable_server_disconnect.
Qed.

Lemma stable_server_set_context tid cxt :
  stable server_frame (RayAPIStub.set_context tid cxt).
Proof.
  intros s. rewrite set_context_run. cbn [snd].
  etransitivity; [apply (server_frame_bound tid)|].
  destruct cxt as [c|].
  - unfold server_frame. cbn. auto.
  - etransitivity; [apply server_frame_alloc|]. unfold server_frame. cbn. auto.
Qed.

(** X11: connecting and disconnecting never touch an embedded server.  The
    facade's [connect], [disconnect] and [set_context],
    [context_from_client_id] and entering a guard leave every context's
    server handle and [_connected_with_init] flag as they are and stop no
    server.  So a [disconnect] does not undo an [init]: while the active
    context holds a server handle, [init] after [disconnect] raises the
    two-instances error. *)
Theorem server_outlives_disconnect s tid :
  (forall a peer, server_frame s (RayAPIStub.connect tid a peer s).2) /\
  server_frame s (RayAPIStub.disconnect tid s).2 /\
  (forall cxt, server_frame s (RayAPIStub.set_context tid cxt s).2) /\
  (forall k, server_frame s (context_from_client_id k s).2) /\
  (forall g, server_frame s (ManagedContext.__enter__ g tid s).2) /\
  (forall serve peer, _server (ctx_at s (active s tid)) <> None ->
     (RayAPIStub.init tid serve peer (RayAPIStub.disconnect tid s).2).1
       = Raise (Exception "Trying to start two instances of ray via client")).
Proof.
  split; [intros a peer; apply stable_server_stub_connect|].
  split; [apply stable_server_stub_disconnect|].
  split; [intros cxt; apply stable_server_set_context|].
  split.
  { intros k. unfold context_from_client_id, bind, gets.
    destruct (_all_contexts s !! k) as [c|]; [|reflexivity].
    unfold read, gets.
    destruct (guard_init_state (_conn_info (ctx_at s c)) (Some c) s) as [->|(g & -> & _)];
      [reflexivity|]. unfold server_frame. cbn. auto. }
  split.
  { intros g. unfold ManagedContext.__enter__, bind. rewrite swap_context_run.
    cbn [snd]. destruct (ManagedContext.guard_at s g); [|reflexivity].
    etransitivity; [apply (server_frame_bound tid)|]. unfold server_frame. cbn. auto. }
  intros serve peer Hsrv. rewrite stub_init_run. cbn zeta.
  destruct (stable_session_disconnect tid s) as (_ & _ & Ha & _).
  destruct (stable_server_stub_disconnect tid s) as (_ & Hs & _).
  rewrite ctx_at_bound, Ha, Hs.
  destruct (_server (ctx_at s (active s tid))); [reflexivity|contradiction].
Qed.

(** X12: [shutdown] of a context always returns and leaves the context
    without transport and without server handle; [shutdown_with_server] is
    called exactly when the context held a server handle, once, with that
    handle and the [_exiting_interpreter] flag; on a context without server
    handle it does what [disconnect] does; and a second [shutdown] changes
    nothing, so no server is stopped twice. *)
Theorem shutdown_stops_server_once s c e :
  let r := _ClientContext.shutdown c e s in
  r.1 = Ok tt /\
  client_worker (ctx_at r.2 c) = None /\
  _server (ctx_at r.2 c) = None /\
  stopped_servers r.2
    = (stopped_servers s ++ match _server (ctx_at s c) with
                            | Some h => [(h, e)]
                            | None => []
                            end)%list /\
  (_server (ctx_at s c) = None -> r.2 = (_ClientContext.disconnect c s).2) /\
  forall e', _ClientContext.shutdown c e' r.2 = (Ok tt, r.2).
Proof.
  cbn zeta.
  assert (Hcl : client_worker (ctx_at (_ClientContext.shutdown c e s).2 c) = None)
    by apply shutdown_clears.
  rewrite shutdown_run in *. cbn zeta in *. cbn [fst snd] in *.
  destruct (stable_server_disconnect c s) as (S1 & S2 & _).
  set (s1 := (_ClientContext.disconnect c s).2) in *.
  rewrite <- (S2 c).
  assert (H : forall fin, client_worker (ctx_at fin c) = None ->
                _server (ctx_at fin c) = None ->
                forall e', _ClientContext.shutdown c e' fin = (Ok tt, fin)).
  { intros fin Hw Hs e'. rewrite shutdown_run. cbn zeta.
    rewrite (disconnect_fresh _ _ Hw). cbn [snd]. rewrite Hs. reflexivity. }
  destruct (_server (ctx_at s1 c)) as [h|] eqn:Hsrv.
  - assert (Hin : c < length (heap s1)).
    { destruct (decide (c < length (heap s1))) as [Hlt|Hge]; [exact Hlt|].
      rewrite ctx_at_out_of_range in Hsrv by lia. discriminate. }
    assert (Hs : _server (ctx_at (with_heap (alter (set_server None) c)
                   (with_stopped_servers (fun l => (l ++ [(h, e)])%list) s1)) c) = None).
    { rewrite ctx_at_write by exact Hin. reflexivity. }
    split; [reflexivity|]. split; [exact Hcl|]. split; [exact Hs|].
    split; [cbn [stopped_servers with_heap with_stopped_servers]; rewrite S1; reflexivity|].
    split; [discriminate|]. apply H; [exact Hcl|exact Hs].
  - split; [reflexivity|]. split; [exact Hcl|]. split; [exact Hsrv|].
    split; [rewrite S1, app_nil_r; reflexivity|].
    split; [reflexivity|]. apply H; [exact Hcl|exact Hsrv].
Qed.

(** X13: on a thread bound to the default context, the facade's [shutdown]
    reaches the registered contexts only.  A context that is not registered
    is left as it is, the default context included; so the server handle
    that a failed [init] left on a context survives the [shutdown], and
    [init] on a thread bound to that context keeps raising the two-instances
    error. *)
Theorem shutdown_reaches_registered_only s tid e c :
  active s tid = _default_context ->
  (forall k, _all_contexts s !! k <> Some c) ->
  let r := RayAPIStub.shutdown tid e s in
  heap r.2 !! c = heap s !! c /\
  forall t serve peer,
    active s t = c -> _server (ctx_at s c) <> None ->
    (RayAPIStub.init t serve peer r.2).1
      = Raise (Exception "Trying to start two instances of ray via client").
Proof.
  intros Hact Hunreg. cbn zeta.
  assert (Hheap : heap (RayAPIStub.shutdown tid e s).2 !! c = heap s !! c).
  { rewrite stub_shutdown_run. cbn [snd]. rewrite Hact.
    change (bool_decide (_default_context = _default_context)) with true. cbv iota.
    match goal with |- context [popped ?c0 ?t] =>
      destruct (popped_facts c0 t) as (_ & -> & _) end.
    cbn [heap with_all_contexts].
    rewrite (for_each_untouched (fun c0 => _ClientContext.shutdown c0 e)).
    - apply (f_equal (fun h => h !! c)), heap_bound.
    - intros c0 t. rewrite shutdown_run. reflexivity.
    - intros c0. apply stable_ctx_shutdown.
    - rewrite all_contexts_bound. intros Hin. apply list_elem_of_fmap in Hin.
      destruct Hin as ([k c'] & -> & Hin). apply elem_of_map_to_list in Hin.
      exact (Hunreg k Hin). }
  split; [exact Hheap|].
  intros t serve peer Ht Hsrv. rewrite stub_init_run. cbn zeta.
  destruct (stable_session_shutdown tid e s) as (_ & _ & Ha & _).
  rewrite ctx_at_bound, Ha, Ht. unfold ctx_at at 1. rewrite Hheap.
  fold (ctx_at s c). destruct (_server (ctx_at s c)); [reflexivity|contradiction].
Qed.

Lemma shutdown_reaches_registered_only_witness :
  active sample_failed_init 0 = _default_context /\
  _all_contexts sample_failed_init = ∅ /\
  _server (ctx_at sample_failed_init 0) = Some 7 /\
  (RayAPIStub.init 0 (Ok (8, sample_info)) (sample_peer "session-1" sample_info)
     (RayAPIStub.shutdown 0 false sample_failed_init).2).1
    = Raise (Exception "Trying to start two instances of ray via client").
Proof.
  assert (Hreg : _all_contexts sample_failed_init = ∅) by (vm_compute; reflexivity).
  assert (Hun : forall k, _all_contexts sample_failed_init !! k <> Some 0)
    by (intros k; rewrite Hreg, lookup_empty; discriminate).
  assert (Hact : active sample_failed_init 0 = _default_context)
    by (vm_compute; reflexivity).
  split; [exact Hact|]. split; [exact Hreg|]. split; [vm_compute; reflexivity|].
  destruct (shutdown_reaches_registered_only sample_failed_init 0 false 0 Hact Hun)
    as (_ & H).
  apply (H 0); [exact Hact|vm_compute; discriminate].
Defined.

(** ** Leaving a guard without disconnecting *)

(** X14: leaving a guard disconnects nothing when the thread's active
    context is a connected context other than the default one (a session
    created with [allow_multiple]), or holds no transport at all: [__exit__]
    then only swaps the guard's context back in, and the contexts, the
    transports, the registry and client mode are as before. *)
Theorem exit_only_swaps s g tid :
  (connected s (active s tid) = true /\ active s tid <> _default_context) \/
  client_worker (ctx_at s (active s tid)) = None ->
  let r := ManagedContext.__exit__ g tid s in
  r = ManagedContext._swap_context g tid (bound tid s) /\
  heap r.2 = heap s /\
  workers r.2 = workers s /\
  _all_contexts r.2 = _all_contexts s /\
  client_mode r.2 = client_mode s.
Proof.
  intros H. cbn zeta.
  assert (E : ManagedContext._disconnect_with_context g tid false s = (Ok tt, bound tid s)).
  { unfold ManagedContext._disconnect_with_context. unfold bind at 1.
    rewrite stub_is_connected_run.
    destruct H as [[Hc Hnd]|Hw].
    - rewrite Hc. unfold bind. rewrite is_default_run, active_bound.
      rewrite bool_decide_false by exact Hnd. cbn [orb when ret].
      rewrite bound_bound. reflexivity.
    - assert (Hc : connected s (active s tid) = false)
        by (unfold connected; rewrite Hw; reflexivity).
      rewrite Hc. unfold bind at 1. rewrite ray_worker_run, ctx_at_bound, active_bound, Hw.
      rewrite bound_bound. reflexivity. }
  assert (R : ManagedContext.__exit__ g tid s
              = ManagedContext._swap_context g tid (bound tid s)).
  { unfold ManagedContext.__exit__, bind. rewrite E. reflexivity. }
  rewrite R. split; [reflexivity|].
  rewrite swap_context_run. cbn [snd].
  destruct (ManagedContext.guard_at (bound tid s) g);
    cbn [heap workers _all_contexts client_mode with_guards with_handler];
    rewrite ?bound_bound, heap_bound, workers_bound, all_contexts_bound, client_mode_bound;
    repeat split.
Qed.

Lemma exit_only_swaps_witness :
  connected sample_guarded (active sample_guarded 1) = true /\
  active sample_guarded 1 <> _default_context /\
  active (ManagedContext.__exit__ 0 1 sample_guarded).2 1 = _default_context /\
  _all_contexts (ManagedContext.__exit__ 0 1 sample_guarded).2
    = _all_contexts sample_guarded.
Proof.
  assert (H1 : connected sample_guarded (active sample_guarded 1) = true)
    by (vm_compute; reflexivity).
  assert (H2 : active sample_guarded 1 <> _default_context)
    by (vm_compute; discriminate).
  split; [exact H1|]. split; [exact H2|]. split; [vm_compute; reflexivity|].
  apply (exit_only_swaps sample_guarded 0 1 (or_introl (conj H1 H2))).
Defined.

(** ** Client mode *)

Lemma client_mode_connect_attempt self a jc peer s :
  client_mode (_ClientContext.connect_attempt self a jc peer s).2 = client_mode s.
Proof.
  rewrite connect_attempt_run.
  destruct (Worker_new peer _ _ _ _ _) as [wk|]; [|reflexivity]. cbn zeta.
  destruct (w_server_init wk); [reflexivity|].
  destruct (w_connection_info wk) as [info|]; [|reflexivity].
  match goal with |- context [_ClientContext._check_versions ?x ?y ?z ?t] =>
    pose proof (check_versions_state t x y z) as Hc; cbn zeta in Hc;
    destruct (_ClientContext._check_versions x y z t) as [[[]|e] s4] end;
    cbn [fst snd] in *.
  - destruct (serialization_addons_apply peer); cbn [snd]; rewrite Hc; reflexivity.
  - rewrite Hc. reflexivity.
Qed.

(** X15: the facade's [connect] on an existing context that holds no
    transport switches the process to client mode unless the stub is inside
    a client test, and it does so before the handshake: the rollback of a
    failed handshake does not switch client mode back.  On a context that
    already holds a transport, [connect] leaves client mode as it is. *)
Theorem connect_client_mode s tid a peer :
  active s tid < length (heap s) ->
  client_mode (RayAPIStub.connect tid a peer s).2
  = match client_worker (ctx_at s (active s tid)) with
    | Some _ => client_mode s
    | None => if stub_inside_client_test s then client_mode s else true
    end.
Proof.
  intros Hin. rewrite stub_connect_run. cbn zeta.
  set (c := active s tid) in *.
  set (sw := with_heap _ (bound tid s)).
  assert (Cw : ctx_at sw c = set_inside_client_test (stub_inside_client_test s) (ctx_at s c)).
  { unfold sw. rewrite ctx_at_write by (rewrite heap_bound; exact Hin).
    rewrite ctx_at_bound. reflexivity. }
  assert (Mw : client_mode sw = client_mode s)
    by (unfold sw; cbn [client_mode with_heap]; apply client_mode_bound).
  assert (Hfin : client_mode (_ClientContext.connect c a peer sw).2
                 = match client_worker (ctx_at s c) with
                   | Some _ => client_mode s
                   | None => if stub_inside_client_test s then client_mode s else true
                   end).
  { destruct (client_worker (ctx_at s c)) as [w|] eqn:Hw.
    - assert (Hw' : client_worker (ctx_at sw c) = Some w) by (rewrite Cw; exact Hw).
      rewrite (connect_already_connected _ _ _ _ _ Hw').
      destruct (_connected_with_init _); exact Mw.
    - assert (Hw' : client_worker (ctx_at sw c) = None) by (rewrite Cw; exact Hw).
      rewrite (connect_fresh_run _ _ _ _ Hw'). cbn zeta.
      pose proof (connect_prepare_run sw c a) as Hp. cbn zeta in Hp.
      set (s0 := (_ClientContext.connect_prepare c a sw).2) in *.
      assert (M0 : client_mode s0
                   = if stub_inside_client_test s then client_mode s else true).
      { unfold s0. rewrite Hp. cbn [snd client_mode with_log]. rewrite Cw.
        cbn [_inside_client_test set_inside_client_test].
        destruct (stub_inside_client_test s); [exact Mw|reflexivity]. }
      pose proof (client_mode_connect_attempt c a (_ClientContext.effective_job_config a)
                    peer s0) as Ma.
      set (att := _ClientContext.connect_attempt c a _ peer s0) in *.
      destruct att.1 as [v|e]; cbn [snd]; [rewrite Ma; exact M0|].
      destruct (stable_teardown_disconnect c att.2) as (_&_&_&T4&_).
      rewrite T4, Ma. exact M0. }
  destruct (_ClientContext.connect c a peer sw).1; exact Hfin.
Qed.

Lemma connect_client_mode_witness :
  active sample_start 0 < length (heap sample_start) /\
  client_mode sample_start = false /\
  (RayAPIStub.connect 0 (connect_defaults "head:10001") (refusing_peer "session-1")
     sample_start).1 = Raise (CollaboratorError "initialization failed") /\
  client_mode (RayAPIStub.connect 0 (connect_defaults "head:10001")
                 (refusing_peer "session-1") sample_start).2 = true.
Proof.
  assert (H1 : active sample_start 0 < length (heap sample_start))
    by (vm_compute; lia).
  split; [exact H1|]. split; [reflexivity|]. split; [vm_compute; reflexivity|].
  rewrite (connect_client_mode sample_start 0 (connect_defaults "head:10001")
             (refusing_peer "session-1") H1).
  reflexivity.
Defined.

(** ** Invariants of the reachable states *)

(** X16: in every state the process reaches, [None] is not a key of the
    registry; the key of an entry is the client id stored in the context it
    maps to, so no context is registered under two ids; and every registry
    entry, every thread's active context and every context held by a guard
    is an existing context object. *)
Theorem reachable_registry_wellformed s :
  reachable s ->
  _all_contexts s !! None = None /\
  (forall k c, _all_contexts s !! k = Some c ->
     c < length (heap s) /\ _client_id (ctx_at s c) = k) /\
  (forall k1 k2 c, _all_contexts s !! k1 = Some c -> _all_contexts s !! k2 = Some c ->
     k1 = k2) /\
  (forall tid, active s tid < length (heap s)) /\
  (forall g c, ManagedContext.guard_at s g = Some c -> c < length (heap s)).
Proof.
  intros R. apply reachable_consistent in R.
  pose proof (active_in_range s) as Ha.
  destruct R as (C0 & C1 & C2 & C3 & C4 & C5 & C6).
  split.
  { destruct (_all_contexts s !! None) as [c|] eqn:E; [|reflexivity].
    destruct (C1 None c E) as [Hw Hid]. destruct (C4 c Hw Hid). }
  split.
  { intros k c Hk. destruct (C1 k c Hk) as [Hw Hid].
    split; [apply connected_in_range, Hw|exact Hid]. }
  split.
  { intros k1 k2 c H1 H2. destruct (C1 k1 c H1) as [_ <-].
    destruct (C1 k2 c H2) as [_ <-]. reflexivity. }
  split; [|exact C6].
  intros tid. apply Ha.
  exact (conj C0 (conj C1 (conj C2 (conj C3 (conj C4 (conj C5 C6)))))).
Qed.

Lemma reachable_registry_wellformed_witness :
  reachable sample_run /\
  _all_contexts sample_run !! None = None /\
  active sample_run 1 < length (heap sample_run).
Proof.
  split; [exact sample_run_reachable|].
  destruct (reachable_registry_wellformed sample_run sample_run_reachable)
    as (H1 & _ & _ & H4 & _).
  split; [exact H1|apply H4].
Defined.

(** ** The order of a broadcast *)

Lemma disconnect_commute x y s :
  (_ClientContext.disconnect y (_ClientContext.disconnect x s).2).2
  = (_ClientContext.disconnect x (_ClientContext.disconnect y s).2).2.
Proof.
  destruct (decide (x = y)) as [->|Hne]; [reflexivity|].
  assert (E : forall a b t, a <> b ->
            client_worker (ctx_at (_ClientContext.disconnect a t).2 b)
            = client_worker (ctx_at t b)).
  { intros a b t Hab. rewrite disconnect_run. cbn [snd].
    rewrite ctx_at_write_ne by exact Hab.
    destruct (client_worker (ctx_at t a)); reflexivity. }
  rewrite (disconnect_run (_ClientContext.disconnect x s).2 y).
  rewrite (disconnect_run (_ClientContext.disconnect y s).2 x).
  rewrite (E x y s Hne), (E y x s (not_eq_sym Hne)).
  rewrite !disconnect_run. cbn [snd].
  destruct s as [h w g ac hd t cm ss vi env lg].
  destruct (client_worker (ctx_at _ x)) as [wx|], (client_worker (ctx_at _ y)) as [wy|];
    unfold with_heap, with_workers; cbn; f_equal;
    try (apply list_alter_alter_ne; congruence).
  destruct (decide (wx = wy)) as [->|Hw]; [reflexivity|].
  apply list_alter_alter_ne. congruence.
Qed.

Lemma disconnect_then {A} c (m : M A) s :
  (_ClientContext.disconnect c >>; m) s = m (_ClientContext.disconnect c s).2.
Proof. unfold bind. rewrite disconnect_run. reflexivity. Qed.

(** X17: the per-context [disconnect] calls of a broadcast commute: the
    loop over the registered contexts returns and leaves the same state in
    whatever order it visits them, also when a context is visited more than
    once. *)
Theorem disconnect_order_irrelevant (l l' : list nat) s :
  l ≡ₚ l' ->
  for_each l _ClientContext.disconnect s = for_each l' _ClientContext.disconnect s.
Proof.
  intros Hp. revert s.
  induction Hp as [|x l l' _ IH|x y l|l1 l2 l3 _ IH1 _ IH2]; intros s.
  - reflexivity.
  - cbn [for_each]. rewrite !disconnect_then. apply IH.
  - cbn [for_each]. rewrite !disconnect_then, disconnect_commute. reflexivity.
  - rewrite IH1. apply IH2.
Qed.

Lemma disconnect_order_irrelevant_witness :
  [0; 1] ≡ₚ [1; 0] /\
  for_each [0; 1] _ClientContext.disconnect sample_two_sessions
  = for_each [1; 0] _ClientContext.disconnect sample_two_sessions.
Proof.
  assert (H : [0; 1] ≡ₚ [1; 0]) by apply perm_swap.
  split; [exact H|].
  apply (disconnect_order_irrelevant [0; 1] [1; 0] sample_two_sessions H).
Defined.

(** ** A session from [connect] to [disconnect] *)

(** X18: on a thread bound to a context other than the default one, a
    successful [connect] followed by [disconnect] restores the registry (the
    client id being new to it) and touches no other context; the context is
    without transport again and [is_connected()] is false; the transport the
    session used is closed.  What the session leaves behind is the client id
    stored in the context. *)
Theorem connect_disconnect_round_trip s tid a peer wk :
  active s tid <> _default_context ->
  active s tid < length (heap s) ->
  client_worker (ctx_at s (active s tid)) = None ->
  Worker_new peer (conn_str a) (secure a) (_credentials a) (metadata a)
    (connection_retries a) = Ok wk ->
  handshake_failure s (active s tid) a peer = None ->
  _all_contexts s !! Some (w_client_id wk) = None ->
  let c := active s tid in
  let s1 := (RayAPIStub.connect tid a peer s).2 in
  let s2 := (RayAPIStub.disconnect tid s1).2 in
  _all_contexts s2 = _all_contexts s /\
  (forall c', c' <> c -> heap s2 !! c' = heap s !! c') /\
  client_worker (ctx_at s2 c) = None /\
  RayAPIStub.is_connected tid s2 = (Ok false, s2) /\
  _client_id (ctx_at s2 c) = Some (w_client_id wk) /\
  workers s2 !! length (workers s)
    = Some (set_closed
              (set_init_pushed (_ClientContext.effective_job_config a, ray_init_kwargs a)
                 wk)).
Proof.
  intros Hnd Hin Hnone Hwk Hok Hnew. cbn zeta.
  destruct (stub_connect_success s tid a peer wk Hin Hnone Hwk Hok)
    as ((_ & A2 & A3 & A4 & A5 & _ & A7) & Hh).
  cbn zeta in *.
  set (c := active s tid) in *.
  set (s1 := (RayAPIStub.connect tid a peer s).2) in *.
  assert (Ha : active s1 tid = c) by (unfold active; rewrite Hh; reflexivity).
  assert (Hnd1 : active s1 tid <> _default_context) by (rewrite Ha; exact Hnd).
  destruct (stub_disconnect_local s1 tid Hnd1) as (_ & B2 & B3 & B4 & B5 & B6 & _).
  cbn zeta in *. rewrite Ha in *.
  set (s2 := (RayAPIStub.disconnect tid s1).2) in *.
  destruct (stable_session_disconnect tid s1) as (_ & _ & Hact & Hhd).
  fold s2 in Hact, Hhd.
  split; [rewrite B4, A3, A4; apply delete_insert_id, Hnew|].
  split; [intros c' Hc'; rewrite (B5 c' Hc'); apply A7, Hc'|].
  split; [exact B2|].
  split.
  { rewrite stub_is_connected_run, (bound_fixed _ _ _ (Hhd tid c Hh)).
    rewrite Hact, Ha. unfold connected. rewrite B2. reflexivity. }
  split; [rewrite B3; exact A3|].
  rewrite B6, A2, list_lookup_alter_eq, A5. reflexivity.
Qed.

Lemma connect_disconnect_round_trip_witness :
  active (RayAPIStub.set_context 1 None sample_connected).2 1 <> _default_context /\
  _all_contexts
    (RayAPIStub.disconnect 1
       (RayAPIStub.connect 1 (connect_defaults "head:10001")
          (sample_peer "session-2" sample_info)
          (RayAPIStub.set_context 1 None sample_connected).2).2).2
  = _all_contexts sample_connected.
Proof.
  set (s := (RayAPIStub.set_context 1 None sample_connected).2).
  assert (H1 : active s 1 <> _default_context) by (vm_compute; discriminate).
  assert (H2 : active s 1 < length (heap s)) by (vm_compute; lia).
  assert (H3 : handshake_failure s (active s 1) (connect_defaults "head:10001")
                 (sample_peer "session-2" sample_info) = None)
    by (vm_compute; reflexivity).
  assert (H4 : _all_contexts s !! Some "session-2" = None) by (vm_compute; reflexivity).
  split; [exact H1|].
  apply (connect_disconnect_round_trip s 1 (connect_defaults "head:10001")
           (sample_peer "session-2" sample_info) (sample_worker "session-2" sample_info)
           H1 H2 eq_refl eq_refl H3 H4).
Defined.

(** ** The [_connected_with_init] flag *)

#[export] Instance init_flag_kept_preorder : PreOrder init_flag_kept.
Proof. split; unfold init_flag_kept; [intros s c H; exact H|intros s1 s2 s3; auto]. Qed.

Lemma stable_flag_of_server {A} (m : M A) :
  stable server_frame m -> stable init_flag_kept m.
Proof.
  apply stable_weaken. intros s s' (_ & _ & H) c Hc. rewrite H. exact Hc.
Qed.

Lemma stable_flag_write self upd :
  (forall c, _connected_with_init c = true -> _connected_with_init (upd c) = true) ->
  stable init_flag_kept (write self upd).
Proof.
  intros Hu s c Hc. cbn [snd write modify]. rewrite ctx_at_alter.
  repeat case_decide; auto.
Qed.

Lemma stable_flag_modify f :
  (forall s c, ctx_at (f s) c = ctx_at s c) -> stable init_flag_kept (modify f).
Proof. intros Hf s c Hc. cbn [snd modify]. rewrite Hf. exact Hc. Qed.

Lemma stable_server_stub_reads tid :
  stable server_frame (RayAPIStub.is_default tid) /\
  stable server_frame (RayAPIStub.is_connected tid) /\
  (forall name, stable server_frame (RayAPIStub.__getattr__ tid name)).
Proof.
  split; [intros s; rewrite is_default_run; apply server_frame_bound|].
  split; [intros s; rewrite stub_is_connected_run; apply server_frame_bound|].
  intros name s. unfold RayAPIStub.__getattr__, bind. rewrite get_context_run, getattr_run.
  repeat (match goal with |- context [if ?b then _ else _] => destruct b end);
    apply server_frame_bound.
Qed.

Lemma stable_server_swap_context g tid :
  stable server_frame (ManagedContext._swap_context g tid).
Proof.
  intros s. rewrite swap_context_run. cbn [snd].
  destruct (ManagedContext.guard_at s g); [|reflexivity].
  etransitivity; [apply (server_frame_bound tid)|]. unfold server_frame. cbn. auto.
Qed.

Lemma stable_server_context_from_client_id k :
  stable server_frame (context_from_client_id k).
Proof.
  intros s. unfold context_from_client_id, bind, gets.
  destruct (_all_contexts s !! k) as [c|]; [|reflexivity].
  unfold read, gets.
  destruct (guard_init_state (_conn_info (ctx_at s c)) (Some c) s) as [->|(g & -> & _)];
    [reflexivity|]. unfold server_frame. cbn. auto.
Qed.

Lemma stable_flag_ctx_shutdown c e :
  stable init_flag_kept (_ClientContext.shutdown c e).
Proof.
  unfold _ClientContext.shutdown, shutdown_with_server.
  repeat stable_step.
  - apply stable_flag_of_server, stable_server_disconnect.
  - apply stable_flag_modify. reflexivity.
  - apply stable_flag_write. auto.
Qed.

Lemma stable_flag_stub_shutdown tid e :
  stable init_flag_kept (RayAPIStub.shutdown tid e).
Proof.
  unfold RayAPIStub.shutdown, all_contexts_values, _ClientContext.id,
    _explicitly_disable_client_mode.
  repeat stable_step;
    auto using stable_flag_ctx_shutdown, stable_flag_of_server, stable_server_get_context.
  all: try solve [apply stable_flag_modify; reflexivity].
  apply stable_for_each; [exact _|]. intros c _. apply stable_flag_ctx_shutdown.
Qed.

Lemma stable_flag_stub_init tid serve peer :
  stable init_flag_kept (RayAPIStub.init tid serve peer).
Proof.
  unfold RayAPIStub.init, _ClientContext.init, RayAPIStub.register_handler,
    _ClientContext.id.
  repeat stable_step;
    auto using stable_flag_of_server, stable_server_get_context, stable_server_connect.
  all: try solve [apply stable_flag_modify; reflexivity].
  all: apply stable_flag_write; auto.
Qed.

Lemma stable_flag_disconnect_with_context g tid force :
  stable init_flag_kept (ManagedContext._disconnect_with_context g tid force).
Proof.
  destruct (stable_server_stub_reads tid) as (H1 & H2 & H3).
  unfold ManagedContext._disconnect_with_context, ManagedContext.ray_worker,
    ManagedContext.global_worker_node, ray_client_connect_disconnect, logger_debug.
  repeat stable_step;
    auto using stable_flag_of_server, stable_server_stub_disconnect,
      stable_flag_stub_shutdown.
  apply stable_flag_modify. reflexivity.
Qed.

(** X19: nothing in the module resets [_connected_with_init]: whatever call
    a thread makes through the facade or a guard, a context that is marked
    as connected through [init] stays marked, also across [disconnect] and
    [shutdown].  On such a context every later [connect] made while it holds
    a transport returns [None] and changes nothing, whether or not [init]
    made the current connection. *)
Theorem connected_with_init_never_reset s tid call :
  init_flag_kept s (exec tid call s).2 /\
  forall c a peer w,
    _connected_with_init (ctx_at s c) = true ->
    client_worker (ctx_at (exec tid call s).2 c) = Some w ->
    _ClientContext.connect c a peer (exec tid call s).2 = (Ok None, (exec tid call s).2).
Proof.
  assert (H : stable init_flag_kept (exec tid call)).
  { destruct (stable_server_stub_reads tid) as (H1 & H2 & H3).
    destruct call; unfold exec, void; repeat stable_step;
      auto using stable_flag_of_server, stable_server_stub_connect,
        stable_server_stub_disconnect, stable_flag_stub_init, stable_flag_stub_shutdown,
        stable_server_get_context, stable_server_set_context.
    - intros s0. reflexivity.
    - apply stable_flag_of_server, stable_server_context_from_client_id.
    - unfold ManagedContext.__enter__. repeat stable_step.
      apply stable_flag_of_server, stable_server_swap_context.
    - unfold ManagedContext.__exit__. repeat stable_step.
      + apply stable_flag_disconnect_with_context.
      + apply stable_flag_of_server, stable_server_swap_context.
    - unfold ManagedContext.disconnect. repeat stable_step.
      + apply stable_flag_of_server, stable_server_swap_context.
      + apply stable_flag_disconnect_with_context.
      + apply stable_flag_of_server, stable_server_swap_context.
    - unfold ManagedContext.id, _ClientContext.id. repeat stable_step. }
  split; [apply H|].
  intros c a peer w Hflag Hw. rewrite (connect_already_connected _ _ _ _ _ Hw).
  rewrite (H s c Hflag). reflexivity.
Qed.

Lemma connected_with_init_never_reset_witness :
  _connected_with_init (ctx_at sample_connected_via_init 0) = true /\
  _connected_with_init
    (ctx_at (exec 0 (CallShutdown false) sample_connected_via_init).2 0) = true.
Proof.
  assert (H : _connected_with_init (ctx_at sample_connected_via_init 0) = true)
    by (vm_compute; reflexivity).
  split; [exact H|].
  apply (connected_with_init_never_reset sample_connected_via_init 0 (CallShutdown false)).
  exact H.
Defined.

(** ** The guards of the reachable states *)

#[export] Instance guards_frame_preorder : PreOrder guards_frame.
Proof.
  split; [intros s; unfold guards_frame; reflexivity|].
  intros s1 s2 s3. unfold guards_frame. congruence.
Qed.

Lemma stable_guards_session {A} (m : M A) :
  stable session_frame m -> stable guards_frame m.
Proof. apply stable_weaken. intros s s' (H & _). exact H. Qed.

Lemma stable_guards_ctx {A} (m : M A) c :
  stable (ctx_frame c) m -> stable guards_frame m.
Proof. intros H. apply stable_guards_session, (stable_session_ctx _ c), H. Qed.

Lemma stable_guards_register tid : stable guards_frame (RayAPIStub.register_handler tid).
Proof.
  unfold RayAPIStub.register_handler, _ClientContext.id. repeat stable_step.
  - apply stable_guards_session, stable_session_get_context.
  - apply stable_modify. reflexivity.
Qed.

Lemma stable_guards_stub_connect tid a peer :
  stable guards_frame (RayAPIStub.connect tid a peer).
Proof.
  unfold RayAPIStub.connect. repeat stable_step;
    auto using stable_guards_register;
    try (apply stable_guards_session, stable_session_get_context).
  - apply (stable_guards_ctx _ a0), stable_write.
  - apply (stable_guards_ctx _ a3), stable_connect.
Qed.

Lemma stable_guards_stub_init tid serve peer :
  stable guards_frame (RayAPIStub.init tid serve peer).
Proof.
  unfold RayAPIStub.init. repeat stable_step;
    auto using stable_guards_register;
    try (apply stable_guards_session, stable_session_get_context).
  apply (stable_guards_ctx _ a), stable_ctx_init.
Qed.

Lemma guards_held_frame s s' : guards_frame s s' -> guards_held s -> guards_held s'.
Proof.
  unfold guards_frame, guards_held, ManagedContext.guard_at. intros -> H. exact H.
Qed.

Lemma guards_held_swap g tid s :
  guards_held s -> guards_held (ManagedContext._swap_context g tid s).2.
Proof.
  intros H. rewrite swap_context_run. cbn [snd].
  destruct (ManagedContext.guard_at s g) as [c|] eqn:Hg; [|exact H].
  intros g' Hlt. unfold ManagedContext.guard_at in *.
  cbn [guards with_guards with_handler] in *. rewrite guards_bound in *.
  rewrite length_alter in Hlt.
  destruct (decide (g = g')) as [<-|Hne].
  - rewrite list_lookup_alter_eq. destruct (guards s !! g); [discriminate|discriminate].
  - rewrite list_lookup_alter_ne by exact Hne. apply H, Hlt.
Qed.

Lemma guards_held_exec s tid call : guards_held s -> guards_held (exec tid call s).2.
Proof.
  intros H.
  assert (Hs : forall {A} (m : M A), stable guards_frame m -> guards_held (void m s).2).
  { intros A m Hm. apply (guards_held_frame s); [|exact H].
    unfold void. refine (stable_bind _ _ _ Hm _ s). intros ?. stable_step. }
  destruct call; cbn [exec].
  - apply Hs, stable_guards_stub_connect.
  - apply (guards_held_frame s); [|exact H].
    apply stable_guards_session, stable_session_disconnect.
  - apply Hs, stable_guards_stub_init.
  - apply (guards_held_frame s); [|exact H].
    apply stable_guards_session, stable_session_shutdown.
  - apply Hs, stable_guards_session, stable_session_get_context.
  - apply Hs. intros t. rewrite set_context_run. unfold guards_frame. cbn [snd].
    destruct cxt; cbn [guards with_handler with_heap]; apply guards_bound.
  - apply Hs. intros t. rewrite is_default_run. apply guards_bound.
  - apply Hs. intros t. rewrite stub_is_connected_run. apply guards_bound.
  - apply Hs. unfold RayAPIStub.__getattr__. repeat stable_step.
    + apply stable_guards_session, stable_session_get_context.
    + apply (stable_guards_ctx _ a), stable_ctx_getattr.
  - apply Hs. intros t. reflexivity.
  - unfold void, context_from_client_id, bind, gets.
    destruct (_all_contexts s !! client_id) as [c|]; [|exact H].
    unfold read, gets.
    pose proof (guard_init_state (_conn_info (ctx_at s c)) (Some c) s) as Hg.
    destruct (ManagedContext.__init__ (_conn_info (ctx_at s c)) (Some c) s) as [[g1|e] s1];
      unfold ret; cbn [snd] in *.
    + destruct Hg as [->|(g0 & -> & Hg0)]; [exact H|].
      intros g' Hlt. unfold ManagedContext.guard_at in *.
      cbn [guards with_guards] in *. rewrite length_app in Hlt. cbn in Hlt.
      destruct (decide (g' < length (guards s))) as [Hl|Hge].
      * rewrite lookup_app_l by exact Hl. apply H, Hl.
      * replace g' with (length (guards s)) by lia.
        rewrite list_lookup_middle by reflexivity. cbn. rewrite Hg0. discriminate.
    + destruct Hg as [->|(g0 & -> & Hg0)]; [exact H|].
      intros g' Hlt. unfold ManagedContext.guard_at in *.
      cbn [guards with_guards] in *. rewrite length_app in Hlt. cbn in Hlt.
      destruct (decide (g' < length (guards s))) as [Hl|Hge].
      * rewrite lookup_app_l by exact Hl. apply H, Hl.
      * replace g' with (length (guards s)) by lia.
        rewrite list_lookup_middle by reflexivity. cbn. rewrite Hg0. discriminate.
  - pose proof (guards_held_swap g tid s H) as K.
    unfold void, ManagedContext.__enter__, bind. rewrite swap_context_run in *.
    exact K.
  - unfold ManagedContext.__exit__.
    apply (stable_bind (preserving guards_held)); [| |exact H].
    + intros t. exact (guards_held_frame _ _
        (stable_guards_session _ (stable_disconnect_with_context g tid false) t)).
    + intros _ t. exact (guards_held_swap g tid t).
  - unfold ManagedContext.disconnect.
    apply (stable_bind (preserving guards_held)); [| |exact H].
    + intros t. exact (guards_held_swap g tid t).
    + intros _. apply (stable_bind (preserving guards_held)).
      * intros t. exact (guards_held_frame _ _
          (stable_guards_session _ (stable_disconnect_with_context g tid true) t)).
      * intros _ t. exact (guards_held_swap g tid t).
  - unfold void, ManagedContext.id, bind, gets.
    destruct (ManagedContext.guard_at s g); exact H.
Qed.

(** X20: in every state the process reaches, every guard holds a context,
    and that context exists: guards are made by [context_from_client_id]
    only, with the registered context, and a swap stores the context that was
    active.  So the guard's [id] property never raises its [ValueError]: it
    returns the client id stored in the held context. *)
Theorem reachable_guards_hold_context s g :
  reachable s ->
  g < length (guards s) ->
  exists c,
    ManagedContext.guard_at s g = Some c /\
    c < length (heap s) /\
    ManagedContext.id g s = (Ok (_client_id (ctx_at s c)), s).
Proof.
  intros R Hlt.
  assert (H : guards_held s).
  { clear g Hlt. induction R as [main vi env mode|s tid c _ IH _|s w up node _ IH].
    - intros g Hlt. cbn in Hlt. lia.
    - apply guards_held_exec, IH.
    - exact IH. }
  apply reachable_consistent in R. destruct R as (_&_&_&_&_&_&C6).
  destruct (ManagedContext.guard_at s g) as [c|] eqn:Hg; [|destruct (H g Hlt Hg)].
  exists c. split; [reflexivity|]. split; [apply (C6 g c Hg)|].
  unfold ManagedContext.id, bind, gets. rewrite Hg. reflexivity.
Qed.

Lemma sample_run_guarded_reachable : reachable sample_run_guarded.
Proof. apply reach_call; [exact sample_run_reachable|exact I]. Defined.

Lemma reachable_guards_hold_context_witness :
  reachable sample_run_guarded /\
  0 < length (guards sample_run_guarded) /\
  ManagedContext.id 0 sample_run_guarded = (Ok (Some "session-1"), sample_run_guarded).
Proof.
  assert (H : 0 < length (guards sample_run_guarded)) by (vm_compute; lia).
  split; [exact sample_run_guarded_reachable|]. split; [exact H|].
  destruct (reachable_guards_hold_context sample_run_guarded 0
              sample_run_guarded_reachable H) as (c & Hg & _ & Hid).
  assert (Hc : ManagedContext.guard_at sample_run_guarded 0 = Some 0)
    by (vm_compute; reflexivity).
  rewrite Hc in Hg. injection Hg as <-. rewrite Hid. vm_compute. reflexivity.
Defined.
